(** * A shallow embedding of the personalized-tutoring RAG assistant

    The development follows the Python sources:

    - [docs+response generation/graph_nodes.py]       -> [Module GraphNodes]
    - [docs+response-generation/vector_store_manager.py] -> [Module VectorStoreManager]
    - [docs+response generation/document_processor.py] -> [Module DocumentProcessor]
    - [aitutor/upload_service.py]                     -> [Module UploadService]
    - [aitutor/main.py], [docs+response-generation/main.py] -> [Module RAGAssistant]
    - [aitutor/app1.py] (quiz entry point)            -> [Module App1]
    - [aitutor/app1.py] (accounts, quiz answers)      -> [Module AuthSystem],
                                                         [Module QuizPage]
    - [aitutor/upload_service.py] (listing)           -> [Module UploadListing]
    - [textdoc_retrieval_app.py]                      -> [Module TextdocApp],
                                                         [Module TextdocUpload]
    - [RAG_implementation/main.py]                    -> [Module TwoStage]

    Python code runs in a small state-and-exception monad [Py] over a
    [World] holding the persisted Chroma collections, the log of LLM
    completion calls and the messages shown to the user.  Everything the
    program obtains from outside (the LLM, the embedding service, the text
    splitter, the file system) is a field of the environment record [Env]. *)

From Stdlib Require Import ZArith Lia Ascii String.
From stdpp Require Import base option list gmap strings sorting.

Local Open Scope string_scope.

(** ** Python strings *)

Module PyStr.

(** [sep.join(parts)] *)
Fixpoint join (sep : string) (parts : list string) : string :=
  match parts with
  | [] => EmptyString
  | [p] => p
  | p :: rest => p +:+ sep +:+ join sep rest
  end.

(** Truth value of a [str]: the empty string is falsy. *)
Definition truthy (s : string) : bool :=
  match s with
  | EmptyString => false
  | String _ _ => true
  end.

(** The ASCII characters removed by [str.strip()] with no argument. *)
Definition is_space (c : ascii) : bool :=
  let n := nat_of_ascii c in
  (Nat.eqb n 32) || ((Nat.leb 9 n) && (Nat.leb n 13))
  || ((Nat.leb 28 n) && (Nat.leb n 31)).

Fixpoint lstrip (s : string) : string :=
  match s with
  | String c rest => if is_space c then lstrip rest else s
  | EmptyString => EmptyString
  end.

Fixpoint rstrip (s : string) : string :=
  match s with
  | EmptyString => EmptyString
  | String c rest =>
      match rstrip rest with
      | EmptyString => if is_space c then EmptyString else String c EmptyString
      | r => String c r
      end
  end.

Definition strip (s : string) : string := rstrip (lstrip s).

Definition lower_char (c : ascii) : ascii :=
  let n := nat_of_ascii c in
  if (Nat.leb 65 n) && (Nat.leb n 90) then ascii_of_nat (n + 32) else c.

Definition upper_char (c : ascii) : ascii :=
  let n := nat_of_ascii c in
  if (Nat.leb 97 n) && (Nat.leb n 122) then ascii_of_nat (n - 32) else c.

Fixpoint map_chars (f : ascii -> ascii) (s : string) : string :=
  match s with
  | EmptyString => EmptyString
  | String c rest => String (f c) (map_chars f rest)
  end.

(** [s.lower()] and [s.upper()] on ASCII text. *)
Definition lower : string -> string := map_chars lower_char.
Definition upper : string -> string := map_chars upper_char.

(** [s.startswith(p)]: the remainder after [p] when [p] is a prefix. *)
Fixpoint drop_prefix (p s : string) : option string :=
  match p, s with
  | EmptyString, _ => Some s
  | String a p', String b s' =>
      if Ascii.eqb a b then drop_prefix p' s' else None
  | String _ _, EmptyString => None
  end.

(** [s.replace(old, new)] for a non-empty [old]: occurrences are
    replaced left to right, without overlap. *)
Fixpoint replace_fuel (fuel : nat) (old new s : string) : string :=
  match fuel with
  | O => s
  | S fuel' =>
      match drop_prefix old s with
      | Some rest => new +:+ replace_fuel fuel' old new rest
      | None =>
          match s with
          | EmptyString => EmptyString
          | String c rest => String c (replace_fuel fuel' old new rest)
          end
      end
  end.

Definition replace (old new s : string) : string :=
  replace_fuel (S (String.length s)) old new s.

(** The line feed and the double quote. *)
Definition nl : string := String (ascii_of_nat 10) EmptyString.
Definition dq : string := String (ascii_of_nat 34) EmptyString.

(** The characters of a string held as UTF-8 bytes: a continuation
    byte belongs to the character before it. *)
Definition is_continuation (c : ascii) : bool :=
  let n := nat_of_ascii c in Nat.leb 128 n && Nat.leb n 191.

Fixpoint chars_from (cur : string) (s : string) : list string :=
  match s with
  | EmptyString => match cur with EmptyString => [] | _ => [cur] end
  | String c rest =>
      if is_continuation c then chars_from (cur +:+ String c EmptyString) rest
      else match cur with
           | EmptyString => chars_from (String c EmptyString) rest
           | _ => cur :: chars_from (String c EmptyString) rest
           end
  end.

Definition chars (s : string) : list string := chars_from EmptyString s.

(** [len(s)] and [s[:n]] *)
Definition len (s : string) : nat := length (chars s).
Definition prefix (n : nat) (s : string) : string :=
  foldr String.append EmptyString (take n (chars s)).

(** [needle in hay] *)
Definition contains (needle hay : string) : Prop :=
  exists pre post, hay = pre +:+ needle +:+ post.

End PyStr.

(** ** Exceptions and the [Py] monad *)

Inductive exn : Type :=
| AttributeError (cls attr : string)
| TypeError (msg : string)
| KeyError (key : string)
| JSONDecodeError (msg : string)
| EOFError
| ServiceError (msg : string).   (* raised by an external service *)

(** [str(e)] *)
Definition str_exn (e : exn) : string :=
  match e with
  | AttributeError cls attr =>
      "'" +:+ cls +:+ "' object has no attribute '" +:+ attr +:+ "'"
  | TypeError msg => msg
  | KeyError key => "'" +:+ key +:+ "'"
  | JSONDecodeError msg => msg
  | EOFError => "EOF when reading a line"
  | ServiceError msg => msg
  end.

Inductive outcome (A : Type) : Type :=
| Return (a : A)
| Raise (e : exn).
Arguments Return {A} a.
Arguments Raise {A} e.

(** ** The JSON decoder of the standard library *)

Module Json.

#[warnings="-register-all"]
Inductive value : Type :=
| Null
| Bool (b : bool)
| Int (z : Z)
| Float (mantissa exp10 : Z)
| NaN
| Infinity (negative : bool)
| Str (s : string)
| List (items : list value)
| Dict (entries : list (string * value)).

(** The result of a scanning step: a value and the unread text, a decode
    error, or recursion budget exhausted. *)
Inductive scan (A : Type) : Type :=
| Scanned (a : A) (rest : string)
| Invalid (msg : string)
| OutOfFuel.
Arguments Scanned {A} a rest.
Arguments Invalid {A} msg.
Arguments OutOfFuel {A}.

Definition is_ws (c : ascii) : bool :=
  let n := nat_of_ascii c in
  Nat.eqb n 32 || Nat.eqb n 9 || Nat.eqb n 10 || Nat.eqb n 13.

Fixpoint skip_ws (s : string) : string :=
  match s with
  | String c rest => if is_ws c then skip_ws rest else s
  | EmptyString => s
  end.

Definition digit (c : ascii) : option Z :=
  let n := nat_of_ascii c in
  if Nat.leb 48 n && Nat.leb n 57 then Some (Z.of_nat (n - 48)) else None.

Definition hex_digit (c : ascii) : option Z :=
  let n := nat_of_ascii c in
  if Nat.leb 48 n && Nat.leb n 57 then Some (Z.of_nat (n - 48))
  else if Nat.leb 97 n && Nat.leb n 102 then Some (Z.of_nat (n - 87))
  else if Nat.leb 65 n && Nat.leb n 70 then Some (Z.of_nat (n - 55))
  else None.

(** The longest run of decimal digits at the head of [s]: its value on
    top of [acc], the number of digits read, and the rest. *)
Fixpoint digits (s : string) (acc : Z) (count : nat) : Z * nat * string :=
  match s with
  | String c rest =>
      match digit c with
      | Some d => digits rest (acc * 10 + d)%Z (S count)
      | None => (acc, count, s)
      end
  | EmptyString => (acc, count, s)
  end.

(** The integer part: a single zero, or a non-zero digit and the
    digits after it. *)
Definition int_part (s : string) : option (Z * string) :=
  match s with
  | String c rest =>
      match digit c with
      | Some 0%Z => Some (0%Z, rest)
      | Some d => let '(n, _, rest') := digits rest d 1 in Some (n, rest')
      | None => None
      end
  | EmptyString => None
  end.

(** The optional fraction, a dot and at least one digit: the digits
    appended to the mantissa and their number. *)
Definition frac_part (m : Z) (s : string) : option (Z * nat * string) :=
  match s with
  | String "." rest =>
      match digits rest m 0 with
      | (_, O, _) => None
      | r => Some r
      end
  | _ => None
  end.

(** The optional exponent: e or E, an optional sign, at least one
    digit. *)
Definition exp_part (s : string) : option (Z * string) :=
  match s with
  | String c rest =>
      if Ascii.eqb c "e" || Ascii.eqb c "E" then
        let '(negative, rest') :=
          match rest with
          | String "-" r => (true, r)
          | String "+" r => (false, r)
          | _ => (false, rest)
          end in
        match digits rest' 0 0 with
        | (_, O, _) => None
        | (n, _, rest'') => Some (if negative then (- n)%Z else n, rest'')
        end
      else None
  | EmptyString => None
  end.

(** [NUMBER_RE.match]: an integer literal becomes an [Int], a literal
    with a fraction or an exponent a [Float] (the decimal
    [mantissa * 10 ^ exp10], which Python rounds to a double). *)
Definition match_number (s : string) : option (value * string) :=
  let '(negative, body) :=
    match s with
    | String "-" r => (true, r)
    | _ => (false, s)
    end in
  match int_part body with
  | None => None
  | Some (n, rest) =>
      let sign (z : Z) := if negative then (- z)%Z else z in
      match frac_part n rest with
      | Some (m, k, rest') =>
          match exp_part rest' with
          | Some (e, rest'') => Some (Float (sign m) (e - Z.of_nat k), rest'')
          | None => Some (Float (sign m) (- Z.of_nat k), rest')
          end
      | None =>
          match exp_part rest with
          | Some (e, rest') => Some (Float (sign n) e, rest')
          | None => Some (Int (sign n), rest)
          end
      end
  end.

Definition byte (z : Z) : ascii := ascii_of_N (Z.to_N z).

(** UTF-8 bytes of a code point (a lone surrogate keeps its three-byte
    form). *)
Definition utf8 (n : Z) : string :=
  if (n <? 128)%Z then String (byte n) EmptyString
  else if (n <? 2048)%Z then
    String (byte (192 + n / 64)) (String (byte (128 + n mod 64)) EmptyString)
  else if (n <? 65536)%Z then
    String (byte (224 + n / 4096))
      (String (byte (128 + (n / 64) mod 64))
         (String (byte (128 + n mod 64)) EmptyString))
  else
    String (byte (240 + n / 262144))
      (String (byte (128 + (n / 4096) mod 64))
         (String (byte (128 + (n / 64) mod 64))
            (String (byte (128 + n mod 64)) EmptyString))).

(** Four hexadecimal digits. *)
Definition hex4 (s : string) : option (Z * string) :=
  match s with
  | String a (String b (String c (String d rest))) =>
      match hex_digit a, hex_digit b, hex_digit c, hex_digit d with
      | Some x, Some y, Some z, Some t =>
          Some ((((x * 16 + y) * 16 + z) * 16 + t)%Z, rest)
      | _, _, _, _ => None
      end
  | _ => None
  end.

(** What follows [\u]: a code unit, joined with a following low
    surrogate escape when it is a high surrogate. *)
Definition unicode_escape (s : string) : option (Z * string) :=
  match hex4 s with
  | None => None
  | Some (n, rest) =>
      if (55296 <=? n)%Z && (n <=? 56319)%Z then
        match rest with
        | String "\" (String "u" rest') =>
            match hex4 rest' with
            | Some (n2, rest'') =>
                if (56320 <=? n2)%Z && (n2 <=? 57343)%Z
                then Some ((65536 + ((n - 55296) * 1024 + (n2 - 56320)))%Z, rest'')
                else Some (n, rest)
            | None => Some (n, rest)
            end
        | _ => Some (n, rest)
        end
      else Some (n, rest)
  end.

Definition simple_escape (c : ascii) : option ascii :=
  let n := nat_of_ascii c in
  if Nat.eqb n 34 then Some c                           (* quote *)
  else if Ascii.eqb c "\" then Some c
  else if Ascii.eqb c "/" then Some c
  else if Ascii.eqb c "b" then Some (ascii_of_nat 8)
  else if Ascii.eqb c "f" then Some (ascii_of_nat 12)
  else if Ascii.eqb c "n" then Some (ascii_of_nat 10)
  else if Ascii.eqb c "r" then Some (ascii_of_nat 13)
  else if Ascii.eqb c "t" then Some (ascii_of_nat 9)
  else None.

(** [scanstring], strict: the text after the opening quote up to the
    closing one, escapes decoded, control characters refused. *)
Fixpoint scanstring (fuel : nat) (s : string) : scan string :=
  match fuel with
  | O => OutOfFuel
  | S fuel' =>
      match s with
      | EmptyString => Invalid "Unterminated string starting at"
      | String c rest =>
          if Nat.eqb (nat_of_ascii c) 34 then Scanned EmptyString rest
          else if Nat.ltb (nat_of_ascii c) 32 then Invalid "Invalid control character at"
          else if Ascii.eqb c "\" then
            match rest with
            | EmptyString => Invalid "Unterminated string starting at"
            | String "u" rest' =>
                match unicode_escape rest' with
                | Some (n, rest'') =>
                    match scanstring fuel' rest'' with
                    | Scanned tail r => Scanned (utf8 n +:+ tail) r
                    | other => other
                    end
                | None => Invalid "Invalid \uXXXX escape"
                end
            | String e rest' =>
                match simple_escape e with
                | Some d =>
                    match scanstring fuel' rest' with
                    | Scanned tail r => Scanned (String d tail) r
                    | other => other
                    end
                | None => Invalid "Invalid \escape"
                end
            end
          else
            match scanstring fuel' rest with
            | Scanned tail r => Scanned (String c tail) r
            | other => other
            end
      end
  end.

(** [dict(pairs)]: a repeated key keeps its first position and takes the
    last value. *)
Fixpoint dict_set (k : string) (v : value) (d : list (string * value))
  : list (string * value) :=
  match d with
  | [] => [(k, v)]
  | (k', v') :: rest =>
      if String.eqb k k' then (k, v) :: rest else (k', v') :: dict_set k v rest
  end.

(** The text after the character [c] when [s] starts with it. *)
Definition eat (c : ascii) (s : string) : option string :=
  match s with
  | String c' rest => if Ascii.eqb c c' then Some rest else None
  | EmptyString => None
  end.

(** A name of the decoder's literals at the head of [s]. *)
Definition literal (s : string) : option (value * string) :=
  match PyStr.drop_prefix "null" s, PyStr.drop_prefix "true" s,
        PyStr.drop_prefix "false" s with
  | Some r, _, _ => Some (Null, r)
  | _, Some r, _ => Some (Bool true, r)
  | _, _, Some r => Some (Bool false, r)
  | _, _, _ => None
  end.

(** The names of the floats that are no numbers. *)
Definition constant (s : string) : option (value * string) :=
  match PyStr.drop_prefix "NaN" s, PyStr.drop_prefix "Infinity" s,
        PyStr.drop_prefix "-Infinity" s with
  | Some r, _, _ => Some (NaN, r)
  | _, Some r, _ => Some (Infinity false, r)
  | _, _, Some r => Some (Infinity true, r)
  | _, _, _ => None
  end.

(** A string between quotes, the opening quote already read. *)
Definition scan_quoted (s : string) : scan string :=
  scanstring (S (String.length s)) s.

(** [scan_once] of the decoder, with [JSONObject] and [JSONArray]. *)
Fixpoint scan_once (fuel : nat) (s : string) {struct fuel} : scan value :=
  match fuel with
  | O => OutOfFuel
  | S fuel' =>
      match eat (ascii_of_nat 34) s, eat "{" s, eat "[" s with
      | Some rest, _, _ =>
          match scan_quoted rest with
          | Scanned str r => Scanned (Str str) r
          | Invalid m => Invalid m
          | OutOfFuel => OutOfFuel
          end
      | None, Some rest, _ =>
          match eat "}" (skip_ws rest) with
          | Some r => Scanned (Dict []) r
          | None => scan_pairs fuel' (skip_ws rest) []
          end
      | None, None, Some rest =>
          match eat "]" (skip_ws rest) with
          | Some r => Scanned (List []) r
          | None => scan_items fuel' (skip_ws rest) []
          end
      | None, None, None =>
          match literal s, match_number s, constant s with
          | Some (v, r), _, _ => Scanned v r
          | None, Some (v, r), _ => Scanned v r
          | None, None, Some (v, r) => Scanned v r
          | None, None, None => Invalid "Expecting value"
          end
      end
  end
with scan_items (fuel : nat) (s : string) (acc : list value) {struct fuel}
  : scan value :=
  match fuel with
  | O => OutOfFuel
  | S fuel' =>
      match scan_once fuel' s with
      | Scanned v r =>
          match eat "]" (skip_ws r), eat "," (skip_ws r) with
          | Some r', _ => Scanned (List (acc ++ [v])) r'
          | None, Some r' => scan_items fuel' (skip_ws r') (acc ++ [v])
          | None, None => Invalid "Expecting ',' delimiter"
          end
      | other => other
      end
  end
with scan_pairs (fuel : nat) (s : string) (acc : list (string * value))
  {struct fuel} : scan value :=
  match fuel with
  | O => OutOfFuel
  | S fuel' =>
      match eat (ascii_of_nat 34) s with
      | None => Invalid "Expecting property name enclosed in double quotes"
      | Some rest =>
          match scan_quoted rest with
          | Invalid m => Invalid m
          | OutOfFuel => OutOfFuel
          | Scanned k r =>
              match eat ":" (skip_ws r) with
              | None => Invalid "Expecting ':' delimiter"
              | Some r' =>
                  match scan_once fuel' (skip_ws r') with
                  | Scanned v r'' =>
                      match eat "}" (skip_ws r''), eat "," (skip_ws r'') with
                      | Some r3, _ => Scanned (Dict (dict_set k v acc)) r3
                      | None, Some r3 =>
                          scan_pairs fuel' (skip_ws r3) (dict_set k v acc)
                      | None, None => Invalid "Expecting ',' delimiter"
                      end
                  | other => other
                  end
              end
          end
      end
  end.

(** [json.loads(s)]: one value between optional white space.  Limits of
    the interpreter (recursion depth, length of integer literals) are not
    part of the model; the fuel given by [loads] always suffices
    ([loads_fuel_enough] below). *)
Definition loads_fuel (fuel : nat) (s : string) : scan value :=
  match scan_once fuel (skip_ws s) with
  | Scanned v rest =>
      match skip_ws rest with
      | EmptyString => Scanned v EmptyString
      | String _ _ => Invalid "Extra data"
      end
  | other => other
  end.

Definition loads (s : string) : outcome value :=
  match loads_fuel (2 * String.length s + 1) s with
  | Scanned v _ => Return v
  | Invalid m => Raise (JSONDecodeError m)
  | OutOfFuel => Raise (JSONDecodeError "recursion budget exhausted")
  end.

(** A double is zero when the decimal [mantissa * 10 ^ exp10] is at most
    half the least subnormal, [2 ^ -1075]. *)
Definition float_is_zero (mantissa exp10 : Z) : bool :=
  (mantissa =? 0)%Z
  || ((exp10 <? 0)%Z
      && (Z.abs mantissa * 2 ^ 1075 <=? 10 ^ (- exp10))%Z).

(** Truth value of a decoded value. *)
Definition truthy (v : value) : bool :=
  match v with
  | Null => false
  | Bool b => b
  | Int z => negb (z =? 0)%Z
  | Float m e => negb (float_is_zero m e)
  | NaN => true
  | Infinity _ => true
  | Str s => PyStr.truthy s
  | List items => match items with [] => false | _ :: _ => true end
  | Dict entries => match entries with [] => false | _ :: _ => true end
  end.

(** [d.get(key)] on a decoded object. *)
Fixpoint lookup (key : string) (entries : list (string * value))
  : option value :=
  match entries with
  | [] => None
  | (k, v) :: rest => if String.eqb key k then Some v else lookup key rest
  end.

End Json.

(** A [Document] of langchain: text and a flat metadata dictionary. *)
Record Document : Type := mkDocument {
  page_content : string;
  metadata : gmap string string
}.

(** A Chroma vector store is addressed by its persistence directory and
    its collection name. *)
Record Chroma : Type := mkChroma {
  persist_directory : string;
  collection_name : string
}.

(** What the user is shown: a line of text, a text followed by [str(v)]
    of a decoded value, or the stack trace of an exception. *)
Inductive output : Type :=
| Text (s : string)
| TextValue (s : string) (v : Json.value)
| Traceback (e : exn).        (* [traceback.format_exc()] *)

(** What is observable of a run: the persisted collections, the batches
    handed to [add_documents] (oldest first), the prompts sent to the LLM
    (oldest first), the lines shown to the user ([print], [st.error],
    [st.warning]) and the lines still to be typed by the user. *)
Record World : Type := mkWorld {
  disk : gmap (string * string) (list Document);
  add_log : list (Chroma * list Document);
  llm_log : list string;
  console : list output;
  stdin : list string
}.

Definition with_disk (d : gmap (string * string) (list Document)) (w : World)
  : World := mkWorld d (add_log w) (llm_log w) (console w) (stdin w).
Definition with_add_log (l : list (Chroma * list Document)) (w : World)
  : World := mkWorld (disk w) l (llm_log w) (console w) (stdin w).
Definition with_llm_log (l : list string) (w : World) : World :=
  mkWorld (disk w) (add_log w) l (console w) (stdin w).
Definition with_console (l : list output) (w : World) : World :=
  mkWorld (disk w) (add_log w) (llm_log w) l (stdin w).
Definition with_stdin (l : list string) (w : World) : World :=
  mkWorld (disk w) (add_log w) (llm_log w) (console w) l.

Definition Py (A : Type) : Type := World -> outcome A * World.

Definition ret {A} (a : A) : Py A := fun w => (Return a, w).
Definition raise {A} (e : exn) : Py A := fun w => (Raise e, w).
Definition bind {A B} (m : Py A) (k : A -> Py B) : Py B :=
  fun w =>
    match m w with
    | (Return a, w') => k a w'
    | (Raise e, w') => (Raise e, w')
    end.

Notation "'do' x <- m ; k" := (bind m (fun x => k))
  (at level 10, x name, m at level 100, k at level 200,
   format "'[v' 'do'  x  <-  m ; '/' k ']'").
Notation "'run' m ; k" := (bind m (fun _ => k))
  (at level 10, m at level 100, k at level 200,
   format "'[v' 'run'  m ; '/' k ']'").

(** [try: body  except <caught> as e: handler e]; an exception outside
    [caught] propagates. *)
Definition try_except {A} (body : Py A) (caught : exn -> bool)
    (handler : exn -> Py A) : Py A :=
  fun w =>
    match body w with
    | (Return a, w') => (Return a, w')
    | (Raise e, w') => if caught e then handler e w' else (Raise e, w')
    end.

(** [except Exception] *)
Definition any_exception (e : exn) : bool := true.

Definition show (o : output) : Py unit :=
  fun w => (Return tt, with_console (console w ++ [o])%list w).

Definition print (line : string) : Py unit := show (Text line).

(** [input(prompt)] *)
Definition input (prompt : string) : Py string :=
  run print prompt;
  fun w =>
    match stdin w with
    | line :: rest => (Return line, with_stdin rest w)
    | [] => (Raise EOFError, w)
    end.

(** ** The environment *)

(** A [pathlib.Path] as the program uses it: [str(p)] and [p.name]. *)
Record Path : Type := mkPath {
  path_str : string;
  path_name : string
}.

Record Env : Type := mkEnv {
  (** [llm.invoke(prompt).content], given the prompts sent so far; an
      unreachable or failing provider raises *)
  llm_complete : list string -> string -> outcome string;
  (** drawing the workflow graph with [draw_mermaid_png] *)
  draw_mermaid_png : outcome unit;
  (** does the embedding service answer for this text? *)
  embeds : string -> bool;
  (** closeness of a stored text to a query under the embedding *)
  similarity : string -> string -> Z;
  (** is the Chroma store behind this handle reachable? *)
  store_up : Chroma -> bool;
  (** [RecursiveCharacterTextSplitter(chunk_size, chunk_overlap).split_text] *)
  split_text : nat -> nat -> string -> list string;
  (** [Path(directory).exists()] *)
  dir_exists : string -> bool;
  (** [Path(directory).glob(pattern)] *)
  glob : string -> string -> list Path;
  (** the page texts [page.extract_text()] of a PDF, or the exception
      raised while opening or reading it *)
  pdf_pages : string -> outcome (list string);
  (** [open(path, encoding="utf-8").read()], or the exception raised *)
  read_text : string -> outcome string
}.

(** ** Chroma collections (langchain_chroma) *)

Module ChromaStore.

Definition key (c : Chroma) : string * string :=
  (persist_directory c, collection_name c).

(** The documents persisted in a collection; a collection that was never
    created holds none. *)
Definition documents (c : Chroma) (w : World) : list Document :=
  default [] (disk w !! key c).

Definition set_documents (c : Chroma) (docs : list Document) (w : World)
  : World := with_disk (<[key c := docs]> (disk w)) w.

Definition check_up (env : Env) (c : Chroma) : Py unit :=
  if store_up env c then ret tt
  else raise (ServiceError "vector store unavailable").

(** [Chroma(collection_name=..., persist_directory=...)]: opens the
    collection, creating it empty when the directory does not hold it. *)
Definition open (env : Env) (dir name : string) : Py Chroma :=
  let c := mkChroma dir name in
  run check_up env c;
  fun w =>
    match disk w !! key c with
    | Some _ => (Return c, w)
    | None => (Return c, set_documents c [] w)
    end.

(** [add_documents]: every text is embedded, then all are appended. *)
Definition add_documents (env : Env) (c : Chroma) (docs : list Document)
  : Py unit :=
  run (fun w => (Return tt, with_add_log (add_log w ++ [(c, docs)])%list w));
  run check_up env c;
  if forallb (fun d => embeds env (page_content d)) docs
  then fun w => (Return tt, set_documents c (documents c w ++ docs)%list w)
  else raise (ServiceError "embedding request failed").

(** [reset_collection]: the collection is deleted and created anew. *)
Definition reset_collection (env : Env) (c : Chroma) : Py unit :=
  run check_up env c;
  fun w => (Return tt, set_documents c [] w).

(** [get()]: all stored documents, in insertion order. *)
Definition get (env : Env) (c : Chroma) : Py (list Document) :=
  run check_up env c;
  fun w => (Return (documents c w), w).

(** Best-first order of stored documents for a query. *)
Definition closer (env : Env) (query : string) (d1 d2 : Document) : Prop :=
  (similarity env query (page_content d2)
     <= similarity env query (page_content d1))%Z.

#[global] Instance closer_dec env query d1 d2 :
  Decision (closer env query d1 d2).
Proof. unfold closer. apply _. Defined.

(** [as_retriever(search_kwargs={"k": k}).invoke(query)]: the query is
    embedded and the [k] closest documents are returned, best first. *)
Definition retrieve (env : Env) (c : Chroma) (k : nat) (query : string)
  : Py (list Document) :=
  run check_up env c;
  if embeds env query
  then fun w =>
         (Return (take k (merge_sort (closer env query) (documents c w))), w)
  else raise (ServiceError "embedding request failed").

End ChromaStore.

(** ** langchain's [VectorStoreRetrieverMemory] with its default keys *)

Module RetrieverMemory.

(** [_form_documents]: one line ["key: value"] per entry of the two
    dictionaries, inputs first, in a document without metadata. *)
Definition form_documents (inputs outputs : list (string * string))
  : list Document :=
  let texts := map (fun kv => fst kv +:+ ": " +:+ snd kv) (inputs ++ outputs)%list in
  [mkDocument (PyStr.join PyStr.nl texts) ∅].

Definition save_context (env : Env) (c : Chroma)
    (inputs outputs : list (string * string)) : Py unit :=
  ChromaStore.add_documents env c (form_documents inputs outputs).

(** [load_memory_variables({"input": query})]: the dictionary
    [{"history": text}], represented by its single value. *)
Definition load_memory_variables (env : Env) (c : Chroma) (k : nat)
    (query : string) : Py (gmap string string) :=
  do docs <- ChromaStore.retrieve env c k query;
  ret {[ "history" := PyStr.join PyStr.nl (map page_content docs) ]}.

End RetrieverMemory.

(** ** vector_store_manager.py *)

Module VectorStoreManager.

Record t : Type := mk {
  memory_vectorstore : Chroma;
  knowledge_vectorstore : Chroma;
  memory_k : nat;        (* search_kwargs of self.memory's retriever *)
  knowledge_k : nat      (* search_kwargs of self.knowledge_retriever *)
}.

Definition init (env : Env) (memory_dir kb_dir : string) : Py t :=
  do m <- ChromaStore.open env memory_dir "long_term_memory";
  do k <- ChromaStore.open env kb_dir "knowledge_base";
  ret (mk m k 5 3).

Definition reset_collections (env : Env) (self : t) : Py unit :=
  run ChromaStore.reset_collection env (memory_vectorstore self);
  run ChromaStore.reset_collection env (knowledge_vectorstore self);
  print "🧹 Chroma memory and knowledge base have been reset.".

Definition add_documents_to_knowledge_base (env : Env) (self : t)
    (documents : list Document) : Py bool :=
  try_except
    (run ChromaStore.add_documents env (knowledge_vectorstore self) documents;
     ret true)
    any_exception
    (fun e =>
       run print ("❌ Error adding documents to knowledge base: " +:+ str_exn e);
       ret false).

Record status : Type := mkStatus {
  total_chunks : nat;
  file_types : gmap string nat;
  success : bool;
  error : option string
}.

(** The loop over [metadatas] counting chunks per [file_type]. *)
Definition count_file_types (docs : list Document) : gmap string nat :=
  foldl (fun (acc : gmap string nat) d =>
           match metadata d !! "file_type" with
           | Some file_type => <[file_type := default 0 (acc !! file_type) + 1]> acc
           | None => acc
           end) ∅ docs.

Definition get_knowledge_base_status (env : Env) (self : t) : Py status :=
  try_except
    (do collection <- ChromaStore.get env (knowledge_vectorstore self);
     let doc_count := length collection in
     let file_types :=
       if Nat.ltb 0 doc_count then count_file_types collection else ∅ in
     ret (mkStatus doc_count file_types true None))
    any_exception
    (fun e => ret (mkStatus 0 ∅ false (Some (str_exn e)))).

Definition save_memory_context (env : Env) (self : t)
    (input_text output_text : string) : Py unit :=
  RetrieverMemory.save_context env (memory_vectorstore self)
    [("input", input_text)] [("output", output_text)].

Definition load_memory_variables (env : Env) (self : t)
    (input_text : string) : Py string :=
  do memory_result <- RetrieverMemory.load_memory_variables env
                        (memory_vectorstore self) (memory_k self) input_text;
  ret (default EmptyString (memory_result !! "history")).

Definition retrieve_knowledge (env : Env) (self : t) (query : string)
  : Py string :=
  do docs <- ChromaStore.retrieve env (knowledge_vectorstore self)
               (knowledge_k self) query;
  ret (PyStr.join PyStr.nl (map page_content docs)).

(** The attributes a [VectorStoreManager] instance answers to: the
    methods of the class and the fields set by [__init__]. *)
Inductive attribute : Type :=
| A_init | A_reset_collections | A_add_documents_to_knowledge_base
| A_get_knowledge_base_status | A_save_memory_context
| A_load_memory_variables | A_retrieve_knowledge
| A_embedding | A_memory_vectorstore | A_knowledge_vectorstore
| A_memory | A_knowledge_retriever.

Definition attributes : list (string * attribute) :=
  [ ("__init__", A_init);
    ("reset_collections", A_reset_collections);
    ("add_documents_to_knowledge_base", A_add_documents_to_knowledge_base);
    ("get_knowledge_base_status", A_get_knowledge_base_status);
    ("save_memory_context", A_save_memory_context);
    ("load_memory_variables", A_load_memory_variables);
    ("retrieve_knowledge", A_retrieve_knowledge);
    ("embedding", A_embedding);
    ("memory_vectorstore", A_memory_vectorstore);
    ("knowledge_vectorstore", A_knowledge_vectorstore);
    ("memory", A_memory);
    ("knowledge_retriever", A_knowledge_retriever) ].

(** [getattr(vector_manager, name)] *)
Definition getattr (name : string) : Py attribute :=
  match list_find (fun kv => fst kv = name) attributes with
  | Some (_, (_, a)) => ret a
  | None => raise (AttributeError "VectorStoreManager" name)
  end.

End VectorStoreManager.

(** An outcome obtained from the environment, as a computation. *)
Definition lift {A} (o : outcome A) : Py A := fun w => (o, w).

(** ** document_processor.py *)

Module DocumentProcessor.

Record t : Type := mk {
  chunk_size : nat;
  chunk_overlap : nat
}.

(** [file_path.suffix]: the text from the last dot of the name on, when
    that dot is neither the first nor the last character. *)
Fixpoint rfind_dot (s : string) (i : nat) (last : option nat) : option nat :=
  match s with
  | EmptyString => last
  | String c rest =>
      rfind_dot rest (S i) (if Ascii.eqb c "." then Some i else last)
  end.

Definition suffix (name : string) : string :=
  match rfind_dot name 0 None with
  | Some i =>
      if Nat.ltb 0 i && Nat.ltb i (String.length name - 1)
      then String.substring i (String.length name - i) name
      else EmptyString
  | None => EmptyString
  end.

Definition extract_text_from_pdf (env : Env) (pdf_path : string) : Py string :=
  try_except
    (do pages <- lift (pdf_pages env pdf_path);
     let text := foldl (fun text page => text +:+ page +:+ PyStr.nl)
                       EmptyString pages in
     ret (PyStr.strip text))
    any_exception
    (fun e =>
       run print ("❌ Error reading PDF " +:+ pdf_path +:+ ": " +:+ str_exn e);
       ret EmptyString).

Definition extract_text_from_txt (env : Env) (txt_path : string) : Py string :=
  try_except
    (do content <- lift (read_text env txt_path);
     ret (PyStr.strip content))
    any_exception
    (fun e =>
       run print ("❌ Error reading TXT " +:+ txt_path +:+ ": " +:+ str_exn e);
       ret EmptyString).

(** [self.splitter.create_documents([content], metadatas=[m])]: one
    document per chunk, each carrying [m]. *)
Definition create_documents (env : Env) (self : t) (content : string)
    (m : gmap string string) : list Document :=
  map (fun chunk => mkDocument chunk m)
      (split_text env (chunk_size self) (chunk_overlap self) content).

Definition file_metadata (file_path : Path) (file_type : string)
  : gmap string string :=
  <["source" := path_str file_path]>
    (<["filename" := path_name file_path]>
       (<["file_type" := file_type]> ∅)).

Definition split_file (env : Env) (self : t) (file_path : Path)
    (content file_type : string) : Py (list Document * bool) :=
  if negb (PyStr.truthy content) then ret ([], false)
  else ret (create_documents env self content
              (file_metadata file_path file_type), true).

Definition process_file (env : Env) (self : t) (file_path : Path)
  : Py (list Document * bool) :=
  let file_extension := PyStr.lower (suffix (path_name file_path)) in
  if String.eqb file_extension ".pdf" then
    do content <- extract_text_from_pdf env (path_str file_path);
    split_file env self file_path content "pdf"
  else if String.eqb file_extension ".txt" then
    do content <- extract_text_from_txt env (path_str file_path);
    split_file env self file_path content "txt"
  else ret ([], false).

Definition get_files_by_type (env : Env) (directory : string)
    (file_types : option (list string)) : list Path :=
  let file_types := default [".pdf"; ".txt"] file_types in
  if negb (dir_exists env directory) then []
  else foldl (fun files file_type =>
                (files ++ glob env directory ("*" +:+ file_type))%list)
             [] file_types.

End DocumentProcessor.

(** ** upload_service.py *)

Module UploadService.

Record t : Type := mk {
  processor : DocumentProcessor.t;
  vector_manager : VectorStoreManager.t
}.

(** The text of [result['message']], by its template and the values
    substituted into it. *)
Inductive message : Type :=
| NoFilesWithExtensions (file_types : list string) (directory : string)
| AddedChunks (chunks files : nat) (per_type : list (string * nat))
| NoValidFiles.

Record result : Type := mkResult {
  success : bool;
  msg : message;
  processed_files : nat;
  total_chunks : nat;
  file_type_counts : option (gmap string nat)
}.

(** The variables the loop over [files] updates. *)
Record acc : Type := mkAcc {
  all_documents : list Document;
  acc_processed_files : nat;
  acc_file_type_counts : gmap string nat
}.

Definition processing_line (file_ext name : string) : string :=
  (if String.eqb file_ext ".pdf" then "📄" else "📝") +:+ " Processing "
  +:+ PyStr.upper file_ext +:+ ": " +:+ name.

(** One iteration of [for file_path in files]. *)
Definition loop_body (env : Env) (self : t) (a : acc) (file_path : Path)
  : Py acc :=
  let file_ext := PyStr.lower (DocumentProcessor.suffix (path_name file_path)) in
  run print (processing_line file_ext (path_name file_path));
  do r <- DocumentProcessor.process_file env (processor self) file_path;
  let '(documents, ok) := r in
  if ok then
    match acc_file_type_counts a !! file_ext with
    | Some n =>
        ret (mkAcc (all_documents a ++ documents)%list
                   (acc_processed_files a + 1)
                   (<[file_ext := n + 1]> (acc_file_type_counts a)))
    | None => raise (KeyError file_ext)
    end
  else
    run print ("⚠️ No text extracted from " +:+ path_name file_path);
    ret a.

Fixpoint loop (env : Env) (self : t) (a : acc) (files : list Path) : Py acc :=
  match files with
  | [] => ret a
  | file_path :: rest =>
      do a' <- loop_body env self a file_path;
      loop env self a' rest
  end.

Definition failure (m : message) : result := mkResult false m 0 0 None.

Definition upload_documents (env : Env) (self : t) (directory : string)
    (file_types : option (list string)) : Py result :=
  let file_types := default [".pdf"; ".txt"] file_types in
  let files := DocumentProcessor.get_files_by_type env directory (Some file_types) in
  match files with
  | [] => ret (failure (NoFilesWithExtensions file_types directory))
  | _ :: _ =>
      do a <- loop env self
                (mkAcc [] 0 (<[".pdf" := 0]> (<[".txt" := 0]> ∅))) files;
      match all_documents a with
      | [] => ret (failure NoValidFiles)
      | _ :: _ =>
          do ok <- VectorStoreManager.add_documents_to_knowledge_base env
                     (vector_manager self) (all_documents a);
          if ok then
            let counts := acc_file_type_counts a in
            let per_type :=
              filter (fun ec => 0 < snd ec)
                     (map (fun ext => (ext, default 0 (counts !! ext)))
                          [".pdf"; ".txt"]) in
            ret (mkResult true
                   (AddedChunks (length (all_documents a))
                                (acc_processed_files a) per_type)
                   (acc_processed_files a)
                   (length (all_documents a))
                   (Some counts))
          else ret (failure NoValidFiles)
      end
  end.

Definition upload_pdf_files (env : Env) (self : t) (directory : string)
  : Py result := upload_documents env self directory (Some [".pdf"]).

Definition upload_txt_files (env : Env) (self : t) (directory : string)
  : Py result := upload_documents env self directory (Some [".txt"]).

End UploadService.

(** ** upload_service.py: the listing of the uploads directory *)

Module UploadListing.

(** The dictionary [list_available_files] returns; a key that a branch
    does not set is [None]. *)
Record listing : Type := mkListing {
  dir_found : bool;                 (* 'exists' *)
  message : option string;
  pdf_files : list string;
  txt_files : list string;
  total_files : option nat
}.

Definition list_available_files (env : Env) (directory : string) : listing :=
  if negb (dir_exists env directory) then
    mkListing false (Some (directory +:+ " directory does not exist")) [] [] None
  else
    let pdf_files := glob env directory "*.pdf" in
    let txt_files := glob env directory "*.txt" in
    mkListing true None (map path_name pdf_files) (map path_name txt_files)
              (Some (length pdf_files + length txt_files)).

End UploadListing.

(** ** The LLM *)

(** [llm.invoke(...)] with a prompt: the call is recorded, then the
    provider answers or raises. *)
Definition llm_invoke (env : Env) (prompt : string) : Py string :=
  fun w =>
    (llm_complete env (llm_log w) prompt,
     with_llm_log (llm_log w ++ [prompt])%list w).

(** ** LangGraph: a [StateGraph] whose nodes form one chain *)

Module LangGraph.

(** A node receives the state and returns the keys it writes. *)
Definition node : Type := gmap string string -> Py (gmap string string).

(** One node run: the returned dictionary is written over the state key
    by key, and keys it does not mention keep their values. *)
Definition step (n : node) (state : gmap string string)
  : Py (gmap string string) :=
  do update <- n state;
  ret (update ∪ state).

(** [app.invoke(state)] for the chain [nodes]. *)
Fixpoint invoke (nodes : list node) (state : gmap string string)
  : Py (gmap string string) :=
  match nodes with
  | [] => ret state
  | n :: rest =>
      do state' <- step n state;
      invoke rest state'
  end.

(** The states of a run: the initial one and the state after each node
    that returned. *)
Fixpoint states (nodes : list node) (state : gmap string string) (w : World)
  : list (gmap string string) :=
  state ::
  match nodes with
  | [] => []
  | n :: rest =>
      match step n state w with
      | (Return state', w') => states rest state' w'
      | (Raise _, _) => []
      end
  end.

End LangGraph.

(** [state[key]] *)
Definition getitem (state : gmap string string) (key : string) : Py string :=
  match state !! key with
  | Some v => ret v
  | None => raise (KeyError key)
  end.

(** ** graph_nodes.py *)

Module GraphNodes.

Record t : Type := mk {
  vector_manager : VectorStoreManager.t
}.

Definition retrieve_memory_node (env : Env) (self : t)
    (state : gmap string string) : Py (gmap string string) :=
  do query <- getitem state "input";
  do memory <- VectorStoreManager.load_memory_variables env
                 (vector_manager self) query;
  ret (<["memory" := memory]> state).

Definition retrieve_knowledge_node (env : Env) (self : t)
    (state : gmap string string) : Py (gmap string string) :=
  do query <- getitem state "input";
  do knowledge <- VectorStoreManager.retrieve_knowledge env
                    (vector_manager self) query;
  ret (<["knowledge" := knowledge]> state).

(** The prompt of [generate_response_node]. *)
Definition build_prompt (knowledge memory query : string) : string :=
  PyStr.join (PyStr.nl +:+ PyStr.nl)
    (List.filter PyStr.truthy
       [ if PyStr.truthy knowledge
         then "Knowledge:" +:+ PyStr.nl +:+ knowledge else EmptyString;
         if PyStr.truthy memory
         then "Conversation History:" +:+ PyStr.nl +:+ memory else EmptyString;
         "User: " +:+ query ]).

Definition generate_response_node (env : Env) (self : t)
    (state : gmap string string) : Py (gmap string string) :=
  let memory := default EmptyString (state !! "memory") in
  let knowledge := default EmptyString (state !! "knowledge") in
  do query <- getitem state "input";
  let prompt := build_prompt knowledge memory query in
  do response <- llm_invoke env prompt;
  ret (<["response" := response]> state).

Definition update_memory_node (env : Env) (self : t)
    (state : gmap string string) : Py (gmap string string) :=
  do input_text <- getitem state "input";
  do response <- getitem state "response";
  run VectorStoreManager.save_memory_context env (vector_manager self)
        input_text response;
  ret ∅.

End GraphNodes.

(** ** main.py of the assistant (docs+response-generation and aitutor) *)

Module Config.

Definition uploads_directory : string := "./uploads".
Definition chroma_memory_dir : string := "./chroma_storage".
Definition chroma_kb_dir : string := "./kb_storage".
Definition chunk_size : nat := 500.
Definition chunk_overlap : nat := 50.

End Config.

Module RAGAssistant.

Record t : Type := mk {
  vector_manager : VectorStoreManager.t;
  processor : DocumentProcessor.t;
  upload_service : UploadService.t;
  graph_nodes : GraphNodes.t
}.

(** The chain built by [_create_graph]. *)
Definition memory_agent (env : Env) (self : t) : list LangGraph.node :=
  [ GraphNodes.retrieve_memory_node env (graph_nodes self);
    GraphNodes.retrieve_knowledge_node env (graph_nodes self);
    GraphNodes.generate_response_node env (graph_nodes self);
    GraphNodes.update_memory_node env (graph_nodes self) ].

(** The drawing of the workflow graph in [_create_graph]. *)
Definition draw_graph (env : Env) : Py unit :=
  try_except
    (run lift (draw_mermaid_png env);
     print "📊 Workflow graph saved as workflow_graph.png")
    any_exception
    (fun e => print ("⚠️ Could not generate workflow graph: " +:+ str_exn e)).

(** The part of [__init__] the two variants share. *)
Definition init_components (env : Env) : Py t :=
  do vm <- VectorStoreManager.init env Config.chroma_memory_dir
             Config.chroma_kb_dir;
  let processor := DocumentProcessor.mk Config.chunk_size Config.chunk_overlap in
  let self := mk vm processor (UploadService.mk processor vm) (GraphNodes.mk vm) in
  run draw_graph env;
  ret self.

(** [RAGAssistant()] in docs+response-generation/main.py, which ends with
    "Reset collections on startup". *)
Definition init_resetting (env : Env) : Py t :=
  do self <- init_components env;
  run VectorStoreManager.reset_collections env (vector_manager self);
  ret self.

(** [RAGAssistant()] in aitutor/main.py, where that call is commented
    out. *)
Definition init_keeping (env : Env) : Py t := init_components env.

Definition process_user_input (env : Env) (self : t) (user_input : string)
  : Py string :=
  do result <- LangGraph.invoke (memory_agent env self)
                 {[ "input" := user_input ]};
  ret (default "Sorry, I couldn't generate a response." (result !! "response")).

(** The f-string of [_generate_quiz_question] around [context]. *)
Definition quiz_prompt_head : string :=
  PyStr.nl
  +:+ "        Based on the following context, please generate a single multiple-choice question." +:+ PyStr.nl
  +:+ "        The question should test understanding of the key information in the text." +:+ PyStr.nl
  +:+ PyStr.nl
  +:+ "        Context:" +:+ PyStr.nl
  +:+ "        " +:+ PyStr.dq.

Definition quiz_prompt_tail : string :=
  PyStr.dq +:+ PyStr.nl
  +:+ PyStr.nl
  +:+ "        Provide your response in a valid JSON format with the following keys:" +:+ PyStr.nl
  +:+ "        - " +:+ PyStr.dq +:+ "question" +:+ PyStr.dq +:+ ": A string containing the question." +:+ PyStr.nl
  +:+ "        - " +:+ PyStr.dq +:+ "options" +:+ PyStr.dq +:+ ": A list of 4 strings representing the choices (labeled A, B, C, D)." +:+ PyStr.nl
  +:+ "        - " +:+ PyStr.dq +:+ "correct_answer" +:+ PyStr.dq +:+ ": A string containing the letter of the correct option (e.g., " +:+ PyStr.dq +:+ "A" +:+ PyStr.dq +:+ ")." +:+ PyStr.nl
  +:+ PyStr.nl
  +:+ "        Example format:" +:+ PyStr.nl
  +:+ "        {" +:+ PyStr.nl
  +:+ "          " +:+ PyStr.dq +:+ "question" +:+ PyStr.dq +:+ ": " +:+ PyStr.dq +:+ "What is the primary function of the mitochondria?" +:+ PyStr.dq +:+ "," +:+ PyStr.nl
  +:+ "          " +:+ PyStr.dq +:+ "options" +:+ PyStr.dq +:+ ": [" +:+ PyStr.dq +:+ "A) Protein synthesis" +:+ PyStr.dq +:+ ", " +:+ PyStr.dq +:+ "B) Energy production" +:+ PyStr.dq +:+ ", " +:+ PyStr.dq +:+ "C) Waste disposal" +:+ PyStr.dq +:+ ", " +:+ PyStr.dq +:+ "D) Cell division" +:+ PyStr.dq +:+ "]," +:+ PyStr.nl
  +:+ "          " +:+ PyStr.dq +:+ "correct_answer" +:+ PyStr.dq +:+ ": " +:+ PyStr.dq +:+ "B" +:+ PyStr.dq +:+ PyStr.nl
  +:+ "        }" +:+ PyStr.nl
  +:+ PyStr.nl
  +:+ "        Do not include any other text or explanations outside of the JSON object." +:+ PyStr.nl
  +:+ "        ".

Definition quiz_prompt (context : string) : string :=
  quiz_prompt_head +:+ context +:+ quiz_prompt_tail.

(** The exceptions named by [except (json.JSONDecodeError, AttributeError)]. *)
Definition decode_or_attribute_error (e : exn) : bool :=
  match e with
  | JSONDecodeError _ | AttributeError _ _ => true
  | _ => false
  end.

(** [_generate_quiz_question(context)]: the decoded completion, or [None]
    (here [Json.Null]) after a caught error. *)
Definition _generate_quiz_question (env : Env) (self : t) (context : string)
  : Py Json.value :=
  try_except
    (do content <- llm_invoke env (quiz_prompt context);
     let json_string :=
       PyStr.replace "```" EmptyString
         (PyStr.replace "```json" EmptyString (PyStr.strip content)) in
     lift (Json.loads json_string))
    decode_or_attribute_error
    (fun e =>
       run print ("⚠️ Could not parse quiz question from LLM response: "
                  +:+ str_exn e);
       ret Json.Null).

(** [v[key]] for a string key. *)
Definition subscript (v : Json.value) (key : string) : Py Json.value :=
  match v with
  | Json.Dict entries =>
      match Json.lookup key entries with
      | Some x => ret x
      | None => raise (KeyError key)
      end
  | Json.List _ => raise (TypeError "list indices must be integers or slices, not str")
  | Json.Str _ => raise (TypeError "string indices must be integers, not 'str'")
  | _ => raise (TypeError "object is not subscriptable")
  end.

(** The items of [for x in v]. *)
Definition iterate (v : Json.value) : Py (list Json.value) :=
  match v with
  | Json.List items => ret items
  | Json.Dict entries => ret (map (fun kv => Json.Str (fst kv)) entries)
  | Json.Str s => ret (map Json.Str (PyStr.chars s))
  | _ => raise (TypeError "object is not iterable")
  end.

(** [v.upper()] *)
Definition upper_of (v : Json.value) : Py string :=
  match v with
  | Json.Str s => ret (PyStr.upper s)
  | _ => raise (AttributeError "object" "upper")
  end.

(** [self.vector_manager.get_random_knowledge_chunks(num_chunks=n)]: the
    attribute is looked up, then called with the keyword argument, which
    none of the attributes of the class accepts. *)
Definition call_get_random_knowledge_chunks (num_chunks : nat)
  : Py (list string) :=
  do attribute <- VectorStoreManager.getattr "get_random_knowledge_chunks";
  raise (TypeError "unexpected keyword argument 'num_chunks'").

Fixpoint print_options (options : list Json.value) : Py unit :=
  match options with
  | [] => ret tt
  | option :: rest => run show (TextValue "  " option); print_options rest
  end.

(** How one round of the [while True] loop of [_start_quiz] ends. *)
Inductive round_end : Type := Break | Continue.

Definition quiz_round (env : Env) (self : t) : Py round_end :=
  do contexts <- call_get_random_knowledge_chunks 1;
  match contexts with
  | [] =>
      run print "Could not retrieve context for a question. Please ensure documents are uploaded.";
      ret Break
  | context :: _ =>
      do quiz_data <- _generate_quiz_question env self context;
      if negb (Json.truthy quiz_data) then
        run print "Could not generate a question, trying again...";
        ret Continue
      else
        run print (PyStr.nl +:+ "====================");
        do question <- subscript quiz_data "question";
        run show (TextValue EmptyString question);
        do options <- subscript quiz_data "options";
        do options <- iterate options;
        run print_options options;
        do typed <- input "Your answer (A, B, C, or D): ";
        let user_answer := PyStr.upper (PyStr.strip typed) in
        if bool_decide (user_answer ∈ ["STOP"; "EXIT"; "QUIT"]) then ret Break
        else
          do correct_answer <- subscript quiz_data "correct_answer";
          do correct_answer <- upper_of correct_answer;
          run (if String.eqb user_answer correct_answer
               then print "✅ Correct!"
               else print ("❌ Incorrect. The correct answer was "
                           +:+ correct_answer +:+ "."));
          do typed <- input "Another question? (y/n): ";
          let another := PyStr.lower (PyStr.strip typed) in
          if negb (String.eqb another "y") then ret Break else ret Continue
  end.

(** The loop, for at most [fuel] rounds; [None] when they do not
    suffice. *)
Fixpoint quiz_loop (fuel : nat) (env : Env) (self : t) : Py (option unit) :=
  match fuel with
  | O => ret None
  | S fuel' =>
      do e <- quiz_round env self;
      match e with
      | Break => ret (Some tt)
      | Continue => quiz_loop fuel' env self
      end
  end.

Definition _start_quiz (fuel : nat) (env : Env) (self : t) : Py (option unit) :=
  run print "Starting quiz... Type 'stop' at any time to end the quiz.";
  do status <- VectorStoreManager.get_knowledge_base_status env
                 (vector_manager self);
  if negb (Nat.ltb 0 (VectorStoreManager.total_chunks status)) then
    run print "Knowledge base is empty. Please upload documents before starting a quiz.";
    ret (Some tt)
  else
    do r <- quiz_loop fuel env self;
    match r with
    | Some _ => run print "Quiz finished. Returning to chat."; ret (Some tt)
    | None => ret None
    end.

End RAGAssistant.

(** ** aitutor/app1.py: the quiz entry point of the Streamlit front end *)

Module App1.

(** The entries of [st.session_state] the function reads and writes. *)
Record session : Type := mkSession {
  student_class : option string;
  current_question : option Json.value
}.

Definition generate_quiz_question (env : Env) (assistant : RAGAssistant.t)
    (st : session) : Py session :=
  try_except
    (do contexts <- RAGAssistant.call_get_random_knowledge_chunks 1;
     match contexts with
     | context :: _ =>
         let student_class := default "Not specified" (student_class st) in
         do question_data <-
           (if negb (String.eqb student_class "Not a student / Not applicable")
               && negb (String.eqb student_class "Not specified")
            then
              RAGAssistant._generate_quiz_question env assistant
                ("[Generate question appropriate for " +:+ student_class
                 +:+ " level] " +:+ context)
            else RAGAssistant._generate_quiz_question env assistant context);
         if Json.truthy question_data then
           ret (mkSession (App1.student_class st) (Some question_data))
         else
           run print "🤔 Could not generate a question. Please try again.";
           ret st
     | [] =>
         run print "📚 Could not retrieve context for a question. Make sure you have uploaded some documents.";
         ret st
     end)
    any_exception
    (fun e =>
       run print ("⚠️ Error generating question: " +:+ str_exn e);
       ret st).

End App1.

(** ** textdoc_retrieval_app.py: the Streamlit application *)

Module TextdocApp.

(** The entries of [st.session_state] the pipeline reads. *)
Record profile : Type := mkProfile {
  user_occupation : string;
  user_position : string;
  show_debug : bool
}.

(** The stores returned by [initialize_rag_system]. *)
Record t : Type := mk {
  memory_vectorstore : Chroma;
  knowledge_vectorstore : Chroma
}.

Definition retrieve_memory_node (env : Env) (self : t)
    (state : gmap string string) : Py (gmap string string) :=
  try_except
    (do query <- getitem state "input";
     do memory_result <- RetrieverMemory.load_memory_variables env
                           (memory_vectorstore self) 5 query;
     ret (<["memory" := default EmptyString (memory_result !! "history")]> state))
    any_exception
    (fun e =>
       run print ("⚠️ Memory retrieval issue: " +:+ str_exn e);
       ret (<["memory" := EmptyString]> state)).

Definition retrieve_knowledge_node (env : Env) (self : t)
    (state : gmap string string) : Py (gmap string string) :=
  try_except
    (do query <- getitem state "input";
     do docs <- ChromaStore.retrieve env (knowledge_vectorstore self) 3 query;
     let knowledge := PyStr.join PyStr.nl (map page_content docs) in
     ret (<["knowledge" := knowledge]> state))
    any_exception
    (fun e =>
       run print ("⚠️ Knowledge retrieval issue: " +:+ str_exn e);
       ret (<["knowledge" := EmptyString]> state)).

Definition build_prompt (p : profile) (knowledge memory query : string)
  : string :=
  let prompt_parts :=
    ([ "User Profile: " +:+ user_position p +:+ " working in "
         +:+ user_occupation p;
       "Please tailor your response to be relevant for this user's professional background and experience level." ]
     ++ (if PyStr.truthy (PyStr.strip knowledge)
         then ["Relevant Knowledge:" +:+ PyStr.nl +:+ knowledge] else [])
     ++ (if PyStr.truthy (PyStr.strip memory)
         then ["Previous Conversation:" +:+ PyStr.nl +:+ memory] else [])
     ++ [ "Current User Question: " +:+ query;
          "Provide a helpful, accurate, and professionally relevant response based on the user's background and available information." ])%list in
  PyStr.join (PyStr.nl +:+ PyStr.nl) prompt_parts.

Definition generate_response_node (env : Env) (p : profile) (self : t)
    (state : gmap string string) : Py (gmap string string) :=
  try_except
    (let memory := default EmptyString (state !! "memory") in
     let knowledge := default EmptyString (state !! "knowledge") in
     do query <- getitem state "input";
     let prompt := build_prompt p knowledge memory query in
     run (if show_debug p then
            run print "🔍 **Debug - Prompt sent to LLM:**";
            print (if Nat.ltb 500 (PyStr.len prompt)
                   then PyStr.prefix 500 prompt +:+ "..." else prompt)
          else ret tt);
     do response <- llm_invoke env prompt;
     if negb (PyStr.truthy response) then
       ret (<["response" := "I apologize, but I couldn't generate a proper response. Please try rephrasing your question."]> state)
     else ret (<["response" := response]> state))
    any_exception
    (fun e =>
       let error_msg :=
         "I encountered an error while generating a response: " +:+ str_exn e in
       run print ("❌ Response generation error: " +:+ str_exn e);
       ret (<["response" := error_msg]> state)).

Definition update_memory_node (env : Env) (self : t)
    (state : gmap string string) : Py (gmap string string) :=
  try_except
    (run (if PyStr.truthy (default EmptyString (state !! "response")) then
            do input_text <- getitem state "input";
            do response <- getitem state "response";
            RetrieverMemory.save_context env (memory_vectorstore self)
              [("input", input_text)] [("output", response)]
          else ret tt);
     ret ∅)
    any_exception
    (fun e =>
       run print ("⚠️ Memory update issue: " +:+ str_exn e);
       ret ∅).

Definition agent (env : Env) (p : profile) (self : t) : list LangGraph.node :=
  [ retrieve_memory_node env self;
    retrieve_knowledge_node env self;
    generate_response_node env p self;
    update_memory_node env self ].

(** The answer computed for a chat input in [main]. *)
Definition respond (env : Env) (p : profile) (self : t) (user_input : string)
  : Py string :=
  try_except
    (do response <-
       (if negb (PyStr.truthy (PyStr.strip user_input)) then
          ret "Please provide a valid question or input."
        else
          do result <- LangGraph.invoke (agent env p self)
                         {[ "input" := user_input ]};
          ret (default "I apologize, but I couldn't generate a response. Please try again."
                 (result !! "response")));
     if negb (PyStr.truthy response)
        || negb (PyStr.truthy (PyStr.strip response))
     then ret "I'm having trouble generating a response right now. Could you please rephrase your question?"
     else ret response)
    any_exception
    (fun e =>
       run print ("❌ I encountered an error while processing your request: "
                  +:+ str_exn e);
       run (if show_debug p then show (Traceback e) else ret tt);
       ret "I apologize, but I encountered an error processing your request. Please try again or rephrase your question.").

(** The buttons "Clear Memory" and "Clear Knowledge Base". *)
Definition clear_memory (env : Env) (self : t) : Py unit :=
  try_except
    (run ChromaStore.reset_collection env (memory_vectorstore self);
     print "✅ Memory cleared!")
    any_exception
    (fun e => print ("❌ Error clearing memory: " +:+ str_exn e)).

Definition clear_knowledge_base (env : Env) (self : t) : Py unit :=
  try_except
    (run ChromaStore.reset_collection env (knowledge_vectorstore self);
     print "✅ Knowledge base cleared!")
    any_exception
    (fun e => print ("❌ Error clearing knowledge base: " +:+ str_exn e)).

End TextdocApp.

(** ** RAG_implementation/main.py: the draft-then-refine pipeline *)

Module TwoStage.

Record t : Type := mk {
  doc_vectorstore : Chroma;
  memory_vectorstore : Chroma
}.

Record state : Type := mkState {
  input : string;
  docs : list Document;
  memory : list Document;
  draft : option string;
  answer : option string
}.

Definition retrieve (env : Env) (self : t) (user_input : string) : Py state :=
  do docs <- ChromaStore.retrieve env (doc_vectorstore self) 4 user_input;
  do mem_docs <- ChromaStore.retrieve env (memory_vectorstore self) 2 user_input;
  ret (mkState user_input docs mem_docs None None).

Definition bullets (ds : list Document) : string :=
  PyStr.join (PyStr.nl +:+ PyStr.nl)
    (map (fun doc => "- " +:+ page_content doc) ds).

Definition combined_context (st : state) : string :=
  "[Retrieved Document Context]" +:+ PyStr.nl +:+ bullets (docs st)
  +:+ PyStr.nl +:+ PyStr.nl +:+ "[Relevant Memory]" +:+ PyStr.nl
  +:+ bullets (memory st).

Definition draft_prompt (st : state) : string :=
  "The following context and memories have been retrieved:" +:+ PyStr.nl
  +:+ PyStr.nl +:+ combined_context st +:+ PyStr.nl +:+ PyStr.nl
  +:+ "Now, answer the following question clearly and completely:"
  +:+ PyStr.nl +:+ PyStr.nl +:+ "Question: " +:+ input st +:+ PyStr.nl.

Definition refine_prompt (st : state) (draft_response : string) : string :=
  "Refine the following draft answer using only the given context and memory."
  +:+ PyStr.nl
  +:+ "Ensure it is well-written, clear, and grounded in source content."
  +:+ PyStr.nl +:+ PyStr.nl +:+ "Context:" +:+ PyStr.nl +:+ combined_context st
  +:+ PyStr.nl +:+ PyStr.nl +:+ "Draft Answer:" +:+ PyStr.nl +:+ draft_response
  +:+ PyStr.nl +:+ PyStr.nl +:+ "Refined Answer:".

(** The record written by [generate]. *)
Definition memory_doc (question final_response : string) : Document :=
  mkDocument ("Q: " +:+ question +:+ PyStr.nl +:+ "A: " +:+ final_response)
             {[ "source" := "memory" ]}.

Definition generate (env : Env) (self : t) (st : state) : Py state :=
  do draft_response <- llm_invoke env (draft_prompt st);
  do final_response <- llm_invoke env (refine_prompt st draft_response);
  run ChromaStore.add_documents env (memory_vectorstore self)
        [memory_doc (input st) final_response];
  ret (mkState (input st) (docs st) (memory st)
               (Some draft_response) (Some final_response)).

(** [app.invoke({"input": user_query})] *)
Definition invoke (env : Env) (self : t) (user_query : string) : Py state :=
  do st <- retrieve env self user_query;
  generate env self st.

End TwoStage.

(** ** aitutor/app1.py: accounts and the submission of a quiz answer *)

Module AuthSystem.

(** What the class takes from its host. *)
Record Host : Type := mkHost {
  (** [hashlib.sha256(password.encode()).hexdigest()] *)
  sha256_hex : string -> string;
  (** [datetime.datetime.now().isoformat()] *)
  now_isoformat : string;
  (** can [users.json] be opened for writing? *)
  can_write : bool
}.

(** The file [users.json]: missing, not decodable, or as [save_users]
    left it. *)
Inductive users_json : Type :=
| Missing
| Unreadable
| Stored (users : gmap string (gmap string Json.value)).

Record t : Type := mk {
  users : gmap string (gmap string Json.value)
}.

Definition load_users (file : users_json)
  : gmap string (gmap string Json.value) :=
  match file with
  | Stored users => users
  | Missing => ∅
  | Unreadable => ∅
  end.

(** [AuthSystem()] *)
Definition init (file : users_json) : t := mk (load_users file).

Definition save_users (host : Host) (self : t) (file : users_json)
  : outcome unit * users_json :=
  if can_write host then (Return tt, Stored (users self))
  else (Raise (ServiceError "cannot open users.json for writing"), file).

Definition hash_password (host : Host) (password : string) : string :=
  sha256_hex host password.

(** The account fields [register_user] starts from. *)
Definition account (host : Host) (username email password : string)
  : gmap string Json.value :=
  <["username" := Json.Str username]>
    (<["email" := Json.Str email]>
       (<["password_hash" := Json.Str (hash_password host password)]>
          (<["created_at" := Json.Str (now_isoformat host)]>
             (<["study_streak" := Json.Int 0]>
                (<["total_questions" := Json.Int 0]> ∅))))).

(** The result, the object afterwards and the file afterwards. *)
Definition register_user (host : Host) (self : t) (file : users_json)
    (username email password : string)
    (user_prefs : option (gmap string Json.value))
  : outcome bool * t * users_json :=
  match users self !! username with
  | Some _ => (Return false, self, file)
  | None =>
      let user_data := account host username email password in
      let user_data :=
        match user_prefs with
        | Some prefs => prefs ∪ user_data     (* user_data.update(user_prefs) *)
        | None => user_data
        end in
      let self' := mk (<[username := user_data]> (users self)) in
      match save_users host self' file with
      | (Return _, file') => (Return true, self', file')
      | (Raise e, file') => (Raise e, self', file')
      end
  end.

Definition authenticate_user (host : Host) (self : t)
    (username password : string) : outcome bool :=
  match users self !! username with
  | Some user_data =>
      match user_data !! "password_hash" with
      | Some (Json.Str h) => Return (String.eqb h (hash_password host password))
      | Some _ => Return false
      | None => Raise (KeyError "password_hash")
      end
  | None => Return false
  end.

Definition get_user (self : t) (username : string) : gmap string Json.value :=
  default ∅ (users self !! username).

End AuthSystem.

Module QuizPage.



End QuizPage.

(** ** textdoc_retrieval_app.py: the upload of text files *)

Module TextdocUpload.

(** What [uploaded_file.read()] decoded as UTF-8 gives. *)
Inductive read_result : Type :=
| Decoded (text : string)
| Undecodable                   (* UnicodeDecodeError *)
| Failed (e : exn).

Record uploaded_file : Type := mkUploaded {
  name : string;
  read : read_result
}.

(** The variables the loop over [uploaded_files] updates. *)
Record acc : Type := mkAcc {
  documents : list Document;
  processed_files : nat
}.

(** One iteration of [for uploaded_file in uploaded_files]. *)
Definition loop_body (env : Env) (a : acc) (f : uploaded_file) : Py acc :=
  match read f with
  | Decoded text =>
      let content := PyStr.strip text in
      if negb (PyStr.truthy content) then
        run print ("⚠️ File " +:+ name f +:+ " is empty, skipping...");
        ret a
      else
        let split_docs :=
          map (fun chunk => mkDocument chunk {[ "source" := name f ]})
              (split_text env 500 50 content) in
        ret (mkAcc (documents a ++ split_docs)%list (processed_files a + 1))
  | Undecodable =>
      run print ("❌ Could not decode file " +:+ name f
                 +:+ ". Please ensure it's a valid UTF-8 text file.");
      ret a
  | Failed e =>
      run print ("❌ Error processing file " +:+ name f +:+ ": " +:+ str_exn e);
      ret a
  end.

Fixpoint loop (env : Env) (a : acc) (files : list uploaded_file) : Py acc :=
  match files with
  | [] => ret a
  | f :: rest =>
      do a' <- loop_body env a f;
      loop env a' rest
  end.


End TextdocUpload.

(** * Statements *)

(** ** Definitions used by the statements *)

(** The prompt as the specification words it: the knowledge section, then
    the memory section, then the question; a section with empty content
    is left out together with its label. *)
Definition prompt_section (label content rest : string) : string :=
  match content with
  | EmptyString => rest
  | String _ _ =>
      label +:+ PyStr.nl +:+ content +:+ PyStr.nl +:+ PyStr.nl +:+ rest
  end.

Definition spec_prompt (knowledge memory query : string) : string :=
  prompt_section "Knowledge:" knowledge
    (prompt_section "Conversation History:" memory ("User: " +:+ query)).

(** The Agent State after each stage of a run that retrieved [m] and [k]
    and generated [r]. *)
Definition state0 (q : string) : gmap string string := {[ "input" := q ]}.
Definition state1 (q m : string) : gmap string string :=
  <["memory" := m]> (state0 q).
Definition state2 (q m k : string) : gmap string string :=
  <["knowledge" := k]> (state1 q m).
Definition state3 (q m k r : string) : gmap string string :=
  <["response" := r]> (state2 q m k).

Definition pipeline_states (q m k r : string) : list (gmap string string) :=
  [state0 q; state1 q m; state2 q m k; state3 q m k r; state3 q m k r].

(** The field each of the four stages may add. *)
Definition stage_fields : list (gset string) :=
  [ {[ "memory" ]}; {[ "knowledge" ]}; {[ "response" ]}; ∅ ].

(** Each state extends the one before it, by no more than the field of
    the stage between them. *)
Fixpoint additive_chain (fields : list (gset string))
    (ss : list (gmap string string)) {struct ss} : Prop :=
  match ss, fields with
  | s :: ((s' :: _) as rest), f :: fields' =>
      (s ⊆ s' /\ dom s' ⊆ dom s ∪ f) /\ additive_chain fields' rest
  | _, _ => True
  end.

(** The run of the chain on a query, stage by stage. *)
Definition pipeline_run (env : Env) (vm : VectorStoreManager.t) (q : string)
    (w : World) : outcome (gmap string string) * World :=
  match fst (VectorStoreManager.load_memory_variables env vm q w) with
  | Raise e => (Raise e, w)
  | Return m =>
      match fst (VectorStoreManager.retrieve_knowledge env vm q w) with
      | Raise e => (Raise e, w)
      | Return k =>
          let prompt := spec_prompt k m q in
          let w3 := with_llm_log (llm_log w ++ [prompt])%list w in
          match llm_complete env (llm_log w) prompt with
          | Raise e => (Raise e, w3)
          | Return r =>
              match VectorStoreManager.save_memory_context env vm q r w3 with
              | (Return _, w4) => (Return (state3 q m k r), w4)
              | (Raise e, w4) => (Raise e, w4)
              end
          end
      end
  end.

(** An environment in which every service answers: the LLM echoes a fixed
    text, every stored text is equally close to every query, and the
    uploads directory is absent. *)
Definition quiet_env : Env :=
  {| llm_complete := fun _ _ => Return "An answer.";
     draw_mermaid_png := Return tt;
     embeds := fun _ => true;
     similarity := fun _ _ => 0%Z;
     store_up := fun _ => true;
     split_text := fun _ _ text => [text];
     dir_exists := fun _ => false;
     glob := fun _ _ => [];
     pdf_pages := fun _ => Raise (ServiceError "no such file");
     read_text := fun _ => Raise (ServiceError "no such file") |}.

(** The same environment with the embedding service down. *)
Definition embedding_down_env : Env :=
  {| llm_complete := llm_complete quiet_env;
     draw_mermaid_png := Return tt;
     embeds := fun _ => false;
     similarity := similarity quiet_env;
     store_up := store_up quiet_env;
     split_text := split_text quiet_env;
     dir_exists := dir_exists quiet_env;
     glob := glob quiet_env;
     pdf_pages := pdf_pages quiet_env;
     read_text := read_text quiet_env |}.

(** The same environment with the LLM provider down. *)
Definition llm_down_env : Env :=
  {| llm_complete := fun _ _ => Raise (ServiceError "LLM request failed");
     draw_mermaid_png := Return tt;
     embeds := embeds quiet_env;
     similarity := similarity quiet_env;
     store_up := store_up quiet_env;
     split_text := split_text quiet_env;
     dir_exists := dir_exists quiet_env;
     glob := glob quiet_env;
     pdf_pages := pdf_pages quiet_env;
     read_text := read_text quiet_env |}.

Definition empty_world : World := mkWorld ∅ [] [] [] [].

(** The objects built by [RAGAssistant()] over the configured
    directories. *)
Definition the_vector_manager : VectorStoreManager.t :=
  VectorStoreManager.mk
    (mkChroma Config.chroma_memory_dir "long_term_memory")
    (mkChroma Config.chroma_kb_dir "knowledge_base") 5 3.

Definition the_processor : DocumentProcessor.t :=
  DocumentProcessor.mk Config.chunk_size Config.chunk_overlap.

Definition the_assistant : RAGAssistant.t :=
  RAGAssistant.mk the_vector_manager the_processor
    (UploadService.mk the_processor the_vector_manager)
    (GraphNodes.mk the_vector_manager).

Definition missing_method : exn :=
  AttributeError "VectorStoreManager" "get_random_knowledge_chunks".

(** A scan that did not run out of fuel, and read something if it
    returned a value. *)
Definition advances {A} (s : string) (r : Json.scan A) : Prop :=
  match r with
  | Json.Scanned _ rest => String.length rest < String.length s
  | Json.Invalid _ => True
  | Json.OutOfFuel => False
  end.

(** The Quiz Question of the specification: an object with exactly the
    keys question (a text), options (four texts) and correct_answer (one
    of A, B, C, D). *)
Definition is_str (v : Json.value) : bool :=
  match v with Json.Str _ => true | _ => false end.

Definition valid_options (v : Json.value) : bool :=
  match v with
  | Json.List items => Nat.eqb (length items) 4 && forallb is_str items
  | _ => false
  end.

Definition valid_answer (v : Json.value) : bool :=
  match v with
  | Json.Str s => bool_decide (s ∈ ["A"; "B"; "C"; "D"])
  | _ => false
  end.

Definition valid_quiz_question (v : Json.value) : bool :=
  match v with
  | Json.Dict entries =>
      Nat.eqb (length entries) 3
      && match Json.lookup "question" entries, Json.lookup "options" entries,
               Json.lookup "correct_answer" entries with
         | Some q, Some o, Some a => is_str q && valid_options o && valid_answer a
         | _, _, _ => false
         end
  | _ => false
  end.

(** The text cleaned of its code fence, as handed to [json.loads]. *)
Definition cleaned (content : string) : string :=
  PyStr.replace "```" EmptyString
    (PyStr.replace "```json" EmptyString (PyStr.strip content)).



(** A completion wrapped in a code fence, with three options. *)
Definition fenced_three_options : string :=
  "```json" +:+ PyStr.nl +:+ "{" +:+ PyStr.dq +:+ "question" +:+ PyStr.dq
  +:+ ": " +:+ PyStr.dq +:+ "Q?" +:+ PyStr.dq +:+ ", " +:+ PyStr.dq
  +:+ "options" +:+ PyStr.dq +:+ ": [" +:+ PyStr.dq +:+ "A) x" +:+ PyStr.dq
  +:+ ", " +:+ PyStr.dq +:+ "B) y" +:+ PyStr.dq +:+ ", " +:+ PyStr.dq
  +:+ "C) z" +:+ PyStr.dq +:+ "], " +:+ PyStr.dq +:+ "correct_answer"
  +:+ PyStr.dq +:+ ": " +:+ PyStr.dq +:+ "B" +:+ PyStr.dq +:+ "}" +:+ PyStr.nl
  +:+ "```".

(** The record [save_memory_context] writes for a question and an
    answer. *)
Definition context_doc (question answer : string) : Document :=
  mkDocument ("input: " +:+ question +:+ PyStr.nl +:+ "output: " +:+ answer) ∅.

(** An operation that empties the knowledge collection and leaves the
    memory collection as it was. *)
Definition resets_only_knowledge (op : Py unit) (mem kb : Chroma) : Prop :=
  forall w,
    ChromaStore.documents kb (snd (op w)) = [] /\
    ChromaStore.documents mem (snd (op w)) = ChromaStore.documents mem w.

(** A world with one memory record and one knowledge chunk. *)
Definition stocked_world : World :=
  ChromaStore.set_documents
    (VectorStoreManager.memory_vectorstore the_vector_manager)
    [context_doc "What is a cell?" "An answer."]
    (ChromaStore.set_documents
       (VectorStoreManager.knowledge_vectorstore the_vector_manager)
       [mkDocument "The mitochondria is the powerhouse of the cell."
                   {[ "file_type" := "txt" ]}]
       empty_world).

(** A first start of the application, one saved exchange, a restart, and
    the lookup of the same question. *)
Definition save_restart_load (init : Env -> Py RAGAssistant.t) (env : Env)
    (question answer : string) : Py string :=
  do first <- init env;
  run VectorStoreManager.save_memory_context env
        (RAGAssistant.vector_manager first) question answer;
  do second <- init env;
  VectorStoreManager.load_memory_variables env
    (RAGAssistant.vector_manager second) question.

(** The text extracted from a file and its type, when the extension is
    supported; a file that cannot be read yields the empty text. *)
Definition extracted (env : Env) (file_path : Path) : option (string * string) :=
  let ext := PyStr.lower (DocumentProcessor.suffix (path_name file_path)) in
  if String.eqb ext ".pdf" then
    Some (match pdf_pages env (path_str file_path) with
          | Return pages =>
              PyStr.strip (foldl (fun text page => text +:+ page +:+ PyStr.nl)
                                 EmptyString pages)
          | Raise _ => EmptyString
          end, "pdf")
  else if String.eqb ext ".txt" then
    Some (match read_text env (path_str file_path) with
          | Return content => PyStr.strip content
          | Raise _ => EmptyString
          end, "txt")
  else None.

(** The chunks of a file and whether it was processed. *)
Definition chunks_of (env : Env) (proc : DocumentProcessor.t) (file_path : Path)
  : list Document * bool :=
  match extracted env file_path with
  | Some (content, file_type) =>
      if PyStr.truthy content
      then (DocumentProcessor.create_documents env proc content
              (DocumentProcessor.file_metadata file_path file_type), true)
      else ([], false)
  | None => ([], false)
  end.

(** The chunks of the processed files, in the order of the files. *)
Fixpoint batch (env : Env) (proc : DocumentProcessor.t) (files : list Path)
  : list Document :=
  match files with
  | [] => []
  | file_path :: rest =>
      let '(documents, ok) := chunks_of env proc file_path in
      ((if ok then documents else []) ++ batch env proc rest)%list
  end.

(** The number of processed files. *)
Fixpoint processed_count (env : Env) (proc : DocumentProcessor.t)
    (files : list Path) : nat :=
  match files with
  | [] => 0
  | file_path :: rest =>
      (if snd (chunks_of env proc file_path) then 1 else 0)
      + processed_count env proc rest
  end.

(** The world [w'] is [w] with more lines on the console. *)
Definition printed (w w' : World) : Prop :=
  exists lines, w' = with_console (console w ++ lines) w.

(** Both counted extensions have an entry. *)
Definition counted (counts : gmap string nat) : Prop :=
  is_Some (counts !! ".pdf") /\ is_Some (counts !! ".txt").


(** Two readable files around an unreadable one: one batch with the
    chunks of the two. *)
Definition mixed_files_env : Env :=
  {| llm_complete := llm_complete quiet_env;
     draw_mermaid_png := Return tt;
     embeds := embeds quiet_env;
     similarity := similarity quiet_env;
     store_up := store_up quiet_env;
     split_text := split_text quiet_env;
     dir_exists := fun _ => true;
     glob := fun _ pattern =>
               if String.eqb pattern "*.txt"
               then [mkPath "uploads/a.txt" "a.txt";
                     mkPath "uploads/bad.txt" "bad.txt";
                     mkPath "uploads/c.txt" "c.txt"]
               else [];
     pdf_pages := pdf_pages quiet_env;
     read_text := fun path =>
                    if String.eqb path "uploads/bad.txt"
                    then Raise (ServiceError "invalid start byte")
                    else Return ("Text of " +:+ path) |}.

(** [needle in hay], computed. *)
Fixpoint occurs (needle hay : string) : bool :=
  match PyStr.drop_prefix needle hay with
  | Some _ => true
  | None =>
      match hay with
      | EmptyString => false
      | String _ rest => occurs needle rest
      end
  end.

(** The old records are closer to every query than anything else. *)
Definition prefers_old_env : Env :=
  {| llm_complete := llm_complete quiet_env;
     draw_mermaid_png := Return tt;
     embeds := embeds quiet_env;
     similarity := fun _ text =>
                     if occurs "old question" text then 1%Z else 0%Z;
     store_up := store_up quiet_env;
     split_text := split_text quiet_env;
     dir_exists := dir_exists quiet_env;
     glob := glob quiet_env;
     pdf_pages := pdf_pages quiet_env;
     read_text := read_text quiet_env |}.

(** A memory collection holding five earlier exchanges. *)
Definition five_old_records : World :=
  ChromaStore.set_documents
    (VectorStoreManager.memory_vectorstore the_vector_manager)
    (map (fun i => context_doc ("old question " +:+ i) "old answer")
         ["1"; "2"; "3"; "4"; "5"])
    empty_world.

(** Queries are embedded, the records of an exchange are not. *)
Definition record_unembeddable_env : Env :=
  {| llm_complete := llm_complete quiet_env;
     draw_mermaid_png := Return tt;
     embeds := fun text => negb (occurs "output: " text);
     similarity := similarity quiet_env;
     store_up := store_up quiet_env;
     split_text := split_text quiet_env;
     dir_exists := dir_exists quiet_env;
     glob := glob quiet_env;
     pdf_pages := pdf_pages quiet_env;
     read_text := read_text quiet_env |}.

(** The number of chunks whose metadata gives [file_type] as their type. *)
Definition chunks_of_type (file_type : string) (docs : list Document) : nat :=
  length (filter (fun d => metadata d !! "file_type" = Some file_type) docs).

(** The processed files counted so far, over the two counted extensions. *)
Definition counted_files (counts : gmap string nat) : nat :=
  default 0 (counts !! ".pdf") + default 0 (counts !! ".txt").

(** Whether the store takes a batch: it is reachable and every chunk can
    be embedded. *)
Definition accepts (env : Env) (c : Chroma) (docs : list Document) : bool :=
  store_up env c && forallb (fun d => embeds env (page_content d)) docs.




(** A host whose digest is the password reversed, standing for SHA-256
    in examples, and the signup preferences the application collects. *)
Definition example_host : AuthSystem.Host :=
  AuthSystem.mkHost String.rev "2025-01-01T09:00:00" true.

Definition read_only_host : AuthSystem.Host :=
  AuthSystem.mkHost String.rev "2025-01-01T09:00:00" false.

Definition signup_prefs : gmap string Json.value :=
  <["learning_goal" := Json.Str "Exam preparation"]>
    (<["student_class" := Json.Str "Class 10"]>
       (<["subjects" := Json.List [Json.Str "Biology"]]>
          (<["signup_date" := Json.Str "2025-01-01T09:00:00"]> ∅))).



Definition two_stage_stores : TwoStage.t :=
  TwoStage.mk (mkChroma "./chroma_store" "langchain")
              (mkChroma "./memory_store" "memory").

(** Every chunk names pdf or txt as its file type. *)
Definition typed (docs : list Document) : Prop :=
  Forall (fun d => metadata d !! "file_type" = Some "pdf"
                   \/ metadata d !! "file_type" = Some "txt") docs.

(** * Proofs *)

(** ** Strings *)

Lemma append_cons c (a b : string) : String c a +:+ b = String c (a +:+ b).
Proof. reflexivity. Qed.

Lemma append_nil (b : string) : EmptyString +:+ b = b.
Proof. reflexivity. Qed.

Lemma append_assoc (a b c : string) : (a +:+ b) +:+ c = a +:+ (b +:+ c).
Proof. induction a as [|x a IH]; [done | by rewrite !append_cons, IH]. Qed.

Lemma append_nil_r (a : string) : a +:+ EmptyString = a.
Proof. induction a as [|x a IH]; [done | by rewrite append_cons, IH]. Qed.

Create Rewrite HintDb pystr.
#[export] Hint Rewrite append_cons append_nil append_assoc append_nil_r : pystr.

(** The prompt built by the node is the prompt of the specification. *)
Lemma build_prompt_spec k m q :
  GraphNodes.build_prompt k m q = spec_prompt k m q.
Proof.
  unfold GraphNodes.build_prompt, spec_prompt, prompt_section.
  destruct k, m; cbn -[String.append]; unfold PyStr.nl;
    autorewrite with pystr; reflexivity.
Qed.

(** ** Retrieval leaves the world as it is *)

Lemma retrieve_world env c k q w :
  snd (ChromaStore.retrieve env c k q w) = w.
Proof.
  unfold ChromaStore.retrieve, ChromaStore.check_up, bind, ret, raise.
  destruct (store_up env c); simpl; [|done].
  destruct (embeds env q); done.
Qed.

Lemma load_memory_variables_eq env vm q w :
  VectorStoreManager.load_memory_variables env vm q w =
    (match fst (ChromaStore.retrieve env
                  (VectorStoreManager.memory_vectorstore vm)
                  (VectorStoreManager.memory_k vm) q w) with
     | Return docs => Return (PyStr.join PyStr.nl (map page_content docs))
     | Raise e => Raise e
     end, w).
Proof.
  unfold VectorStoreManager.load_memory_variables,
    RetrieverMemory.load_memory_variables, bind, ret.
  pose proof (retrieve_world env (VectorStoreManager.memory_vectorstore vm)
                (VectorStoreManager.memory_k vm) q w) as Hw.
  destruct (ChromaStore.retrieve _ _ _ _ _) as [[docs|e] w']; simpl in *; subst;
    [|done].
  by rewrite lookup_singleton_eq.
Qed.

Lemma retrieve_knowledge_eq env vm q w :
  VectorStoreManager.retrieve_knowledge env vm q w =
    (match fst (ChromaStore.retrieve env
                  (VectorStoreManager.knowledge_vectorstore vm)
                  (VectorStoreManager.knowledge_k vm) q w) with
     | Return docs => Return (PyStr.join PyStr.nl (map page_content docs))
     | Raise e => Raise e
     end, w).
Proof.
  unfold VectorStoreManager.retrieve_knowledge, bind, ret.
  pose proof (retrieve_world env (VectorStoreManager.knowledge_vectorstore vm)
                (VectorStoreManager.knowledge_k vm) q w) as Hw.
  destruct (ChromaStore.retrieve _ _ _ _ _) as [[docs|e] w']; simpl in *; subst;
    done.
Qed.

Lemma load_memory_variables_world env vm q w :
  snd (VectorStoreManager.load_memory_variables env vm q w) = w.
Proof. by rewrite load_memory_variables_eq. Qed.

Lemma retrieve_knowledge_world env vm q w :
  snd (VectorStoreManager.retrieve_knowledge env vm q w) = w.
Proof. by rewrite retrieve_knowledge_eq. Qed.

(** ** The four nodes, one step each *)

Lemma insert_union_self (k v : string) (s : gmap string string) :
  <[k := v]> s ∪ s = <[k := v]> s.
Proof. by rewrite <-insert_union_l, (idemp_L (∪) s). Qed.

Lemma generate_node_call env self (state : gmap string string) q w :
  state !! "input" = Some q ->
  GraphNodes.generate_response_node env self state w =
    (match llm_complete env (llm_log w)
             (spec_prompt (default EmptyString (state !! "knowledge"))
                          (default EmptyString (state !! "memory")) q) with
     | Return r => Return (<["response" := r]> state)
     | Raise e => Raise e
     end,
     with_llm_log
       (llm_log w ++ [spec_prompt (default EmptyString (state !! "knowledge"))
                                  (default EmptyString (state !! "memory")) q])
       w).
Proof.
  intros Hq. unfold GraphNodes.generate_response_node, getitem.
  rewrite Hq. unfold bind, ret, llm_invoke. cbn beta iota zeta.
  rewrite build_prompt_spec.
  destruct (llm_complete _ _ _); reflexivity.
Qed.

Section nodes.
Variables (env : Env) (self : GraphNodes.t).
Variables (state : gmap string string) (q : string).
Hypothesis Hq : state !! "input" = Some q.

Let vm := GraphNodes.vector_manager self.

Lemma step_retrieve_memory w :
  LangGraph.step (GraphNodes.retrieve_memory_node env self) state w =
    (match fst (VectorStoreManager.load_memory_variables env vm q w) with
     | Return m => Return (<["memory" := m]> state)
     | Raise e => Raise e
     end, w).
Proof.
  unfold LangGraph.step, GraphNodes.retrieve_memory_node, getitem.
  rewrite Hq. unfold bind, ret. fold vm.
  pose proof (load_memory_variables_world env vm q w) as Hw.
  destruct (VectorStoreManager.load_memory_variables env vm q w) as [[m|e] w'];
    simpl in *; subst; [|done].
  by rewrite insert_union_self.
Qed.

Lemma step_retrieve_knowledge w :
  LangGraph.step (GraphNodes.retrieve_knowledge_node env self) state w =
    (match fst (VectorStoreManager.retrieve_knowledge env vm q w) with
     | Return k => Return (<["knowledge" := k]> state)
     | Raise e => Raise e
     end, w).
Proof.
  unfold LangGraph.step, GraphNodes.retrieve_knowledge_node, getitem.
  rewrite Hq. unfold bind, ret. fold vm.
  pose proof (retrieve_knowledge_world env vm q w) as Hw.
  destruct (VectorStoreManager.retrieve_knowledge env vm q w) as [[m|e] w'];
    simpl in *; subst; [|done].
  by rewrite insert_union_self.
Qed.

Lemma step_generate_response w :
  let prompt := spec_prompt (default EmptyString (state !! "knowledge"))
                            (default EmptyString (state !! "memory")) q in
  LangGraph.step (GraphNodes.generate_response_node env self) state w =
    (match llm_complete env (llm_log w) prompt with
     | Return r => Return (<["response" := r]> state)
     | Raise e => Raise e
     end, with_llm_log (llm_log w ++ [prompt]) w).
Proof.
  intros prompt. unfold LangGraph.step, bind at 1.
  rewrite (generate_node_call env self state q w Hq). fold prompt.
  destruct (llm_complete env (llm_log w) prompt); [|done].
  unfold ret. by rewrite insert_union_self.
Qed.

Lemma step_update_memory r w :
  state !! "response" = Some r ->
  LangGraph.step (GraphNodes.update_memory_node env self) state w =
    (match fst (VectorStoreManager.save_memory_context env vm q r w) with
     | Return _ => Return state
     | Raise e => Raise e
     end, snd (VectorStoreManager.save_memory_context env vm q r w)).
Proof.
  intros Hr. unfold LangGraph.step, GraphNodes.update_memory_node, getitem.
  rewrite Hq, Hr. unfold bind, ret. fold vm.
  destruct (VectorStoreManager.save_memory_context env vm q r w) as [[[]|e] w'];
    simpl; [|done].
  by rewrite (left_id_L ∅ (∪)).
Qed.

End nodes.

(** ** The chain as a whole *)

Lemma state0_input q : state0 q !! "input" = Some q.
Proof. unfold state0. by simplify_map_eq. Qed.

Lemma state1_input q m : state1 q m !! "input" = Some q.
Proof. unfold state1, state0. by simplify_map_eq. Qed.

Lemma state2_input q m k : state2 q m k !! "input" = Some q.
Proof. unfold state2, state1, state0. by simplify_map_eq. Qed.

Lemma state3_input q m k r : state3 q m k r !! "input" = Some q.
Proof. unfold state3, state2, state1, state0. by simplify_map_eq. Qed.

Lemma state2_fields q m k :
  default EmptyString (state2 q m k !! "knowledge") = k /\
  default EmptyString (state2 q m k !! "memory") = m.
Proof. unfold state2, state1, state0. by simplify_map_eq. Qed.

Lemma state3_response q m k r : state3 q m k r !! "response" = Some r.
Proof. unfold state3. by simplify_map_eq. Qed.

Section pipeline.
Variables (env : Env) (a : RAGAssistant.t) (q : string).

Let vm := GraphNodes.vector_manager (RAGAssistant.graph_nodes a).

Lemma invoke_memory_agent w :
  LangGraph.invoke (RAGAssistant.memory_agent env a) (state0 q) w
  = pipeline_run env vm q w.
Proof.
  unfold pipeline_run, RAGAssistant.memory_agent, LangGraph.invoke.
  unfold bind at 1.
  rewrite (step_retrieve_memory env _ _ q (state0_input q)).
  fold vm. destruct (fst (VectorStoreManager.load_memory_variables env vm q w))
    as [m|e]; [|done].
  unfold bind at 1. fold (state1 q m).
  rewrite (step_retrieve_knowledge env _ _ q (state1_input q m)). fold vm.
  destruct (fst (VectorStoreManager.retrieve_knowledge env vm q w))
    as [k|e]; [|done].
  unfold bind at 1. fold (state2 q m k).
  rewrite (step_generate_response env _ _ q (state2_input q m k)).
  destruct (state2_fields q m k) as [-> ->].
  cbv zeta.
  destruct (llm_complete env (llm_log w) (spec_prompt k m q)) as [r|e]; [|done].
  unfold bind at 1. fold (state3 q m k r).
  rewrite (step_update_memory env _ _ q (state3_input q m k r) r _
             (state3_response q m k r)).
  fold vm.
  destruct (VectorStoreManager.save_memory_context env vm q r _) as [[[]|e] w4];
    done.
Qed.

Lemma process_user_input_eq w :
  RAGAssistant.process_user_input env a q w =
    match pipeline_run env vm q w with
    | (Return result, w') =>
        (Return (default "Sorry, I couldn't generate a response."
                   (result !! "response")), w')
    | (Raise e, w') => (Raise e, w')
    end.
Proof.
  unfold RAGAssistant.process_user_input, bind.
  fold (state0 q). rewrite invoke_memory_agent.
  by destruct (pipeline_run env vm q w) as [[result|e] w'].
Qed.

(** The states the chain goes through. *)
Lemma states_memory_agent w :
  LangGraph.states (RAGAssistant.memory_agent env a) (state0 q) w =
    match fst (VectorStoreManager.load_memory_variables env vm q w) with
    | Raise _ => [state0 q]
    | Return m =>
        match fst (VectorStoreManager.retrieve_knowledge env vm q w) with
        | Raise _ => [state0 q; state1 q m]
        | Return k =>
            let prompt := spec_prompt k m q in
            match llm_complete env (llm_log w) prompt with
            | Raise _ => [state0 q; state1 q m; state2 q m k]
            | Return r =>
                match fst (VectorStoreManager.save_memory_context env vm q r
                             (with_llm_log (llm_log w ++ [prompt]) w)) with
                | Raise _ => [state0 q; state1 q m; state2 q m k; state3 q m k r]
                | Return _ => pipeline_states q m k r
                end
            end
        end
    end.
Proof.
  unfold RAGAssistant.memory_agent, LangGraph.states.
  rewrite (step_retrieve_memory env _ _ q (state0_input q)).
  fold vm. destruct (fst (VectorStoreManager.load_memory_variables env vm q w))
    as [m|e]; [|done].
  fold (state1 q m).
  rewrite (step_retrieve_knowledge env _ _ q (state1_input q m)). fold vm.
  destruct (fst (VectorStoreManager.retrieve_knowledge env vm q w))
    as [k|e]; [|done].
  fold (state2 q m k).
  rewrite (step_generate_response env _ _ q (state2_input q m k)).
  destruct (state2_fields q m k) as [-> ->].
  cbv zeta.
  destruct (llm_complete env (llm_log w) (spec_prompt k m q)) as [r|e]; [|done].
  fold (state3 q m k r).
  rewrite (step_update_memory env _ _ q (state3_input q m k r) r _
             (state3_response q m k r)).
  fold vm.
  by destruct (fst (VectorStoreManager.save_memory_context env vm q r _))
    as [[]|e].
Qed.

End pipeline.

(** ** C3: the prompt and the single completion call *)

(** C3.  In every state that reaches Generate (it holds the user's input),
    [generate_response_node] sends exactly one prompt to the LLM, whether
    or not the provider answers: the knowledge section, then the memory
    section, then the question, a section with empty content being left
    out with its label.  A query whose two retrievals return therefore
    costs exactly one completion call in the whole pipeline. *)
Theorem generate_sends_one_ordered_prompt (env : Env) :
  (forall (self : GraphNodes.t) (state : gmap string string) (q : string)
          (w : World),
      state !! "input" = Some q ->
      let knowledge := default EmptyString (state !! "knowledge") in
      let memory := default EmptyString (state !! "memory") in
      GraphNodes.build_prompt knowledge memory q
        = spec_prompt knowledge memory q /\
      snd (GraphNodes.generate_response_node env self state w)
        = with_llm_log (llm_log w ++ [spec_prompt knowledge memory q]) w) /\
  (forall (a : RAGAssistant.t) (q m k : string) (w : World),
      let vm := GraphNodes.vector_manager (RAGAssistant.graph_nodes a) in
      fst (VectorStoreManager.load_memory_variables env vm q w) = Return m ->
      fst (VectorStoreManager.retrieve_knowledge env vm q w) = Return k ->
      llm_log (snd (RAGAssistant.process_user_input env a q w))
        = (llm_log w ++ [spec_prompt k m q])%list).
Proof.
  split.
  - intros self state q w Hq knowledge memory. split.
    + apply build_prompt_spec.
    + by rewrite (generate_node_call env self state q w Hq).
  - intros a q m k w vm Hm Hk.
    rewrite process_user_input_eq. fold vm. unfold pipeline_run.
    rewrite Hm, Hk. cbv zeta.
    destruct (llm_complete env (llm_log w) (spec_prompt k m q)) as [r|e];
      [|done].
    unfold VectorStoreManager.save_memory_context, RetrieverMemory.save_context,
      ChromaStore.add_documents, ChromaStore.check_up, bind, ret, raise.
    cbn -[String.append].
    destruct (store_up env _); [|done].
    cbn -[String.append].
    by destruct (embeds env _).
Qed.

(** The prompt for a query with knowledge and no memory, and the single
    call of a whole run. *)
Lemma generate_sends_one_ordered_prompt_witness :
  GraphNodes.build_prompt "Cells have mitochondria." EmptyString "What is a cell?"
    = "Knowledge:" +:+ PyStr.nl +:+ "Cells have mitochondria." +:+ PyStr.nl
      +:+ PyStr.nl +:+ "User: What is a cell?" /\
  llm_log (snd (RAGAssistant.process_user_input quiet_env the_assistant
                  "What is a cell?" empty_world))
    = ["User: What is a cell?"].
Proof.
  pose proof (generate_sends_one_ordered_prompt quiet_env) as [Hnode Hrun].
  split.
  - exact (proj1 (Hnode (GraphNodes.mk the_vector_manager)
                    (state2 "What is a cell?" EmptyString
                       "Cells have mitochondria.")
                    "What is a cell?" empty_world eq_refl)).
  - exact (Hrun the_assistant "What is a cell?" EmptyString EmptyString
             empty_world eq_refl eq_refl).
Defined.

(** ** C10: the Agent State only grows *)

Lemma additive_chain_prefix fields (ss rest : list (gmap string string)) :
  additive_chain fields (ss ++ rest) -> additive_chain fields ss.
Proof.
  revert fields. induction ss as [|s ss IH]; intros fields H; [exact I|].
  destruct ss as [|s' ss]; [exact I|].
  destruct fields as [|f fields]; [exact I|].
  simpl in H. destruct H as [Hstep Hrest]. split; [done|].
  by apply IH.
Qed.

Lemma pipeline_states_additive q m k r :
  additive_chain stage_fields (pipeline_states q m k r).
Proof.
  unfold pipeline_states, stage_fields, state3, state2, state1, state0.
  simpl. repeat split.
  - apply insert_subseteq. by simplify_map_eq.
  - rewrite dom_insert_L. set_solver.
  - apply insert_subseteq. by simplify_map_eq.
  - rewrite !dom_insert_L. set_solver.
  - apply insert_subseteq. by simplify_map_eq.
  - rewrite !dom_insert_L. set_solver.
  - done.
  - set_solver.
Qed.

Lemma pipeline_states_input q m k r :
  Forall (fun s : gmap string string => s !! "input" = Some q)
         (pipeline_states q m k r).
Proof.
  unfold pipeline_states. repeat constructor;
    auto using state0_input, state1_input, state2_input, state3_input.
Qed.

Lemma states_prefix env a q w :
  exists m k r,
    LangGraph.states (RAGAssistant.memory_agent env a) (state0 q) w
      `prefix_of` pipeline_states q m k r.
Proof.
  rewrite states_memory_agent.
  destruct (fst (VectorStoreManager.load_memory_variables _ _ _ _)) as [m|e];
    [|by exists EmptyString, EmptyString, EmptyString; eexists].
  destruct (fst (VectorStoreManager.retrieve_knowledge _ _ _ _)) as [k|e];
    [|by exists m, EmptyString, EmptyString; eexists].
  cbv zeta.
  destruct (llm_complete _ _ _) as [r|e];
    [|by exists m, k, EmptyString; eexists].
  exists m, k, r.
  destruct (fst (VectorStoreManager.save_memory_context _ _ _ _ _)) as [[]|e];
    [done | by eexists].
Qed.

(** C10.  Along every run of the pipeline the Agent State only grows: the
    states after the stages are an initial part of
    [{input}], [{input, memory}], [{input, memory, knowledge}],
    [{input, memory, knowledge, response}] and that last state again (the
    fourth stage writes no key); each state contains the one before it and
    adds at most the field of its stage, and the input field holds the
    query in every one of them. *)
Theorem agent_state_is_additive (env : Env) (a : RAGAssistant.t) (q : string)
    (w : World) :
  let ss := LangGraph.states (RAGAssistant.memory_agent env a)
              {[ "input" := q ]} w in
  (exists m k r, ss `prefix_of` pipeline_states q m k r) /\
  Forall (fun s : gmap string string => s !! "input" = Some q) ss /\
  additive_chain stage_fields ss.
Proof.
  intros ss. destruct (states_prefix env a q w) as (m & k & r & rest & Hrest).
  fold (state0 q) in ss. fold ss in Hrest.
  split; [by exists m, k, r, rest|]. split.
  - pose proof (pipeline_states_input q m k r) as H.
    rewrite Hrest in H. by apply Forall_app in H as [H _].
  - apply (additive_chain_prefix _ _ rest). rewrite <-Hrest.
    apply pipeline_states_additive.
Qed.

(** A run in which every stage returns goes through all five states. *)
Lemma agent_state_full_run :
  LangGraph.states (RAGAssistant.memory_agent quiet_env the_assistant)
    {[ "input" := "What is a cell?" ]} empty_world
  = pipeline_states "What is a cell?" EmptyString EmptyString "An answer.".
Proof. vm_compute. reflexivity. Qed.

(** ** C1 and C2: failures inside the modular pipeline *)

(** C1.  In the modular pipeline ([graph_nodes.py] run by
    [process_user_input]) a failure of the memory retrieval, or of the
    knowledge retrieval after the memory retrieval returned, is not replaced
    by an empty string: the exception leaves [process_user_input], and the
    Generate stage is never reached (the world, with its log of LLM calls,
    is as before). *)
Theorem retrieval_failure_aborts_process_user_input (env : Env)
    (a : RAGAssistant.t) (q : string) (w : World) (e : exn) :
  let vm := GraphNodes.vector_manager (RAGAssistant.graph_nodes a) in
  fst (VectorStoreManager.load_memory_variables env vm q w) = Raise e \/
  (exists m,
      fst (VectorStoreManager.load_memory_variables env vm q w) = Return m /\
      fst (VectorStoreManager.retrieve_knowledge env vm q w) = Raise e) ->
  RAGAssistant.process_user_input env a q w = (Raise e, w).
Proof.
  intros vm H. rewrite process_user_input_eq. fold vm. unfold pipeline_run.
  destruct H as [Hm | (m & Hm & Hk)].
  - by rewrite Hm.
  - by rewrite Hm, Hk.
Qed.

(** With the embedding service down, a query ends in the exception. *)
Lemma retrieval_failure_aborts_witness :
  RAGAssistant.process_user_input embedding_down_env the_assistant
    "What is a cell?" empty_world
  = (Raise (ServiceError "embedding request failed"), empty_world).
Proof.
  apply (retrieval_failure_aborts_process_user_input embedding_down_env
           the_assistant "What is a cell?" empty_world).
  left. vm_compute. reflexivity.
Defined.

(** C2.  In the modular pipeline a failing completion call is not turned
    into an answer: when both retrievals return and the provider raises
    [e] on the prompt, [process_user_input] raises [e] to its caller after
    that one call. *)
Theorem llm_failure_leaves_process_user_input (env : Env)
    (a : RAGAssistant.t) (q m k : string) (w : World) (e : exn) :
  let vm := GraphNodes.vector_manager (RAGAssistant.graph_nodes a) in
  fst (VectorStoreManager.load_memory_variables env vm q w) = Return m ->
  fst (VectorStoreManager.retrieve_knowledge env vm q w) = Return k ->
  llm_complete env (llm_log w) (spec_prompt k m q) = Raise e ->
  RAGAssistant.process_user_input env a q w
  = (Raise e, with_llm_log (llm_log w ++ [spec_prompt k m q]) w).
Proof.
  intros vm Hm Hk He. rewrite process_user_input_eq. fold vm.
  unfold pipeline_run. by rewrite Hm, Hk, He.
Qed.

(** With the LLM provider down, a query ends in the exception. *)
Lemma llm_failure_witness :
  RAGAssistant.process_user_input llm_down_env the_assistant
    "What is a cell?" empty_world
  = (Raise (ServiceError "LLM request failed"),
     with_llm_log ["User: What is a cell?"] empty_world).
Proof.
  apply (llm_failure_leaves_process_user_input llm_down_env the_assistant
           "What is a cell?" EmptyString EmptyString empty_world);
    vm_compute; reflexivity.
Defined.

(** *** The same stages in textdoc_retrieval_app.py *)

Lemma try_except_any {A} (body : Py A) (handler : exn -> Py A) w :
  try_except body any_exception handler w =
    match body w with
    | (Return x, w') => (Return x, w')
    | (Raise e, w') => handler e w'
    end.
Proof. unfold try_except, any_exception. by destruct (body w) as [[x|e] w']. Qed.

(** There, a retrieval that fails is replaced by the empty string and the
    stage returns. *)
Lemma textdoc_retrieve_memory_returns env self (state : gmap string string) w :
  exists m w',
    TextdocApp.retrieve_memory_node env self state w
      = (Return (<["memory" := m]> state), w') /\
    llm_log w' = llm_log w /\
    (forall e, fst (ChromaStore.retrieve env
                      (TextdocApp.memory_vectorstore self) 5
                      (default EmptyString (state !! "input")) w) = Raise e ->
               m = EmptyString).
Proof.
  unfold TextdocApp.retrieve_memory_node. rewrite try_except_any.
  unfold getitem. destruct (state !! "input") as [q|] eqn:Hq; simpl.
  - unfold RetrieverMemory.load_memory_variables, bind, ret.
    pose proof (retrieve_world env (TextdocApp.memory_vectorstore self) 5 q w)
      as Hw.
    destruct (ChromaStore.retrieve _ _ _ _ _) as [[docs|e] w1]; simpl in *;
      subst.
    + eexists _, _. by split; [|split].
    + eexists _, _. by split; [|split].
  - unfold bind, raise, ret. simpl. eexists _, _. by split; [|split].
Qed.

Lemma textdoc_retrieve_knowledge_returns env self (state : gmap string string)
    w :
  exists k w',
    TextdocApp.retrieve_knowledge_node env self state w
      = (Return (<["knowledge" := k]> state), w') /\
    llm_log w' = llm_log w /\
    (forall e, fst (ChromaStore.retrieve env
                      (TextdocApp.knowledge_vectorstore self) 3
                      (default EmptyString (state !! "input")) w) = Raise e ->
               k = EmptyString).
Proof.
  unfold TextdocApp.retrieve_knowledge_node. rewrite try_except_any.
  unfold getitem. destruct (state !! "input") as [q|] eqn:Hq; simpl.
  - unfold bind, ret.
    pose proof (retrieve_world env (TextdocApp.knowledge_vectorstore self) 3 q w)
      as Hw.
    destruct (ChromaStore.retrieve _ _ _ _ _) as [[docs|e] w1]; simpl in *;
      subst.
    + eexists _, _. by split; [|split].
    + eexists _, _. by split; [|split].
  - unfold bind, raise, ret. simpl. eexists _, _. by split; [|split].
Qed.

(** There, a failing completion call becomes the answer text. *)
Lemma textdoc_generate_returns env p self (state : gmap string string) q w e :
  state !! "input" = Some q ->
  llm_complete env (llm_log w)
    (TextdocApp.build_prompt p (default EmptyString (state !! "knowledge"))
       (default EmptyString (state !! "memory")) q) = Raise e ->
  exists w',
    TextdocApp.generate_response_node env p self state w
    = (Return (<["response" :=
                   "I encountered an error while generating a response: "
                   +:+ str_exn e]> state), w').
Proof.
  intros Hq He. unfold TextdocApp.generate_response_node.
  rewrite try_except_any. unfold getitem. rewrite Hq.
  unfold bind, ret, llm_invoke, print, show, with_console.
  destruct (TextdocApp.show_debug p); simpl; rewrite He; by eexists.
Qed.

(** There, the answer to a chat input is always a text. *)
Lemma textdoc_respond_returns env p self user_input w :
  exists answer w',
    TextdocApp.respond env p self user_input w = (Return answer, w').
Proof.
  unfold TextdocApp.respond. rewrite try_except_any.
  match goal with |- context [match ?b w with _ => _ end] =>
    destruct (b w) as [[answer|e] w1] end.
  - by eexists _, _.
  - unfold bind, print, show, ret. by destruct (TextdocApp.show_debug p); eexists _, _.
Qed.

(** ** C5: the quiz cannot sample a chunk *)

Lemma call_get_random_knowledge_chunks_raises n w :
  RAGAssistant.call_get_random_knowledge_chunks n w = (Raise missing_method, w).
Proof. reflexivity. Qed.

Lemma get_knowledge_base_status_eq env vm w :
  VectorStoreManager.get_knowledge_base_status env vm w =
    (Return
       (if store_up env (VectorStoreManager.knowledge_vectorstore vm) then
          let docs :=
            ChromaStore.documents (VectorStoreManager.knowledge_vectorstore vm) w in
          VectorStoreManager.mkStatus (length docs)
            (if Nat.ltb 0 (length docs)
             then VectorStoreManager.count_file_types docs else ∅)
            true None
        else
          VectorStoreManager.mkStatus 0 ∅ false
            (Some "vector store unavailable")), w).
Proof.
  unfold VectorStoreManager.get_knowledge_base_status. rewrite try_except_any.
  unfold ChromaStore.get, ChromaStore.check_up, bind, ret, raise.
  by destruct (store_up env _).
Qed.

(** C5.  Sampling a chunk for a quiz always fails with the error of a
    missing attribute, because [VectorStoreManager] defines no
    [get_random_knowledge_chunks].  Hence [_start_quiz] on a non-empty
    knowledge base ends in that error in its first round, and on an empty
    or unreadable one returns before sampling; the Streamlit entry point
    [generate_quiz_question] reports the error and leaves the session
    without a question.  In no case is a completion requested, so no quiz
    question is ever produced. *)
Theorem quiz_sampling_always_fails (env : Env) (a : RAGAssistant.t) :
  (forall n w,
      RAGAssistant.call_get_random_knowledge_chunks n w
      = (Raise missing_method, w)) /\
  (forall fuel w,
      let kb := VectorStoreManager.knowledge_vectorstore
                  (RAGAssistant.vector_manager a) in
      let nonempty :=
        store_up env kb && Nat.ltb 0 (length (ChromaStore.documents kb w)) in
      RAGAssistant._start_quiz (S fuel) env a w =
        ((if nonempty then Raise missing_method else Return (Some tt)),
         with_console
           (console w
            ++ Text "Starting quiz... Type 'stop' at any time to end the quiz."
            :: (if nonempty then []
                else [Text "Knowledge base is empty. Please upload documents before starting a quiz."]))
           w)) /\
  (forall st w,
      App1.generate_quiz_question env a st w =
        (Return st,
         with_console
           (console w
            ++ [Text ("⚠️ Error generating question: " +:+ str_exn missing_method)])
           w)).
Proof.
  split; [|split].
  - apply call_get_random_knowledge_chunks_raises.
  - intros fuel w kb nonempty.
    unfold RAGAssistant._start_quiz. unfold bind at 1. unfold print, show.
    unfold bind at 1. rewrite get_knowledge_base_status_eq. fold kb.
    subst nonempty. unfold ChromaStore.documents, with_console. simpl.
    destruct (store_up env kb); simpl.
    + destruct (length (default [] (disk w !! ChromaStore.key kb))) eqn:Hlen;
        simpl.
      * unfold bind, ret. simpl. by rewrite <-app_assoc.
      * reflexivity.
    + unfold bind, ret. simpl. by rewrite <-app_assoc.
  - intros st w. unfold App1.generate_quiz_question. rewrite try_except_any.
    reflexivity.
Qed.

(** A knowledge base holding one chunk: the quiz ends in the error. *)
Lemma quiz_on_nonempty_knowledge_base :
  fst (RAGAssistant._start_quiz 1 quiet_env the_assistant
         (ChromaStore.set_documents
            (VectorStoreManager.knowledge_vectorstore the_vector_manager)
            [mkDocument "The mitochondria is the powerhouse of the cell."
                        {[ "file_type" := "txt" ]}]
            empty_world))
  = Raise missing_method.
Proof. vm_compute. reflexivity. Qed.

(** ** Fuel always suffices: [replace] and the decoder *)

Lemma skip_ws_length s : String.length (Json.skip_ws s) <= String.length s.
Proof. induction s as [|c s IH]; simpl; [lia|]. destruct (Json.is_ws c); simpl; lia. Qed.

Lemma drop_prefix_length p s r :
  PyStr.drop_prefix p s = Some r -> String.length s = String.length p + String.length r.
Proof.
  revert s. induction p as [|a p IH]; intros s H; simpl in H.
  - inversion H. simpl. lia.
  - destruct s as [|b s]; [done|].
    destruct (Ascii.eqb a b); [|done]. apply IH in H. simpl. lia.
Qed.

Lemma replace_fuel_S fuel old new s :
  PyStr.replace_fuel (S fuel) old new s =
    match PyStr.drop_prefix old s with
    | Some rest => new +:+ PyStr.replace_fuel fuel old new rest
    | None =>
        match s with
        | EmptyString => EmptyString
        | String c rest => String c (PyStr.replace_fuel fuel old new rest)
        end
    end.
Proof. reflexivity. Qed.

(** [replace] has all the fuel it needs: more fuel gives the same text. *)
Lemma replace_fuel_stable old new fuel : forall s,
  old <> EmptyString -> String.length s < fuel ->
  PyStr.replace_fuel (S fuel) old new s = PyStr.replace_fuel fuel old new s.
Proof.
  induction fuel as [|fuel IH]; intros s Hold Hlen; [lia|].
  rewrite (replace_fuel_S (S fuel)), (replace_fuel_S fuel).
  destruct (PyStr.drop_prefix old s) as [rest|] eqn:Hdrop.
  - apply drop_prefix_length in Hdrop.
    rewrite IH; [done | done |]. destruct old; [done|]. simpl in Hdrop. lia.
  - destruct s as [|c rest]; [done|]. simpl in Hlen.
    rewrite IH; [done | done | lia].
Qed.

Lemma replace_fuel_enough old new s fuel :
  old <> EmptyString -> String.length s < fuel ->
  PyStr.replace_fuel fuel old new s = PyStr.replace old new s.
Proof.
  intros Hold Hlen. unfold PyStr.replace.
  induction fuel as [|fuel IH]; [lia|].
  destruct (decide (String.length s < fuel)) as [Hlt|Hge].
  - rewrite replace_fuel_stable; auto.
  - by replace fuel with (String.length s) by lia.
Qed.

Lemma digits_length s acc count n count' r :
  Json.digits s acc count = (n, count', r) ->
  String.length r + count' = String.length s + count /\ count <= count'.
Proof.
  revert acc count. induction s as [|c s IH]; intros acc count H; simpl in *.
  - inversion H; subst. simpl. lia.
  - destruct (Json.digit c).
    + apply IH in H. lia.
    + inversion H; subst. simpl. lia.
Qed.

Lemma int_part_length s n r :
  Json.int_part s = Some (n, r) -> String.length r < String.length s.
Proof.
  destruct s as [|c s]; cbn [Json.int_part String.length]; [done|].
  destruct (Json.digit c) as [d|]; [|done].
  destruct d.
  - intros [= <- <-]. lia.
  - destruct (Json.digits s _ 1) as [[n' k] r'] eqn:Hd. intros [= <- <-].
    apply digits_length in Hd. lia.
  - destruct (Json.digits s _ 1) as [[n' k] r'] eqn:Hd. intros [= <- <-].
    apply digits_length in Hd. lia.
Qed.

Lemma frac_part_length m s n k r :
  Json.frac_part m s = Some (n, k, r) -> String.length r <= String.length s.
Proof.
  unfold Json.frac_part. destruct s as [|c s]; [done|].
  destruct (Ascii.eqb_spec c "."); subst.
  - destruct (Json.digits s m 0) as [[n' k'] r'] eqn:Hd.
    destruct k'; [done|]. intros [= <- <- <-].
    apply digits_length in Hd. simpl. lia.
  - intros H. exfalso. revert H.
    destruct c as [[] [] [] [] [] [] [] []]; try done.
Qed.

Lemma exp_part_length s e r :
  Json.exp_part s = Some (e, r) -> String.length r <= String.length s.
Proof.
  unfold Json.exp_part. destruct s as [|c s]; [done|].
  destruct (_ || _); [|done].
  set (p := match s with String "-" r0 => (true, r0) | String "+" r0 => (false, r0) | _ => (false, s) end).
  assert (String.length p.2 <= String.length s) as Hp.
  { subst p. destruct s as [|c' s']; simpl; [lia|].
    destruct c' as [[] [] [] [] [] [] [] []]; simpl; lia. }
  destruct p as [neg rest']. simpl in Hp.
  destruct (Json.digits rest' 0 0) as [[n' k'] r'] eqn:Hd.
  destruct k'; [done|]. intros [= <- <-].
  apply digits_length in Hd. simpl. lia.
Qed.

Lemma match_number_length s v r :
  Json.match_number s = Some (v, r) -> String.length r < String.length s.
Proof.
  unfold Json.match_number.
  set (p := match s with String "-" r0 => (true, r0) | _ => (false, s) end).
  assert (String.length p.2 <= String.length s) as Hp.
  { subst p. destruct s as [|c' s']; simpl; [lia|].
    destruct c' as [[] [] [] [] [] [] [] []]; simpl; lia. }
  destruct p as [neg body]. simpl in Hp.
  destruct (Json.int_part body) as [[n rest]|] eqn:Hi; [|done].
  apply int_part_length in Hi.
  destruct (Json.frac_part n rest) as [[[m k] rest']|] eqn:Hf.
  - apply frac_part_length in Hf.
    destruct (Json.exp_part rest') as [[e rest'']|] eqn:He.
    + apply exp_part_length in He. intros [= <- <-]. lia.
    + intros [= <- <-]. lia.
  - destruct (Json.exp_part rest) as [[e rest']|] eqn:He.
    + apply exp_part_length in He. intros [= <- <-]. lia.
    + intros [= <- <-]. lia.
Qed.

Lemma hex4_length s n r : Json.hex4 s = Some (n, r) -> String.length s = 4 + String.length r.
Proof.
  unfold Json.hex4. destruct s as [|a [|b [|c [|d rest]]]]; try done.
  destruct (Json.hex_digit a), (Json.hex_digit b), (Json.hex_digit c),
    (Json.hex_digit d); try done.
  intros [= <- <-]. simpl. lia.
Qed.

Lemma unicode_escape_length s n r :
  Json.unicode_escape s = Some (n, r) -> String.length r + 4 <= String.length s.
Proof.
  unfold Json.unicode_escape.
  destruct (Json.hex4 s) as [[n1 rest]|] eqn:H1; [|done].
  apply hex4_length in H1.
  destruct (_ && _).
  - destruct rest as [|c1 [|c2 rest']].
    + intros [= <- <-]. simpl in *. lia.
    + destruct c1 as [[] [] [] [] [] [] [] []]; intros [= <- <-]; simpl in *; lia.
    + destruct (Ascii.eqb_spec c1 "\"); subst.
      * destruct (Ascii.eqb_spec c2 "u"); subst.
        -- destruct (Json.hex4 rest') as [[n2 rest'']|] eqn:H2.
           ++ apply hex4_length in H2. destruct (_ && _); intros [= <- <-]; simpl in *; lia.
           ++ intros [= <- <-]; simpl in *; lia.
        -- intros H. assert (r = String "\" (String c2 rest')) as ->.
           { revert H. destruct c2 as [[] [] [] [] [] [] [] []]; try congruence; by intros [= <- <-]. }
           simpl in *. lia.
      * intros H. assert (r = String c1 (String c2 rest')) as ->.
        { revert H. destruct c1 as [[] [] [] [] [] [] [] []]; try congruence; by intros [= <- <-]. }
        simpl in *. lia.
  - intros [= <- <-]. lia.
Qed.

Lemma scanstring_progress fuel s :
  String.length s < fuel -> 
  match Json.scanstring fuel s with
  | Json.Scanned _ rest => String.length rest < String.length s
  | Json.Invalid _ => True
  | Json.OutOfFuel => False
  end.
Proof.
  revert s. induction fuel as [|fuel IH]; intros s Hlen; [lia|].
  destruct s as [|c rest]; [done|]. cbn [Json.scanstring].
  simpl in Hlen.
  destruct (Nat.eqb _ 34); [simpl; lia|].
  destruct (Nat.ltb _ 32); [done|].
  destruct (Ascii.eqb c "\").
  - destruct rest as [|e rest']; [done|].
    assert (forall d,
      match
        match Json.scanstring fuel rest' with
        | Json.Scanned tail r => Json.Scanned (String d tail) r
        | other => other
        end
      with
      | Json.Scanned _ r => String.length r < String.length (String c (String e rest'))
      | Json.Invalid _ => True
      | Json.OutOfFuel => False
      end) as Hsimple.
    { intros d. specialize (IH rest' ltac:(simpl in *; lia)). simpl in *.
      destruct (Json.scanstring fuel rest'); [lia | done | done]. }
    destruct (Ascii.eqb_spec e "u"); subst.
    + destruct (Json.unicode_escape rest') as [[n rest'']|] eqn:Hu; [|done].
      apply unicode_escape_length in Hu.
      specialize (IH rest'' ltac:(simpl in *; lia)). simpl in *.
      destruct (Json.scanstring fuel rest''); [lia | done | done].
    + assert (match
        match Json.simple_escape e with
        | Some d =>
            match Json.scanstring fuel rest' with
            | Json.Scanned tail r => Json.Scanned (String d tail) r
            | other => other
            end
        | None => Json.Invalid "Invalid \escape"
        end
      with
      | Json.Scanned _ r => String.length r < String.length (String c (String e rest'))
      | Json.Invalid _ => True
      | Json.OutOfFuel => False
      end) as H.
      { destruct (Json.simple_escape e); [apply Hsimple | done]. }
      revert H. clear -n. 
      destruct e as [[] [] [] [] [] [] [] []]; try done.
  - specialize (IH rest ltac:(lia)). simpl in *.
    destruct (Json.scanstring fuel rest); [lia | done | done].
Qed.

Lemma eat_length c s r : Json.eat c s = Some r -> String.length s = S (String.length r).
Proof.
  destruct s as [|c' s]; simpl; [done|].
  destruct (Ascii.eqb c c'); [|done]. by intros [= <-].
Qed.

Lemma literal_length s v r : Json.literal s = Some (v, r) -> String.length r < String.length s.
Proof.
  unfold Json.literal.
  destruct (PyStr.drop_prefix "null" s) eqn:H1;
    [apply drop_prefix_length in H1; intros [= <- <-]; simpl in *; lia|].
  destruct (PyStr.drop_prefix "true" s) eqn:H2;
    [apply drop_prefix_length in H2; intros [= <- <-]; simpl in *; lia|].
  destruct (PyStr.drop_prefix "false" s) eqn:H3;
    [apply drop_prefix_length in H3; intros [= <- <-]; simpl in *; lia|].
  done.
Qed.

Lemma constant_length s v r : Json.constant s = Some (v, r) -> String.length r < String.length s.
Proof.
  unfold Json.constant.
  destruct (PyStr.drop_prefix "NaN" s) eqn:H1;
    [apply drop_prefix_length in H1; intros [= <- <-]; simpl in *; lia|].
  destruct (PyStr.drop_prefix "Infinity" s) eqn:H2;
    [apply drop_prefix_length in H2; intros [= <- <-]; simpl in *; lia|].
  destruct (PyStr.drop_prefix "-Infinity" s) eqn:H3;
    [apply drop_prefix_length in H3; intros [= <- <-]; simpl in *; lia|].
  done.
Qed.

Lemma scan_quoted_progress s :
  match Json.scan_quoted s with
  | Json.Scanned _ rest => String.length rest < String.length s
  | Json.Invalid _ => True
  | Json.OutOfFuel => False
  end.
Proof. apply scanstring_progress. lia. Qed.

Lemma scan_progress fuel :
  (forall s, 2 * String.length s < fuel -> advances s (Json.scan_once fuel s)) /\
  (forall s acc, 2 * String.length s + 1 < fuel ->
                 advances s (Json.scan_items fuel s acc)) /\
  (forall s acc, 2 * String.length s + 1 < fuel ->
                 advances s (Json.scan_pairs fuel s acc)).
Proof.
  induction fuel as [|fuel (IHonce & IHitems & IHpairs)];
    [by repeat split; intros; lia|].
  split; [|split].
  - intros s Hlen. cbn [Json.scan_once].
    destruct (Json.eat _ s) as [rest|] eqn:Hq.
    { apply eat_length in Hq. pose proof (scan_quoted_progress rest) as H.
      destruct (Json.scan_quoted rest); simpl in *; [lia | done | done]. }
    destruct (Json.eat "{" s) as [rest|] eqn:Hobj.
    { apply eat_length in Hobj. pose proof (skip_ws_length rest) as Hws.
      destruct (Json.eat "}" _) as [r|] eqn:Hclose.
      - apply eat_length in Hclose. simpl. lia.
      - specialize (IHpairs (Json.skip_ws rest) [] ltac:(lia)).
        destruct (Json.scan_pairs fuel _ _); simpl in *; [lia | done | done]. }
    destruct (Json.eat "[" s) as [rest|] eqn:Harr.
    { apply eat_length in Harr. pose proof (skip_ws_length rest) as Hws.
      destruct (Json.eat "]" _) as [r|] eqn:Hclose.
      - apply eat_length in Hclose. simpl. lia.
      - specialize (IHitems (Json.skip_ws rest) [] ltac:(lia)).
        destruct (Json.scan_items fuel _ _); simpl in *; [lia | done | done]. }
    destruct (Json.literal s) as [[v r]|] eqn:Hlit.
    { apply literal_length in Hlit. done. }
    destruct (Json.match_number s) as [[v r]|] eqn:Hnum.
    { apply match_number_length in Hnum. done. }
    destruct (Json.constant s) as [[v r]|] eqn:Hconst; [|done].
    apply constant_length in Hconst. done.
  - intros s acc Hlen. cbn [Json.scan_items].
    specialize (IHonce s ltac:(lia)).
    destruct (Json.scan_once fuel s) as [v r| |]; simpl in *; [|done|done].
    pose proof (skip_ws_length r) as Hws.
    destruct (Json.eat "]" _) as [r'|] eqn:Hclose.
    { apply eat_length in Hclose. simpl. lia. }
    destruct (Json.eat "," _) as [r'|] eqn:Hcomma; [|done].
    apply eat_length in Hcomma. pose proof (skip_ws_length r') as Hws'.
    specialize (IHitems (Json.skip_ws r') (acc ++ [v])%list ltac:(lia)).
    destruct (Json.scan_items fuel _ _); simpl in *; [lia | done | done].
  - intros s acc Hlen. cbn [Json.scan_pairs].
    destruct (Json.eat _ s) as [rest|] eqn:Hq; [|done].
    apply eat_length in Hq. pose proof (scan_quoted_progress rest) as H.
    destruct (Json.scan_quoted rest) as [k r| |]; [|done|done].
    pose proof (skip_ws_length r) as Hws.
    destruct (Json.eat ":" _) as [r'|] eqn:Hcolon; [|done].
    apply eat_length in Hcolon. pose proof (skip_ws_length r') as Hws'.
    specialize (IHonce (Json.skip_ws r') ltac:(lia)).
    destruct (Json.scan_once fuel _) as [v r''| |]; simpl in *; [|done|done].
    pose proof (skip_ws_length r'') as Hws''.
    destruct (Json.eat "}" _) as [r3|] eqn:Hclose.
    { apply eat_length in Hclose. simpl. lia. }
    destruct (Json.eat "," _) as [r3|] eqn:Hcomma; [|done].
    apply eat_length in Hcomma. pose proof (skip_ws_length r3) as Hws3.
    specialize (IHpairs (Json.skip_ws r3) (Json.dict_set k v acc) ltac:(lia)).
    destruct (Json.scan_pairs fuel _ _); simpl in *; [lia | done | done].
Qed.

Lemma loads_fuel_enough s :
  Json.loads_fuel (2 * String.length s + 1) s <> Json.OutOfFuel.
Proof.
  unfold Json.loads_fuel. pose proof (skip_ws_length s) as Hws.
  destruct (scan_progress (2 * String.length s + 1)) as (Honce & _ & _).
  specialize (Honce (Json.skip_ws s) ltac:(lia)).
  destruct (Json.scan_once _ _) as [v r| |]; simpl in *; [|done|done].
  by destruct (Json.skip_ws r).
Qed.

(** ** C6: what quiz generation returns *)


(** Three options inside a code fence decode, and fail the schema. *)
Lemma fenced_three_options_decodes :
  exists v, Json.loads (cleaned fenced_three_options) = Return v /\
            valid_quiz_question v = false.
Proof. eexists. split; vm_compute; reflexivity. Qed.




(** A text that is no JSON at all gives the failure. *)
Lemma quiz_generation_fails_on_prose :
  Json.loads (cleaned "Sure! Here is your question.")
  = Raise (JSONDecodeError "Expecting value").
Proof. vm_compute. reflexivity. Qed.

(** ** C8: the record written after a generation *)

Lemma documents_set_documents c docs w :
  ChromaStore.documents c (ChromaStore.set_documents c docs w) = docs.
Proof.
  unfold ChromaStore.documents, ChromaStore.set_documents, with_disk. simpl.
  by rewrite lookup_insert_eq.
Qed.

Lemma documents_set_documents_ne c c' docs w :
  ChromaStore.key c <> ChromaStore.key c' ->
  ChromaStore.documents c' (ChromaStore.set_documents c docs w)
  = ChromaStore.documents c' w.
Proof.
  intros Hne. unfold ChromaStore.documents, ChromaStore.set_documents, with_disk.
  simpl. by rewrite lookup_insert_ne.
Qed.

Lemma add_documents_eq env c docs w :
  ChromaStore.add_documents env c docs w =
    let w1 := with_add_log (add_log w ++ [(c, docs)]) w in
    if store_up env c then
      if forallb (fun d => embeds env (page_content d)) docs
      then (Return tt,
            ChromaStore.set_documents c (ChromaStore.documents c w ++ docs) w1)
      else (Raise (ServiceError "embedding request failed"), w1)
    else (Raise (ServiceError "vector store unavailable"), w1).
Proof.
  unfold ChromaStore.add_documents, ChromaStore.check_up, bind, ret, raise.
  cbv zeta. destruct (store_up env c); [|done].
  by destruct (forallb _ docs).
Qed.

Lemma add_documents_appends env c docs w w' :
  ChromaStore.add_documents env c docs w = (Return tt, w') ->
  ChromaStore.documents c w' = (ChromaStore.documents c w ++ docs)%list /\
  llm_log w' = llm_log w.
Proof.
  rewrite add_documents_eq. cbv zeta.
  destruct (store_up env c); [|done].
  destruct (forallb _ docs); [|done].
  intros [= <-]. by rewrite documents_set_documents.
Qed.

(** C8, as stated, fails: after a successful generation in the modular
    pipeline the record appended to the memory collection is the text
    ["input: <question>\noutput: <answer>"] without metadata. *)
Lemma modular_memory_record_differs :
  let mem := VectorStoreManager.memory_vectorstore the_vector_manager in
  let result := RAGAssistant.process_user_input quiet_env the_assistant
               "What is a cell?" empty_world in
  fst result = Return "An answer." /\
  ChromaStore.documents mem (snd result)
    = [context_doc "What is a cell?" "An answer."] /\
  ChromaStore.documents mem (snd result)
    <> [TwoStage.memory_doc "What is a cell?" "An answer."].
Proof.
  cbv zeta. split; [|split].
  - vm_compute. reflexivity.
  - vm_compute. reflexivity.
  - vm_compute. intros H. discriminate H.
Qed.

(** C8, amended.  After every successful generation exactly one record is
    appended to the memory collection.  In the draft-then-refine pipeline
    ([generate] of RAG_implementation/main.py) its content is
    ["Q: <question>\nA: <answer>"] for the user's input and the refined
    answer, with metadata [{source: "memory"}].  In the modular pipeline
    ([update_memory_node] through [save_memory_context]) its content is
    ["input: <question>\noutput: <answer>"] and it has no metadata. *)
Theorem one_memory_record_per_generation (env : Env) :
  (forall (self : TwoStage.t) (st st' : TwoStage.state) (w w' : World),
      TwoStage.generate env self st w = (Return st', w') ->
      exists final,
        TwoStage.answer st' = Some final /\
        ChromaStore.documents (TwoStage.memory_vectorstore self) w'
        = (ChromaStore.documents (TwoStage.memory_vectorstore self) w
           ++ [TwoStage.memory_doc (TwoStage.input st) final])%list) /\
  (forall (a : RAGAssistant.t) (q r : string) (w w' : World),
      let mem := VectorStoreManager.memory_vectorstore
                   (GraphNodes.vector_manager (RAGAssistant.graph_nodes a)) in
      RAGAssistant.process_user_input env a q w = (Return r, w') ->
      ChromaStore.documents mem w'
      = (ChromaStore.documents mem w ++ [context_doc q r])%list).
Proof.
  split.
  - intros self st st' w w'. unfold TwoStage.generate.
    unfold bind at 1. unfold llm_invoke at 1.
    destruct (llm_complete env (llm_log w) _) as [draft|e]; [|done].
    unfold bind at 1. unfold llm_invoke at 1.
    destruct (llm_complete env _ _) as [final|e]; [|done].
    unfold bind at 1.
    destruct (ChromaStore.add_documents env _ _ _) as [[[]|e] w1] eqn:Hadd;
      [|done].
    intros [= <- <-]. exists final. split; [done|].
    apply add_documents_appends in Hadd as [-> _]. reflexivity.
  - intros a q r w w' mem. rewrite process_user_input_eq. unfold pipeline_run.
    destruct (fst (VectorStoreManager.load_memory_variables _ _ _ _)) as [m|e];
      [|done].
    destruct (fst (VectorStoreManager.retrieve_knowledge _ _ _ _)) as [k|e];
      [|done].
    cbv zeta.
    destruct (llm_complete env (llm_log w) _) as [r'|e]; [|done].
    destruct (VectorStoreManager.save_memory_context env _ _ _ _)
      as [[[]|e] w4] eqn:Hsave; [|done].
    rewrite state3_response. simpl. intros [= <- <-].
    unfold VectorStoreManager.save_memory_context, RetrieverMemory.save_context,
      RetrieverMemory.form_documents in Hsave.
    apply add_documents_appends in Hsave as [Hdocs _].
    subst mem. rewrite Hdocs. reflexivity.
Qed.

Lemma one_memory_record_per_generation_witness :
  let mem := VectorStoreManager.memory_vectorstore the_vector_manager in
  ChromaStore.documents mem
    (snd (RAGAssistant.process_user_input quiet_env the_assistant
            "What is a cell?" empty_world))
  = [context_doc "What is a cell?" "An answer."].
Proof.
  exact (proj2 (one_memory_record_per_generation quiet_env) the_assistant
           "What is a cell?" "An answer." empty_world _ eq_refl).
Defined.

(** ** C9: what a reset empties *)

(** C9, as stated, fails: the reset of [VectorStoreManager] empties the
    memory collection together with the knowledge collection. *)
Lemma reset_collections_empties_memory :
  ~ resets_only_knowledge
      (VectorStoreManager.reset_collections quiet_env the_vector_manager)
      (VectorStoreManager.memory_vectorstore the_vector_manager)
      (VectorStoreManager.knowledge_vectorstore the_vector_manager).
Proof.
  intros H. destruct (H stocked_world) as [_ Hmem].
  vm_compute in Hmem. discriminate Hmem.
Qed.

Lemma reset_collection_eq env c w :
  ChromaStore.reset_collection env c w =
    if store_up env c then (Return tt, ChromaStore.set_documents c [] w)
    else (Raise (ServiceError "vector store unavailable"), w).
Proof.
  unfold ChromaStore.reset_collection, ChromaStore.check_up, bind, ret, raise.
  by destruct (store_up env c).
Qed.

Lemma documents_set_documents_nil c c' w :
  ChromaStore.documents c w = [] ->
  ChromaStore.documents c (ChromaStore.set_documents c' [] w) = [].
Proof.
  intros H. unfold ChromaStore.documents, ChromaStore.set_documents, with_disk.
  simpl. destruct (decide (ChromaStore.key c' = ChromaStore.key c)) as [->|Hne].
  - by rewrite lookup_insert_eq.
  - by rewrite lookup_insert_ne.
Qed.

Lemma reset_collections_eq env vm w :
  VectorStoreManager.reset_collections env vm w =
    let mem := VectorStoreManager.memory_vectorstore vm in
    let kb := VectorStoreManager.knowledge_vectorstore vm in
    if store_up env mem then
      if store_up env kb then
        (Return tt,
         with_console
           (console w
            ++ [Text "🧹 Chroma memory and knowledge base have been reset."])
           (ChromaStore.set_documents kb []
              (ChromaStore.set_documents mem [] w)))
      else (Raise (ServiceError "vector store unavailable"),
            ChromaStore.set_documents mem [] w)
    else (Raise (ServiceError "vector store unavailable"), w).
Proof.
  unfold VectorStoreManager.reset_collections, bind.
  rewrite reset_collection_eq. cbv zeta.
  destruct (store_up env (VectorStoreManager.memory_vectorstore vm)); [|done].
  rewrite reset_collection_eq.
  by destruct (store_up env (VectorStoreManager.knowledge_vectorstore vm)).
Qed.

(** C9, amended.  [VectorStoreManager] has one reset, [reset_collections],
    which empties the memory and the knowledge collection together; when
    it has returned, [get_knowledge_base_status] reports
    [total_chunks == 0] and no file types.  A reset of one collection
    exists in the Streamlit application only: its "Clear Knowledge Base"
    button empties the knowledge collection and leaves the memory
    collection as it was, and "Clear Memory" does the converse. *)
Theorem reset_empties_both_collections (env : Env) :
  (forall (vm : VectorStoreManager.t) (w : World),
      let mem := VectorStoreManager.memory_vectorstore vm in
      let kb := VectorStoreManager.knowledge_vectorstore vm in
      let w' := snd (VectorStoreManager.reset_collections env vm w) in
      fst (VectorStoreManager.reset_collections env vm w) = Return tt ->
      ChromaStore.documents mem w' = [] /\
      ChromaStore.documents kb w' = [] /\
      fst (VectorStoreManager.get_knowledge_base_status env vm w')
      = Return (VectorStoreManager.mkStatus 0 ∅ true None)) /\
  (forall (self : TextdocApp.t) (w : World),
      let mem := TextdocApp.memory_vectorstore self in
      let kb := TextdocApp.knowledge_vectorstore self in
      ChromaStore.key mem <> ChromaStore.key kb ->
      store_up env mem = true -> store_up env kb = true ->
      (ChromaStore.documents kb
         (snd (TextdocApp.clear_knowledge_base env self w)) = [] /\
       ChromaStore.documents mem
         (snd (TextdocApp.clear_knowledge_base env self w))
       = ChromaStore.documents mem w) /\
      (ChromaStore.documents mem
         (snd (TextdocApp.clear_memory env self w)) = [] /\
       ChromaStore.documents kb
         (snd (TextdocApp.clear_memory env self w))
       = ChromaStore.documents kb w)).
Proof.
  split.
  - intros vm w mem kb w'. subst w'.
    rewrite reset_collections_eq. cbv zeta. fold mem kb.
    destruct (store_up env mem); [|by cbn].
    destruct (store_up env kb) eqn:Hkb; [|by cbn].
    intros _. cbn [snd fst].
    set (w2 := ChromaStore.set_documents kb [] _).
    assert (ChromaStore.documents kb w2 = []) as Hkb2
      by apply documents_set_documents.
    assert (ChromaStore.documents mem w2 = []) as Hmem2.
    { apply documents_set_documents_nil, documents_set_documents. }
    split; [exact Hmem2|]. split; [exact Hkb2|].
    rewrite get_knowledge_base_status_eq. fold kb. rewrite Hkb.
    cbn [fst]. cbv zeta.
    change (ChromaStore.documents kb (with_console _ w2))
      with (ChromaStore.documents kb w2).
    by rewrite Hkb2.
  - intros self w mem kb Hne Hmem Hkb.
    unfold TextdocApp.clear_knowledge_base, TextdocApp.clear_memory.
    rewrite !try_except_any. unfold bind. rewrite !reset_collection_eq.
    fold mem kb. rewrite Hmem, Hkb. unfold print, show. cbn [snd].
    change (ChromaStore.documents ?c (with_console _ ?w0))
      with (ChromaStore.documents c w0).
    repeat split.
    + apply documents_set_documents.
    + by apply documents_set_documents_ne.
    + apply documents_set_documents.
    + by apply documents_set_documents_ne.
Qed.

Lemma reset_empties_both_collections_witness :
  fst (VectorStoreManager.get_knowledge_base_status quiet_env the_vector_manager
         (snd (VectorStoreManager.reset_collections quiet_env
                 the_vector_manager stocked_world)))
  = Return (VectorStoreManager.mkStatus 0 ∅ true None).
Proof.
  exact (proj2 (proj2 (proj1 (reset_empties_both_collections quiet_env)
                         the_vector_manager stocked_world eq_refl))).
Defined.

(** ** C4: collections across a restart *)

Lemma contains_nonempty needle : needle <> EmptyString ->
  ~ PyStr.contains needle EmptyString.
Proof.
  intros Hne (pre & post & H). destruct pre; [|discriminate H].
  rewrite append_nil in H. destruct needle; [done | discriminate H].
Qed.

(** C4, as stated, fails: the application of docs+response-generation
    resets both collections when it starts, so a record saved before a
    restart is not found after it. *)
Lemma resetting_start_forgets_memory :
  fst (save_restart_load RAGAssistant.init_resetting quiet_env
         "What is a cell?" "An answer." empty_world) = Return EmptyString /\
  ~ PyStr.contains (page_content (context_doc "What is a cell?" "An answer."))
      EmptyString.
Proof.
  split; [vm_compute; reflexivity|].
  apply contains_nonempty. discriminate.
Qed.

Lemma join_contains sep x (l : list string) :
  x ∈ l -> PyStr.contains x (PyStr.join sep l).
Proof.
  induction l as [|y l IH]; intros Hx; [by apply elem_of_nil in Hx|].
  apply elem_of_cons in Hx as [->|Hx].
  - destruct l as [|z l].
    + exists EmptyString, EmptyString. simpl. by rewrite append_nil_r.
    + exists EmptyString, (sep +:+ PyStr.join sep (z :: l)). reflexivity.
  - destruct l as [|z l]; [by apply elem_of_nil in Hx|].
    destruct (IH Hx) as (pre & post & Hjoin).
    exists (y +:+ sep +:+ pre), post.
    change (PyStr.join sep (y :: z :: l))
      with (y +:+ sep +:+ PyStr.join sep (z :: l)).
    rewrite Hjoin. by rewrite !append_assoc.
Qed.

Lemma open_eq env dir name w :
  ChromaStore.open env dir name w =
    let c := mkChroma dir name in
    if store_up env c then
      (Return c,
       match disk w !! ChromaStore.key c with
       | Some _ => w
       | None => ChromaStore.set_documents c [] w
       end)
    else (Raise (ServiceError "vector store unavailable"), w).
Proof.
  unfold ChromaStore.open, ChromaStore.check_up, bind, ret, raise. cbv zeta.
  destruct (store_up env _); [|done].
  by destruct (disk w !! _).
Qed.

(** Opening a collection leaves every collection with its documents. *)
Lemma open_documents env dir name w c :
  ChromaStore.documents c (snd (ChromaStore.open env dir name w))
  = ChromaStore.documents c w.
Proof.
  rewrite open_eq. cbv zeta. destruct (store_up env _); [|done]. cbn [snd].
  destruct (disk w !! _) eqn:Hd; [done|].
  unfold ChromaStore.documents, ChromaStore.set_documents, with_disk. simpl.
  destruct (decide (ChromaStore.key (mkChroma dir name) = ChromaStore.key c))
    as [Heq|Hne].
  - rewrite Heq, lookup_insert_eq. rewrite Heq in Hd. by rewrite Hd.
  - by rewrite lookup_insert_ne.
Qed.

Lemma vector_store_manager_init_eq env mdir kdir w :
  VectorStoreManager.init env mdir kdir w =
    match ChromaStore.open env mdir "long_term_memory" w with
    | (Return m, w1) =>
        match ChromaStore.open env kdir "knowledge_base" w1 with
        | (Return k, w2) => (Return (VectorStoreManager.mk m k 5 3), w2)
        | (Raise e, w2) => (Raise e, w2)
        end
    | (Raise e, w1) => (Raise e, w1)
    end.
Proof.
  unfold VectorStoreManager.init, bind, ret.
  destruct (ChromaStore.open env mdir _ w) as [[m|e] w1]; [|done].
  by destruct (ChromaStore.open env kdir _ w1) as [[k|e] w2].
Qed.

Lemma vector_store_manager_init_documents env mdir kdir w c :
  ChromaStore.documents c (snd (VectorStoreManager.init env mdir kdir w))
  = ChromaStore.documents c w.
Proof.
  rewrite vector_store_manager_init_eq.
  pose proof (open_documents env mdir "long_term_memory" w c) as H1.
  destruct (ChromaStore.open env mdir _ w) as [[m|e] w1]; [|done].
  pose proof (open_documents env kdir "knowledge_base" w1 c) as H2.
  destruct (ChromaStore.open env kdir _ w1) as [[k|e] w2]; simpl in *;
    congruence.
Qed.

Lemma draw_graph_eq env w :
  exists line, RAGAssistant.draw_graph env w
               = (Return tt, with_console (console w ++ [Text line]) w).
Proof.
  unfold RAGAssistant.draw_graph. rewrite try_except_any.
  unfold bind, lift, print, show.
  destruct (draw_mermaid_png env) as [[]|e]; by eexists.
Qed.

(** With the stores reachable, the shared part of [__init__] returns the
    assistant over the configured directories and leaves every collection
    with its documents. *)
Lemma init_components_returns env w :
  (forall c, store_up env c = true) ->
  exists w',
    RAGAssistant.init_components env w = (Return the_assistant, w') /\
    (forall c, ChromaStore.documents c w' = ChromaStore.documents c w) /\
    llm_log w' = llm_log w.
Proof.
  intros Hup. unfold RAGAssistant.init_components. unfold bind at 1.
  pose proof (fun c => vector_store_manager_init_documents env
                Config.chroma_memory_dir Config.chroma_kb_dir w c) as Hdocs.
  assert (llm_log (snd (VectorStoreManager.init env Config.chroma_memory_dir
                          Config.chroma_kb_dir w)) = llm_log w) as Hlog.
  { rewrite vector_store_manager_init_eq, !open_eq. cbv zeta. rewrite Hup.
    destruct (disk w !! _); rewrite open_eq; cbv zeta; rewrite Hup;
      cbn [snd]; by destruct (_ !! _). }
  assert (fst (VectorStoreManager.init env Config.chroma_memory_dir
                 Config.chroma_kb_dir w) = Return the_vector_manager) as Hvm.
  { rewrite vector_store_manager_init_eq, !open_eq. cbv zeta. rewrite Hup.
    rewrite open_eq. cbv zeta. by rewrite Hup. }
  destruct (VectorStoreManager.init env _ _ w) as [r w1]. simpl in *. subst r.
  unfold bind. destruct (draw_graph_eq env w1) as [line ->].
  unfold ret. eexists. split; [reflexivity|]. split; [|done].
  intros c. rewrite <-Hdocs. reflexivity.
Qed.

Lemma reset_collections_returns env vm w :
  fst (VectorStoreManager.reset_collections env vm w) = Return tt ->
  ChromaStore.documents (VectorStoreManager.memory_vectorstore vm)
    (snd (VectorStoreManager.reset_collections env vm w)) = [] /\
  ChromaStore.documents (VectorStoreManager.knowledge_vectorstore vm)
    (snd (VectorStoreManager.reset_collections env vm w)) = [].
Proof.
  rewrite reset_collections_eq. cbv zeta.
  destruct (store_up env _); [|by cbn].
  destruct (store_up env _); [|by cbn].
  intros _. cbn [snd]. split.
  - apply documents_set_documents_nil, documents_set_documents.
  - apply documents_set_documents.
Qed.

Lemma retrieve_all env c k q w :
  store_up env c = true -> embeds env q = true ->
  length (ChromaStore.documents c w) <= k ->
  exists docs,
    ChromaStore.retrieve env c k q w = (Return docs, w) /\
    docs ≡ₚ ChromaStore.documents c w.
Proof.
  intros Hup Hemb Hlen.
  unfold ChromaStore.retrieve, ChromaStore.check_up, bind, ret.
  rewrite Hup, Hemb.
  pose proof (merge_sort_Permutation (ChromaStore.closer env q)
                (ChromaStore.documents c w)) as Hperm.
  eexists. split; [reflexivity|].
  rewrite take_ge; [done|]. by rewrite Hperm.
Qed.

(** C4, amended.  Constructing the store manager over a persistence
    directory loads the collections found there and empties none.  The
    application of aitutor starts in just this way: with the stores and the
    embedding service available, a record saved before a restart is in the
    memory collection after it, and [load_memory_variables] for the same
    question returns a text containing it as long as the collection held
    fewer than five records (the retriever returns the five closest).  The
    application of docs+response-generation calls [reset_collections] at
    the end of every start, after which both collections are empty. *)
Theorem collections_survive_restart_without_reset (env : Env) :
  (forall mdir kdir w c,
      ChromaStore.documents c (snd (VectorStoreManager.init env mdir kdir w))
      = ChromaStore.documents c w) /\
  (forall q ans w,
      (forall c, store_up env c = true) ->
      (forall t, embeds env t = true) ->
      let mem := VectorStoreManager.memory_vectorstore the_vector_manager in
      exists text w',
        save_restart_load RAGAssistant.init_keeping env q ans w
          = (Return text, w') /\
        ChromaStore.documents mem w'
          = (ChromaStore.documents mem w ++ [context_doc q ans])%list /\
        (length (ChromaStore.documents mem w) < 5 ->
         PyStr.contains (page_content (context_doc q ans)) text)) /\
  (forall w a w',
      RAGAssistant.init_resetting env w = (Return a, w') ->
      ChromaStore.documents
        (VectorStoreManager.memory_vectorstore (RAGAssistant.vector_manager a))
        w' = [] /\
      ChromaStore.documents
        (VectorStoreManager.knowledge_vectorstore (RAGAssistant.vector_manager a))
        w' = []).
Proof.
  split; [|split].
  - intros. apply vector_store_manager_init_documents.
  - intros q ans w Hup Hemb mem.
    unfold save_restart_load, RAGAssistant.init_keeping.
    destruct (init_components_returns env w Hup) as (w1 & Hinit1 & Hdocs1 & _).
    unfold bind at 1. rewrite Hinit1.
    unfold bind at 1.
    unfold VectorStoreManager.save_memory_context, RetrieverMemory.save_context,
      RetrieverMemory.form_documents.
    rewrite add_documents_eq. cbv zeta. rewrite Hup.
    cbn [forallb page_content]. rewrite Hemb. cbn [andb].
    set (w2 := ChromaStore.set_documents _ _ _).
    destruct (init_components_returns env w2 Hup) as (w3 & Hinit3 & Hdocs3 & _).
    unfold bind at 1. rewrite Hinit3.
    assert (ChromaStore.documents mem w3
            = (ChromaStore.documents mem w ++ [context_doc q ans])%list)
      as Hmem.
    { rewrite Hdocs3. subst w2. rewrite documents_set_documents.
      change (ChromaStore.documents ?c (with_add_log _ ?w0))
        with (ChromaStore.documents c w0).
      by rewrite Hdocs1. }
    rewrite load_memory_variables_eq.
    destruct (decide (length (ChromaStore.documents mem w) < 5)) as [Hlt|Hge].
    + destruct (retrieve_all env mem 5 q w3 (Hup _) (Hemb _)) as (docs & Hr & Hp).
      { rewrite Hmem, length_app. simpl. lia. }
      change (VectorStoreManager.memory_vectorstore
                (RAGAssistant.vector_manager the_assistant)) with mem.
      change (VectorStoreManager.memory_k
                (RAGAssistant.vector_manager the_assistant)) with 5.
      rewrite Hr. cbn [fst]. eexists _, _. split; [reflexivity|].
      split; [exact Hmem|]. intros _.
      apply join_contains, list_elem_of_fmap. exists (context_doc q ans).
      split; [done|]. rewrite Hp, Hmem. apply elem_of_app. right.
      by apply list_elem_of_singleton.
    + change (VectorStoreManager.memory_vectorstore
                (RAGAssistant.vector_manager the_assistant)) with mem.
      change (VectorStoreManager.memory_k
                (RAGAssistant.vector_manager the_assistant)) with 5.
      unfold ChromaStore.retrieve, ChromaStore.check_up, bind, ret.
      rewrite Hup, Hemb. cbn [fst]. eexists _, _. split; [reflexivity|].
      split; [exact Hmem|]. intros Hlt. by destruct Hge.
  - intros w a w'. unfold RAGAssistant.init_resetting. unfold bind at 1.
    destruct (RAGAssistant.init_components env w) as [[self|e] w1]; [|done].
    unfold bind.
    pose proof (reset_collections_returns env
                  (RAGAssistant.vector_manager self) w1) as Hreset.
    destruct (VectorStoreManager.reset_collections env _ w1) as [[[]|e] w2];
      [|done].
    unfold ret. intros [= <- <-]. by apply Hreset.
Qed.

Lemma collections_survive_restart_witness :
  exists text w',
    save_restart_load RAGAssistant.init_keeping quiet_env
      "What is a cell?" "An answer." empty_world = (Return text, w') /\
    ChromaStore.documents
      (VectorStoreManager.memory_vectorstore the_vector_manager) w'
    = [context_doc "What is a cell?" "An answer."] /\
    (0 < 5 ->
     PyStr.contains (page_content (context_doc "What is a cell?" "An answer."))
       text).
Proof.
  exact (proj1 (proj2 (collections_survive_restart_without_reset quiet_env))
           "What is a cell?" "An answer." empty_world
           (fun _ => eq_refl) (fun _ => eq_refl)).
Defined.

Lemma drop_prefix_append p r : PyStr.drop_prefix p (p +:+ r) = Some r.
Proof.
  induction p as [|c p IH]; [by destruct r|].
  rewrite append_cons. simpl. by rewrite Ascii.eqb_refl.
Qed.

Lemma contains_occurs needle hay :
  PyStr.contains needle hay -> occurs needle hay = true.
Proof.
  intros (pre & post & ->). induction pre as [|c pre IH].
  - rewrite append_nil. destruct (needle +:+ post) eqn:E; simpl;
      rewrite <-E, drop_prefix_append; done.
  - rewrite append_cons. simpl. rewrite IH. by destruct (PyStr.drop_prefix _ _).
Qed.

(** With five closer records already stored, the record saved before the
    restart is in the collection and is not among the five returned. *)
Lemma sixth_record_not_retrieved :
  exists text,
    fst (save_restart_load RAGAssistant.init_keeping prefers_old_env
           "What is a cell?" "An answer." five_old_records) = Return text /\
    ~ PyStr.contains
        (page_content (context_doc "What is a cell?" "An answer.")) text.
Proof.
  eexists. split; [vm_compute; reflexivity|].
  intros H. apply contains_occurs in H. vm_compute in H. discriminate H.
Qed.


(** ** C7: one batch per ingestion run *)

Lemma printed_refl w : printed w w.
Proof. exists []. destruct w. unfold with_console. simpl. by rewrite app_nil_r. Qed.

Lemma printed_trans w1 w2 w3 : printed w1 w2 -> printed w2 w3 -> printed w1 w3.
Proof.
  intros [l1 ->] [l2 ->]. exists (l1 ++ l2)%list.
  unfold with_console. simpl. by rewrite app_assoc.
Qed.

Lemma printed_print line w : printed w (snd (print line w)).
Proof. by exists [Text line]. Qed.

Lemma printed_stores w w' :
  printed w w' ->
  disk w' = disk w /\ add_log w' = add_log w /\ llm_log w' = llm_log w.
Proof. by intros [lines ->]. Qed.

#[local] Hint Resolve printed_refl printed_print : core.

Lemma extract_text_from_pdf_eq env path w :
  exists w',
    DocumentProcessor.extract_text_from_pdf env path w =
      (Return (match pdf_pages env path with
               | Return pages =>
                   PyStr.strip
                     (foldl (fun text page => text +:+ page +:+ PyStr.nl)
                            EmptyString pages)
               | Raise _ => EmptyString
               end), w') /\ printed w w'.
Proof.
  unfold DocumentProcessor.extract_text_from_pdf. rewrite try_except_any.
  unfold bind, lift, ret. destruct (pdf_pages env path) as [pages|e].
  - eexists. split; [reflexivity | auto].
  - eexists. split; [reflexivity|]. apply printed_print.
Qed.

Lemma extract_text_from_txt_eq env path w :
  exists w',
    DocumentProcessor.extract_text_from_txt env path w =
      (Return (match read_text env path with
               | Return content => PyStr.strip content
               | Raise _ => EmptyString
               end), w') /\ printed w w'.
Proof.
  unfold DocumentProcessor.extract_text_from_txt. rewrite try_except_any.
  unfold bind, lift, ret. destruct (read_text env path) as [content|e].
  - eexists. split; [reflexivity | auto].
  - eexists. split; [reflexivity|]. apply printed_print.
Qed.

(** [process_file] returns the chunks of the file and only prints. *)
Lemma process_file_eq env proc file_path w :
  exists w',
    DocumentProcessor.process_file env proc file_path w
      = (Return (chunks_of env proc file_path), w') /\ printed w w'.
Proof.
  unfold DocumentProcessor.process_file, chunks_of, extracted.
  destruct (String.eqb _ ".pdf").
  - destruct (extract_text_from_pdf_eq env (path_str file_path) w)
      as (w' & Heq & Hp).
    unfold bind. rewrite Heq. unfold DocumentProcessor.split_file, ret.
    exists w'. split; [|done]. by destruct (PyStr.truthy _).
  - destruct (String.eqb _ ".txt").
    + destruct (extract_text_from_txt_eq env (path_str file_path) w)
        as (w' & Heq & Hp).
      unfold bind. rewrite Heq. unfold DocumentProcessor.split_file, ret.
      exists w'. split; [|done]. by destruct (PyStr.truthy _).
    + exists w. split; [done | auto].
Qed.

(** A processed file has one of the two counted extensions. *)
Lemma chunks_of_ok_extension env proc file_path :
  snd (chunks_of env proc file_path) = true ->
  let ext := PyStr.lower (DocumentProcessor.suffix (path_name file_path)) in
  ext = ".pdf" \/ ext = ".txt".
Proof.
  unfold chunks_of, extracted. cbv zeta.
  destruct (String.eqb _ ".pdf") eqn:Hpdf.
  - left. by apply String.eqb_eq.
  - destruct (String.eqb _ ".txt") eqn:Htxt; [|done].
    right. by apply String.eqb_eq.
Qed.

Lemma counted_insert ext n counts :
  counted counts -> counted (<[ext := n]> counts).
Proof.
  intros [Hpdf Htxt]. split.
  - destruct (decide (ext = ".pdf")) as [->|Hne];
      [by rewrite lookup_insert_eq | by rewrite lookup_insert_ne].
  - destruct (decide (ext = ".txt")) as [->|Hne];
      [by rewrite lookup_insert_eq | by rewrite lookup_insert_ne].
Qed.

Lemma loop_body_eq env self a file_path w :
  counted (UploadService.acc_file_type_counts a) ->
  exists a' w',
    UploadService.loop_body env self a file_path w = (Return a', w') /\
    printed w w' /\
    counted (UploadService.acc_file_type_counts a') /\
    UploadService.all_documents a'
    = (UploadService.all_documents a
       ++ batch env (UploadService.processor self) [file_path])%list /\
    UploadService.acc_processed_files a'
    = UploadService.acc_processed_files a
      + processed_count env (UploadService.processor self) [file_path].
Proof.
  intros Hcounted. unfold UploadService.loop_body.
  unfold bind at 1. unfold print at 1, show at 1.
  set (w1 := with_console _ w).
  assert (printed w w1) as Hp1 by (by eexists).
  destruct (process_file_eq env (UploadService.processor self) file_path w1)
    as (w2 & Heq & Hp2).
  unfold bind at 1. rewrite Heq.
  pose proof (chunks_of_ok_extension env (UploadService.processor self)
                file_path) as Hext.
  simpl. destruct (chunks_of env _ file_path) as [documents ok].
  destruct ok; simpl in *.
  - destruct Hcounted as [[n1 H1] [n2 H2]].
    destruct (Hext eq_refl) as [-> | ->].
    + rewrite H1. unfold ret. eexists _, _. split; [reflexivity|].
      split; [by eapply printed_trans|]. simpl.
      split; [by apply counted_insert; split; eexists|].
      split; [by rewrite app_nil_r | lia].
    + rewrite H2. unfold ret. eexists _, _. split; [reflexivity|].
      split; [by eapply printed_trans|]. simpl.
      split; [by apply counted_insert; split; eexists|].
      split; [by rewrite app_nil_r | lia].
  - unfold bind, ret, print, show.
    eexists _, _. split; [reflexivity|].
    split; [|split; [done|split; [by rewrite !app_nil_r | lia]]].
    eapply printed_trans; [eapply printed_trans; eassumption|].
    by eexists.
Qed.

Lemma batch_cons env proc file_path rest :
  batch env proc (file_path :: rest)
  = (batch env proc [file_path] ++ batch env proc rest)%list.
Proof.
  simpl. destruct (chunks_of env proc file_path) as [documents ok].
  by rewrite app_nil_r.
Qed.

Lemma processed_count_cons env proc file_path rest :
  processed_count env proc (file_path :: rest)
  = processed_count env proc [file_path] + processed_count env proc rest.
Proof. simpl. lia. Qed.

Lemma loop_eq env self files : forall a w,
  counted (UploadService.acc_file_type_counts a) ->
  exists a' w',
    UploadService.loop env self a files w = (Return a', w') /\
    printed w w' /\
    UploadService.all_documents a'
    = (UploadService.all_documents a
       ++ batch env (UploadService.processor self) files)%list /\
    UploadService.acc_processed_files a'
    = UploadService.acc_processed_files a
      + processed_count env (UploadService.processor self) files.
Proof.
  induction files as [|file_path rest IH]; intros a w Hcounted.
  - exists a, w. simpl. split; [done|]. split; [auto|].
    split; [by rewrite app_nil_r | lia].
  - destruct (loop_body_eq env self a file_path w Hcounted)
      as (a1 & w1 & Hbody & Hp1 & Hc1 & Hdocs1 & Hn1).
    destruct (IH a1 w1 Hc1) as (a2 & w2 & Hloop & Hp2 & Hdocs2 & Hn2).
    exists a2, w2. cbn [UploadService.loop]. unfold bind. rewrite Hbody.
    split; [exact Hloop|]. split; [by eapply printed_trans|].
    rewrite batch_cons, processed_count_cons. split.
    + rewrite Hdocs2, Hdocs1. by rewrite app_assoc.
    + lia.
Qed.






(** ** The Streamlit pipeline as a whole *)

Lemma textdoc_generate_calls_once env p self (state : gmap string string) q w :
  state !! "input" = Some q ->
  exists r w',
    TextdocApp.generate_response_node env p self state w
      = (Return (<["response" := r]> state), w') /\
    llm_log w'
    = (llm_log w
       ++ [TextdocApp.build_prompt p
             (default EmptyString (state !! "knowledge"))
             (default EmptyString (state !! "memory")) q])%list.
Proof.
  intros Hq. unfold TextdocApp.generate_response_node.
  rewrite try_except_any. unfold getitem. rewrite Hq.
  unfold bind, ret, llm_invoke, print, show, with_console.
  destruct (TextdocApp.show_debug p); simpl;
    destruct (llm_complete env _ _) as [r|e]; simpl;
    try destruct (PyStr.truthy r); simpl; by eexists _, _.
Qed.

Lemma textdoc_update_memory_returns env self (state : gmap string string) w :
  exists w',
    TextdocApp.update_memory_node env self state w = (Return ∅, w') /\
    llm_log w' = llm_log w.
Proof.
  unfold TextdocApp.update_memory_node. rewrite try_except_any.
  unfold bind at 1.
  destruct (PyStr.truthy _).
  - unfold getitem.
    destruct (state !! "input") as [q|]; [|by unfold bind, raise, print, show, ret; eexists].
    destruct (state !! "response") as [r|]; [|by unfold bind, raise, print, show, ret; eexists].
    unfold bind at 1 2, ret at 1 2. unfold RetrieverMemory.save_context.
    rewrite add_documents_eq. cbv zeta.
    destruct (store_up env _); [destruct (forallb _ _)|];
      unfold bind, print, show, ret; by eexists.
  - unfold ret. by eexists.
Qed.

(** In the Streamlit application every query with an input reaches
    Generate, makes one completion call and ends with a response. *)
Lemma textdoc_agent_always_answers env p self q w :
  exists result w' prompt,
    LangGraph.invoke (TextdocApp.agent env p self) {[ "input" := q ]} w
      = (Return result, w') /\
    is_Some (result !! "response") /\
    llm_log w' = (llm_log w ++ [prompt])%list.
Proof.
  unfold TextdocApp.agent, LangGraph.invoke, LangGraph.step.
  destruct (textdoc_retrieve_memory_returns env self {[ "input" := q ]} w)
    as (m & w1 & H1 & Hl1 & _).
  unfold bind at 1. unfold bind at 1. rewrite H1. unfold ret at 1.
  rewrite insert_union_self.
  destruct (textdoc_retrieve_knowledge_returns env self
              (<["memory" := m]> {[ "input" := q ]}) w1)
    as (k & w2 & H2 & Hl2 & _).
  unfold bind at 1. unfold bind at 1. rewrite H2. unfold ret at 1.
  rewrite insert_union_self.
  destruct (textdoc_generate_calls_once env p self
              (<["knowledge" := k]> (<["memory" := m]> {[ "input" := q ]}))
              q w2 ltac:(by simplify_map_eq))
    as (r & w3 & H3 & Hl3).
  unfold bind at 1. unfold bind at 1. rewrite H3. unfold ret at 1.
  rewrite insert_union_self.
  destruct (textdoc_update_memory_returns env self
              (<["response" := r]>
                 (<["knowledge" := k]> (<["memory" := m]> {[ "input" := q ]})))
              w3)
    as (w4 & H4 & Hl4).
  unfold bind at 1. unfold bind at 1. rewrite H4. unfold ret.
  rewrite (left_id_L ∅ (∪)).
  eexists _, _, _. split; [reflexivity|]. split.
  - by simplify_map_eq.
  - rewrite Hl4, Hl3, Hl2, Hl1. reflexivity.
Qed.

(** ** Further properties of the modular assistant *)

Lemma save_memory_context_eq env vm q r w :
  VectorStoreManager.save_memory_context env vm q r w =
    ChromaStore.add_documents env (VectorStoreManager.memory_vectorstore vm)
      [context_doc q r] w.
Proof. reflexivity. Qed.

Lemma retrieve_up env c k q w :
  store_up env c = true -> embeds env q = true ->
  ChromaStore.retrieve env c k q w =
    (Return (take k (merge_sort (ChromaStore.closer env q)
                       (ChromaStore.documents c w))), w).
Proof.
  intros Hup Hq. unfold ChromaStore.retrieve, ChromaStore.check_up, bind, ret.
  by rewrite Hup, Hq.
Qed.

Lemma retrieve_returns env c k q w docs w' :
  ChromaStore.retrieve env c k q w = (Return docs, w') ->
  w' = w /\ length docs <= k /\ docs ⊆ ChromaStore.documents c w.
Proof.
  unfold ChromaStore.retrieve, ChromaStore.check_up, bind, ret, raise.
  destruct (store_up env c); [|done].
  destruct (embeds env q); [|done].
  intros [= <- <-]. split; [done|]. split.
  - rewrite length_take. lia.
  - intros d Hd. apply elem_of_take in Hd as (i & Hd & _).
    apply list_elem_of_lookup_2 in Hd.
    by rewrite merge_sort_Permutation in Hd.
Qed.

(** The world after a run of the chain whose first three stages
    succeeded: the prompt is logged, whatever the last stage does. *)
Lemma process_user_input_llm_log env a q m k w :
  let vm := GraphNodes.vector_manager (RAGAssistant.graph_nodes a) in
  fst (VectorStoreManager.load_memory_variables env vm q w) = Return m ->
  fst (VectorStoreManager.retrieve_knowledge env vm q w) = Return k ->
  llm_log (snd (RAGAssistant.process_user_input env a q w))
  = (llm_log w ++ [spec_prompt k m q])%list.
Proof.
  intros vm Hm Hk. rewrite process_user_input_eq. fold vm. unfold pipeline_run.
  rewrite Hm, Hk. cbv zeta.
  destruct (llm_complete env (llm_log w) (spec_prompt k m q)) as [r|e];
    [|done].
  rewrite save_memory_context_eq, add_documents_eq. cbv zeta.
  destruct (store_up env _); [|done].
  by destruct (forallb _ _).
Qed.

(** X1.  [process_user_input] returns exactly what the LLM completed for
    the one prompt of the run: whenever it returns, its result is the
    completion of a prompt that was appended to the log of LLM calls, so
    the fallback text of its last line is never what decides the
    answer. *)
Theorem process_user_input_returns_the_completion (env : Env)
    (a : RAGAssistant.t) (q r : string) (w w' : World) :
  RAGAssistant.process_user_input env a q w = (Return r, w') ->
  exists prompt,
    llm_complete env (llm_log w) prompt = Return r /\
    llm_log w' = (llm_log w ++ [prompt])%list.
Proof.
  rewrite process_user_input_eq. unfold pipeline_run.
  destruct (fst (VectorStoreManager.load_memory_variables _ _ _ _)) as [m|e];
    [|done].
  destruct (fst (VectorStoreManager.retrieve_knowledge _ _ _ _)) as [k|e];
    [|done].
  cbv zeta.
  destruct (llm_complete env (llm_log w) _) as [r'|e] eqn:Hllm; [|done].
  rewrite save_memory_context_eq, add_documents_eq. cbv zeta.
  destruct (store_up env _); [|done].
  destruct (forallb _ _); [|done].
  rewrite state3_response. simpl. intros [= <- <-].
  by eexists.
Qed.

Lemma process_user_input_returns_the_completion_witness :
  exists prompt,
    llm_complete quiet_env (llm_log empty_world) prompt = Return "An answer." /\
    llm_log (snd (RAGAssistant.process_user_input quiet_env the_assistant
                    "What is a cell?" empty_world))
    = (llm_log empty_world ++ [prompt])%list.
Proof.
  apply (process_user_input_returns_the_completion quiet_env the_assistant
           "What is a cell?" "An answer." empty_world).
  vm_compute. reflexivity.
Defined.

Lemma closest_of_none {A} (R : relation A) `{!forall x y, Decision (R x y)} k :
  take k (merge_sort R []) = [].
Proof. change (merge_sort R []) with (@nil A). by rewrite take_nil. Qed.

Lemma closest_of_one {A} (R : relation A) `{!forall x y, Decision (R x y)} k x :
  take (S k) (merge_sort R [x]) = [x].
Proof. change (merge_sort R [x]) with [x]. simpl. by rewrite take_nil. Qed.

(** X2.  Conversational continuity of the modular assistant.  With every
    service answering and both collections empty, the first question is
    sent to the LLM bare, as ["User: <q1>"], and its completion is the
    answer; the prompt of the next question then carries the first
    exchange under "Conversation History:", in the form the memory stored
    it, before ["User: <q2>"]. *)
Theorem second_question_sees_first_exchange (env : Env) (a : RAGAssistant.t)
    (q1 q2 r1 : string) (w : World) :
  let vm := GraphNodes.vector_manager (RAGAssistant.graph_nodes a) in
  let mem := VectorStoreManager.memory_vectorstore vm in
  let kb := VectorStoreManager.knowledge_vectorstore vm in
  (forall c, store_up env c = true) ->
  (forall text, embeds env text = true) ->
  0 < VectorStoreManager.memory_k vm ->
  ChromaStore.key mem <> ChromaStore.key kb ->
  ChromaStore.documents mem w = [] ->
  ChromaStore.documents kb w = [] ->
  llm_complete env (llm_log w) ("User: " +:+ q1) = Return r1 ->
  let first := RAGAssistant.process_user_input env a q1 w in
  fst first = Return r1 /\
  llm_log (snd (RAGAssistant.process_user_input env a q2 (snd first)))
  = (llm_log w
     ++ [ "User: " +:+ q1;
          "Conversation History:" +:+ PyStr.nl
          +:+ "input: " +:+ q1 +:+ PyStr.nl +:+ "output: " +:+ r1
          +:+ PyStr.nl +:+ PyStr.nl +:+ "User: " +:+ q2 ])%list.
Proof.
  intros vm mem kb Hup Hemb Hk Hne Hmem Hkb Hllm first.
  assert (Hmem' := Hmem). assert (Hkb' := Hkb). unfold mem in Hmem'.
  unfold kb in Hkb'.
  assert (Hm1 : VectorStoreManager.load_memory_variables env vm q1 w
                = (Return EmptyString, w)).
  { rewrite load_memory_variables_eq, retrieve_up by done.
    by rewrite Hmem', closest_of_none. }
  assert (Hk1 : VectorStoreManager.retrieve_knowledge env vm q1 w
                = (Return EmptyString, w)).
  { rewrite retrieve_knowledge_eq, retrieve_up by done.
    by rewrite Hkb', closest_of_none. }
  assert (Hfirst : first
            = (Return r1,
               ChromaStore.set_documents mem [context_doc q1 r1]
                 (with_add_log (add_log w ++ [(mem, [context_doc q1 r1])])
                    (with_llm_log (llm_log w ++ ["User: " +:+ q1]) w)))).
  { subst first. rewrite process_user_input_eq. fold vm. unfold pipeline_run.
    rewrite Hm1, Hk1. simpl fst. cbv beta iota zeta.
    change (spec_prompt EmptyString EmptyString q1) with ("User: " +:+ q1).
    rewrite Hllm, save_memory_context_eq, add_documents_eq. cbv zeta.
    fold mem. rewrite Hup. simpl forallb. rewrite Hemb. simpl andb. cbv iota.
    rewrite state3_response. simpl default.
    unfold ChromaStore.documents at 1. simpl disk.
    fold (ChromaStore.documents mem w). rewrite Hmem. reflexivity. }
  rewrite Hfirst. simpl fst. simpl snd. split; [done|].
  set (w1 := ChromaStore.set_documents _ _ _).
  rewrite (process_user_input_llm_log env a q2
             (page_content (context_doc q1 r1)) EmptyString w1).
  - unfold w1. simpl llm_log. rewrite <- (assoc_L (++)). f_equal.
    simpl app. f_equal. unfold spec_prompt.
    unfold context_doc, page_content, prompt_section.
    rewrite append_cons. by autorewrite with pystr.
  - fold vm. rewrite load_memory_variables_eq, retrieve_up by done.
    fold mem. unfold w1. rewrite documents_set_documents.
    destruct (VectorStoreManager.memory_k vm) as [|n]; [lia|].
    by rewrite closest_of_one.
  - fold vm. rewrite retrieve_knowledge_eq, retrieve_up by done.
    fold kb. unfold w1. rewrite documents_set_documents_ne by done.
    assert (Hkb1 : ChromaStore.documents kb
                     (with_add_log (add_log w ++ [(mem, [context_doc q1 r1])])
                        (with_llm_log (llm_log w ++ ["User: " +:+ q1]) w))
                   = []) by exact Hkb.
    by rewrite Hkb1, closest_of_none.
Qed.

Lemma second_question_sees_first_exchange_witness :
  let first := RAGAssistant.process_user_input quiet_env the_assistant
                 "What is a cell?" empty_world in
  fst first = Return "An answer." /\
  llm_log (snd (RAGAssistant.process_user_input quiet_env the_assistant
                  "And a nucleus?" (snd first)))
  = (llm_log empty_world
     ++ [ "User: " +:+ "What is a cell?";
          "Conversation History:" +:+ PyStr.nl
          +:+ "input: " +:+ "What is a cell?" +:+ PyStr.nl
          +:+ "output: " +:+ "An answer."
          +:+ PyStr.nl +:+ PyStr.nl +:+ "User: " +:+ "And a nucleus?" ])%list.
Proof.
  apply (second_question_sees_first_exchange quiet_env the_assistant
           "What is a cell?" "And a nucleus?" "An answer." empty_world);
    try reflexivity.
  - simpl. lia.
  - vm_compute. intros H. discriminate H.
Defined.

(** X3.  A run on a state without the key "input" stops at the first
    node: each of the four nodes of graph_nodes.py raises [KeyError] for
    "input" before it contacts a store or the LLM, so the run of the chain
    raises it and leaves the world as it was. *)
Theorem nodes_need_an_input (env : Env) (a : RAGAssistant.t)
    (state : gmap string string) (w : World) :
  state !! "input" = None ->
  Forall (fun n : LangGraph.node => n state w = (Raise (KeyError "input"), w))
         (RAGAssistant.memory_agent env a) /\
  LangGraph.invoke (RAGAssistant.memory_agent env a) state w
  = (Raise (KeyError "input"), w).
Proof.
  intros Hq. split.
  - unfold RAGAssistant.memory_agent.
    repeat apply Forall_cons_2; [| | | |apply Forall_nil_2];
      unfold GraphNodes.retrieve_memory_node,
        GraphNodes.retrieve_knowledge_node, GraphNodes.generate_response_node,
        GraphNodes.update_memory_node, getitem, bind, raise;
      by rewrite Hq.
  - unfold RAGAssistant.memory_agent, LangGraph.invoke, LangGraph.step,
      GraphNodes.retrieve_memory_node, getitem, bind, raise.
    by rewrite Hq.
Qed.

Lemma nodes_need_an_input_witness :
  Forall (fun n : LangGraph.node =>
            n {[ "question" := "What is a cell?" ]} empty_world
            = (Raise (KeyError "input"), empty_world))
         (RAGAssistant.memory_agent quiet_env the_assistant) /\
  LangGraph.invoke (RAGAssistant.memory_agent quiet_env the_assistant)
    {[ "question" := "What is a cell?" ]} empty_world
  = (Raise (KeyError "input"), empty_world).
Proof.
  apply (nodes_need_an_input quiet_env the_assistant
           {[ "question" := "What is a cell?" ]} empty_world).
  reflexivity.
Defined.

(** X4.  An answer that cannot be saved is lost.  When both retrievals
    and the completion succeed but the memory store is down or the record
    of the exchange cannot be embedded, [process_user_input] raises
    instead of returning the completion: the prompt was sent, and no
    collection has changed. *)
Theorem unsaved_answer_is_lost (env : Env) (a : RAGAssistant.t)
    (q m k r : string) (w : World) :
  let vm := GraphNodes.vector_manager (RAGAssistant.graph_nodes a) in
  let mem := VectorStoreManager.memory_vectorstore vm in
  fst (VectorStoreManager.load_memory_variables env vm q w) = Return m ->
  fst (VectorStoreManager.retrieve_knowledge env vm q w) = Return k ->
  llm_complete env (llm_log w) (spec_prompt k m q) = Return r ->
  store_up env mem = false \/
    embeds env (page_content (context_doc q r)) = false ->
  exists e w',
    RAGAssistant.process_user_input env a q w = (Raise e, w') /\
    llm_log w' = (llm_log w ++ [spec_prompt k m q])%list /\
    forall c, ChromaStore.documents c w' = ChromaStore.documents c w.
Proof.
  intros vm mem Hm Hk Hr Hdown.
  rewrite process_user_input_eq. fold vm. unfold pipeline_run.
  rewrite Hm, Hk. cbv zeta. rewrite Hr.
  rewrite save_memory_context_eq, add_documents_eq. cbv zeta. fold mem.
  destruct (store_up env mem) eqn:Hup.
  - destruct Hdown as [|Hemb]; [done|].
    simpl forallb. simpl in Hemb. rewrite Hemb. simpl. by eexists _, _.
  - by eexists _, _.
Qed.

Lemma unsaved_answer_is_lost_witness :
  exists e w',
    RAGAssistant.process_user_input record_unembeddable_env the_assistant
      "What is a cell?" empty_world = (Raise e, w') /\
    llm_log w'
    = (llm_log empty_world
       ++ [spec_prompt EmptyString EmptyString "What is a cell?"])%list /\
    forall c, ChromaStore.documents c w' = ChromaStore.documents c empty_world.
Proof.
  apply (unsaved_answer_is_lost record_unembeddable_env the_assistant
           "What is a cell?" EmptyString EmptyString "An answer." empty_world).
  - vm_compute. reflexivity.
  - vm_compute. reflexivity.
  - vm_compute. reflexivity.
  - right. vm_compute. reflexivity.
Defined.

(** X5.  Retrieval only reads.  When [retrieve_knowledge] returns, the
    world is unchanged and the text is the join, with line feeds, of at
    most [k] chunks that are all in the knowledge collection, where [k]
    is the retriever's setting (3 after [__init__]); likewise
    [load_memory_variables] for at most 5 records of the memory
    collection. *)
Theorem retrieval_reads_at_most_k (env : Env) (vm : VectorStoreManager.t)
    (q : string) (w : World) :
  (forall text w',
      VectorStoreManager.retrieve_knowledge env vm q w = (Return text, w') ->
      w' = w /\
      exists docs,
        text = PyStr.join PyStr.nl (map page_content docs) /\
        length docs <= VectorStoreManager.knowledge_k vm /\
        docs ⊆ ChromaStore.documents
                 (VectorStoreManager.knowledge_vectorstore vm) w) /\
  (forall text w',
      VectorStoreManager.load_memory_variables env vm q w = (Return text, w') ->
      w' = w /\
      exists docs,
        text = PyStr.join PyStr.nl (map page_content docs) /\
        length docs <= VectorStoreManager.memory_k vm /\
        docs ⊆ ChromaStore.documents
                 (VectorStoreManager.memory_vectorstore vm) w) /\
  (forall mdir kdir w0 vm0 w1,
      VectorStoreManager.init env mdir kdir w0 = (Return vm0, w1) ->
      VectorStoreManager.memory_k vm0 = 5 /\
      VectorStoreManager.knowledge_k vm0 = 3).
Proof.
  split; [|split].
  - intros text w'. rewrite retrieve_knowledge_eq.
    destruct (ChromaStore.retrieve env _ _ q w) as [[docs|e] w1] eqn:Hr;
      [|done].
    simpl. intros [= <- <-]. split; [done|].
    apply retrieve_returns in Hr as (_ & Hlen & Hsub). by exists docs.
  - intros text w'. rewrite load_memory_variables_eq.
    destruct (ChromaStore.retrieve env _ _ q w) as [[docs|e] w1] eqn:Hr;
      [|done].
    simpl. intros [= <- <-]. split; [done|].
    apply retrieve_returns in Hr as (_ & Hlen & Hsub). by exists docs.
  - intros mdir kdir w0 vm0 w1. rewrite vector_store_manager_init_eq.
    destruct (ChromaStore.open env mdir _ w0) as [[m|e] w2]; [|done].
    destruct (ChromaStore.open env kdir _ w2) as [[k|e] w3]; [|done].
    by intros [= <- <-].
Qed.

Lemma retrieval_reads_at_most_k_witness :
  stocked_world = stocked_world /\
  exists docs,
    "The mitochondria is the powerhouse of the cell."
    = PyStr.join PyStr.nl (map page_content docs) /\
    length docs <= 3 /\
    docs ⊆ ChromaStore.documents
             (VectorStoreManager.knowledge_vectorstore the_vector_manager)
             stocked_world.
Proof.
  apply (proj1 (retrieval_reads_at_most_k quiet_env the_vector_manager
                  "What is a cell?" stocked_world)
               "The mitochondria is the powerhouse of the cell."
               stocked_world).
  vm_compute. reflexivity.
Defined.

(** ** Further properties of the vector store manager *)

Lemma add_to_knowledge_base_run env vm docs w :
  let kb := VectorStoreManager.knowledge_vectorstore vm in
  let ok := store_up env kb
            && forallb (fun d => embeds env (page_content d)) docs in
  exists w',
    VectorStoreManager.add_documents_to_knowledge_base env vm docs w
      = (Return ok, w') /\
    ChromaStore.documents kb w'
      = (ChromaStore.documents kb w ++ (if ok then docs else []))%list /\
    (forall c, ChromaStore.key c <> ChromaStore.key kb ->
               ChromaStore.documents c w' = ChromaStore.documents c w) /\
    add_log w' = (add_log w ++ [(kb, docs)])%list /\
    length (console w') = length (console w) + (if ok then 0 else 1).
Proof.
  intros kb ok. unfold VectorStoreManager.add_documents_to_knowledge_base.
  rewrite try_except_any. unfold bind at 1.
  rewrite add_documents_eq. cbv zeta. fold kb. subst ok.
  destruct (store_up env kb); simpl andb.
  - destruct (forallb _ docs); simpl.
    + eexists. split; [reflexivity|]. split; [|split; [|split]].
      * by rewrite documents_set_documents.
      * intros c Hc. by rewrite documents_set_documents_ne.
      * done.
      * simpl. lia.
    + eexists. split; [reflexivity|]. split; [|split; [|split]].
      * by rewrite app_nil_r.
      * done.
      * done.
      * simpl. rewrite length_app. simpl. lia.
  - eexists. split; [reflexivity|]. split; [|split; [|split]].
    + by rewrite app_nil_r.
    + done.
    + done.
    + simpl. rewrite length_app. simpl. lia.
Qed.

(** X6.  [add_documents_to_knowledge_base] is all or nothing and never
    raises.  It returns [True] exactly when the store is reachable and
    every chunk can be embedded; then the batch is appended to the
    knowledge collection in its order and nothing is printed.  Otherwise
    it returns [False], prints one line, and the collection is as before.
    No other collection changes in either case. *)
Theorem add_to_knowledge_base_all_or_nothing (env : Env)
    (vm : VectorStoreManager.t) (docs : list Document) (w : World) :
  let kb := VectorStoreManager.knowledge_vectorstore vm in
  let ok := store_up env kb
            && forallb (fun d => embeds env (page_content d)) docs in
  exists w',
    VectorStoreManager.add_documents_to_knowledge_base env vm docs w
      = (Return ok, w') /\
    ChromaStore.documents kb w'
      = (ChromaStore.documents kb w ++ (if ok then docs else []))%list /\
    (forall c, ChromaStore.key c <> ChromaStore.key kb ->
               ChromaStore.documents c w' = ChromaStore.documents c w) /\
    length (console w') = length (console w) + (if ok then 0 else 1).
Proof.
  intros kb ok.
  destruct (add_to_knowledge_base_run env vm docs w)
    as (w' & Hcall & Hkb & Hother & _ & Hconsole).
  by exists w'.
Qed.

Lemma count_file_types_from (file_type : string) (docs : list Document) :
  forall acc : gmap string nat,
    foldl (fun (acc : gmap string nat) d =>
             match metadata d !! "file_type" with
             | Some ft => <[ft := default 0 (acc !! ft) + 1]> acc
             | None => acc
             end) acc docs !! file_type
    = match acc !! file_type, chunks_of_type file_type docs with
      | None, 0 => None
      | o, n => Some (default 0 o + n)
      end.
Proof.
  unfold chunks_of_type.
  induction docs as [|d docs IH]; intros acc.
  - simpl. destruct (acc !! file_type); simpl; [f_equal; lia|done].
  - simpl foldl. rewrite IH. rewrite filter_cons.
    destruct (metadata d !! "file_type") as [ft|] eqn:Hft.
    + destruct (decide (ft = file_type)) as [->|Hne].
      * rewrite decide_True by done. rewrite lookup_insert_eq. simpl.
        destruct (acc !! file_type); simpl; f_equal; lia.
      * rewrite decide_False by congruence.
        by rewrite lookup_insert_ne.
    + by rewrite decide_False.
Qed.

(** X7.  The status of the knowledge base counts what is stored.
    [get_knowledge_base_status] never raises and changes nothing.  With
    the store reachable it reports success, the number of stored chunks,
    and per file type the number of chunks whose metadata names that
    type: a type no chunk names has no entry, and no count exceeds the
    total.  With the store unreachable it reports failure with zero
    chunks, no types and the error text. *)
Theorem status_counts_stored_chunks (env : Env) (vm : VectorStoreManager.t)
    (w : World) :
  let kb := VectorStoreManager.knowledge_vectorstore vm in
  let docs := ChromaStore.documents kb w in
  exists st,
    VectorStoreManager.get_knowledge_base_status env vm w = (Return st, w) /\
    VectorStoreManager.success st = store_up env kb /\
    (store_up env kb = true ->
     VectorStoreManager.total_chunks st = length docs /\
     VectorStoreManager.error st = None /\
     forall file_type,
       VectorStoreManager.file_types st !! file_type
       = (if decide (chunks_of_type file_type docs = 0) then None
          else Some (chunks_of_type file_type docs)) /\
       chunks_of_type file_type docs <= VectorStoreManager.total_chunks st) /\
    (store_up env kb = false ->
     st = VectorStoreManager.mkStatus 0 ∅ false
            (Some "vector store unavailable")).
Proof.
  intros kb docs. rewrite get_knowledge_base_status_eq. fold kb. fold docs.
  eexists. split; [reflexivity|].
  destruct (store_up env kb); simpl.
  - split; [done|]. split; [|done]. intros _. split; [done|]. split; [done|].
    intros file_type. split.
    + destruct docs as [|d docs'] eqn:Hdocs.
      * done.
      * change (Nat.ltb 0 (length (d :: docs'))) with true. cbv iota.
        unfold VectorStoreManager.count_file_types.
        rewrite count_file_types_from. rewrite lookup_empty.
        destruct (chunks_of_type file_type (d :: docs')); done.
    + unfold chunks_of_type. apply length_filter.
  - split; [done|]. split; [done|]. done.
Qed.

(** ** Further properties of document processing and upload *)

(** X8.  [process_file] never raises and changes nothing but the console.
    A file that is not processed (unsupported extension, unreadable, or
    without text) yields no chunk.  A processed file has the extension
    .pdf or .txt in some letter case, and each of its chunks carries the
    file's path as source, its name as filename, and that type without
    the dot as file_type. *)
Theorem process_file_never_raises (env : Env) (proc : DocumentProcessor.t)
    (file_path : Path) (w : World) :
  exists docs ok w',
    DocumentProcessor.process_file env proc file_path w
      = (Return (docs, ok), w') /\
    printed w w' /\
    (ok = false -> docs = []) /\
    (ok = true ->
     exists file_type,
       (file_type = "pdf" \/ file_type = "txt") /\
       PyStr.lower (DocumentProcessor.suffix (path_name file_path))
       = "." +:+ file_type /\
       Forall (fun d => metadata d
                        = DocumentProcessor.file_metadata file_path file_type)
              docs).
Proof.
  destruct (process_file_eq env proc file_path w) as (w' & Heq & Hp).
  destruct (chunks_of env proc file_path) as [docs ok] eqn:Hc.
  exists docs, ok, w'. split; [done|]. split; [done|].
  unfold chunks_of, extracted in Hc.
  destruct (String.eqb _ ".pdf") eqn:Hpdf.
  - apply String.eqb_eq in Hpdf.
    destruct (PyStr.truthy _); injection Hc as <- <-.
    + split; [done|]. intros _. exists "pdf". split; [by left|].
      split; [done|]. unfold DocumentProcessor.create_documents.
      apply Forall_fmap. by apply Forall_true.
    + done.
  - destruct (String.eqb _ ".txt") eqn:Htxt.
    + apply String.eqb_eq in Htxt.
      destruct (PyStr.truthy _); injection Hc as <- <-.
      * split; [done|]. intros _. exists "txt". split; [by right|].
        split; [done|]. unfold DocumentProcessor.create_documents.
        apply Forall_fmap. by apply Forall_true.
      * done.
    + by injection Hc as <- <-.
Qed.

Lemma loop_body_counts env self a file_path w a' w' :
  counted (UploadService.acc_file_type_counts a) ->
  UploadService.loop_body env self a file_path w = (Return a', w') ->
  counted_files (UploadService.acc_file_type_counts a')
  = counted_files (UploadService.acc_file_type_counts a)
    + processed_count env (UploadService.processor self) [file_path].
Proof.
  intros Hcounted. unfold UploadService.loop_body.
  unfold bind at 1. unfold print at 1, show at 1.
  set (w1 := with_console _ w).
  destruct (process_file_eq env (UploadService.processor self) file_path w1)
    as (w2 & Heq & Hp2).
  unfold bind at 1. rewrite Heq.
  pose proof (chunks_of_ok_extension env (UploadService.processor self)
                file_path) as Hext.
  simpl. destruct (chunks_of env _ file_path) as [documents ok].
  destruct ok; simpl in *.
  - destruct Hcounted as [[n1 H1] [n2 H2]].
    destruct (Hext eq_refl) as [-> | ->].
    + rewrite H1. unfold ret. intros [= <- <-]. unfold counted_files. simpl.
      rewrite lookup_insert_eq, lookup_insert_ne by done.
      rewrite H1, H2. simpl. lia.
    + rewrite H2. unfold ret. intros [= <- <-]. unfold counted_files. simpl.
      rewrite lookup_insert_eq, lookup_insert_ne by done.
      rewrite H1, H2. simpl. lia.
  - unfold bind, ret, print, show. intros [= <- <-]. lia.
Qed.

Lemma loop_counts env self files : forall a w a' w',
  counted (UploadService.acc_file_type_counts a) ->
  UploadService.loop env self a files w = (Return a', w') ->
  counted_files (UploadService.acc_file_type_counts a')
  = counted_files (UploadService.acc_file_type_counts a)
    + processed_count env (UploadService.processor self) files.
Proof.
  induction files as [|file_path rest IH]; intros a w a' w' Hcounted.
  - simpl. unfold ret. intros [= <- <-]. lia.
  - destruct (loop_body_eq env self a file_path w Hcounted)
      as (a1 & w1 & Hbody & _ & Hc1 & _ & _).
    cbn [UploadService.loop]. unfold bind. rewrite Hbody. intros Hloop.
    rewrite (IH _ _ _ _ Hc1 Hloop).
    rewrite (loop_body_counts _ _ _ _ _ _ _ Hcounted Hbody).
    rewrite (processed_count_cons _ _ file_path rest). lia.
Qed.

(** What [upload_documents] does, by the files found and the batch of
    their chunks. *)
Lemma upload_documents_run env self directory file_types w :
  let file_types' := default [".pdf"; ".txt"] file_types in
  let files := DocumentProcessor.get_files_by_type env directory
                 (Some file_types') in
  let proc := UploadService.processor self in
  let kb := VectorStoreManager.knowledge_vectorstore
              (UploadService.vector_manager self) in
  let docs := batch env proc files in
  exists res w',
    UploadService.upload_documents env self directory file_types w
      = (Return res, w') /\
    match files, docs with
    | [], _ =>
        res = UploadService.failure
                (UploadService.NoFilesWithExtensions file_types' directory) /\
        w' = w
    | _ :: _, [] =>
        res = UploadService.failure UploadService.NoValidFiles /\
        printed w w'
    | _ :: _, _ :: _ =>
        if accepts env kb docs then
          (exists counts per_type,
              res = UploadService.mkResult true
                      (UploadService.AddedChunks (length docs)
                         (processed_count env proc files) per_type)
                      (processed_count env proc files) (length docs)
                      (Some counts) /\
              counted_files counts = processed_count env proc files) /\
          ChromaStore.documents kb w'
          = (ChromaStore.documents kb w ++ docs)%list /\
          (forall c, ChromaStore.key c <> ChromaStore.key kb ->
                     ChromaStore.documents c w' = ChromaStore.documents c w)
        else
          res = UploadService.failure UploadService.NoValidFiles /\
          (forall c, ChromaStore.documents c w' = ChromaStore.documents c w) /\
          add_log w' = (add_log w ++ [(kb, docs)])%list
    end.
Proof.
  intros file_types' files proc kb docs.
  unfold UploadService.upload_documents. cbv zeta.
  fold file_types'. fold files.
  subst docs. destruct files as [|file_path rest] eqn:Hfiles.
  - unfold ret. by eexists _, _.
  - rewrite <-Hfiles.
    set (a0 := UploadService.mkAcc [] 0 _).
    assert (Hc0 : counted (UploadService.acc_file_type_counts a0)).
    { subst a0. split; simpl; by simplify_map_eq. }
    destruct (loop_eq env self files a0 w Hc0)
      as (a & w1 & Hloop & Hp & Hdocs & Hn).
    pose proof (loop_counts env self files a0 w a w1 Hc0 Hloop) as Hcount.
    fold proc in Hdocs, Hn, Hcount. simpl in Hdocs, Hn, Hcount.
    unfold bind at 1. rewrite Hloop. rewrite Hdocs.
    pose proof (printed_stores _ _ Hp) as (Hdisk & Hadd & _).
    destruct (batch env proc files) as [|d ds] eqn:Hbatch.
    + unfold ret. by eexists _, _.
    + destruct (add_to_knowledge_base_run env
                  (UploadService.vector_manager self) (d :: ds) w1)
        as (w2 & Hcall & Hkb & Hother & Hlog & _).
      unfold bind. rewrite Hcall. fold kb in Hkb, Hother, Hlog |- *.
      fold (accepts env kb (d :: ds)) in Hkb, Hother, Hlog |- *.
      assert (Hsame : forall c, ChromaStore.documents c w1
                                = ChromaStore.documents c w).
      { intros c. unfold ChromaStore.documents. by rewrite Hdisk. }
      destruct (accepts env kb (d :: ds)); unfold ret.
      * eexists _, _. split; [reflexivity|]. split; [|split].
        -- eexists _, _. rewrite Hn. split; [reflexivity|].
           rewrite Hcount. done.
        -- by rewrite Hkb, Hsame.
        -- intros c Hc. by rewrite Hother, Hsame.
      * eexists _, _. split; [reflexivity|]. split; [done|]. split.
        -- intros c. destruct (decide (ChromaStore.key c = ChromaStore.key kb))
             as [Heq|Hne].
           ++ unfold ChromaStore.documents in *. rewrite Heq.
              rewrite Hkb. by rewrite app_nil_r, Hdisk.
           ++ by rewrite Hother, Hsame.
        -- by rewrite Hlog, Hadd.
Qed.

Lemma batch_processed env proc files :
  batch env proc files <> [] -> 0 < processed_count env proc files.
Proof.
  induction files as [|file_path rest IH]; [done|].
  simpl. destruct (chunks_of env proc file_path) as [documents ok].
  destruct ok; simpl; [lia|]. intros H. specialize (IH H). lia.
Qed.

(** X9.  The result of [upload_documents] is coherent with what it did.
    It never raises.  A result without success reports zero files and
    zero chunks, has no per-type counts, and no collection has changed.
    A result with success reports at least one file and one chunk, the
    counts for .pdf and .txt add up to the number of processed files, and
    the knowledge collection has grown by exactly the reported number of
    chunks. *)
Theorem upload_result_is_coherent (env : Env) (self : UploadService.t)
    (directory : string) (file_types : option (list string)) (w : World) :
  let kb := VectorStoreManager.knowledge_vectorstore
              (UploadService.vector_manager self) in
  exists res w',
    UploadService.upload_documents env self directory file_types w
      = (Return res, w') /\
    (UploadService.success res = false ->
     UploadService.processed_files res = 0 /\
     UploadService.total_chunks res = 0 /\
     UploadService.file_type_counts res = None /\
     forall c, ChromaStore.documents c w' = ChromaStore.documents c w) /\
    (UploadService.success res = true ->
     0 < UploadService.processed_files res /\
     0 < UploadService.total_chunks res /\
     (exists counts,
         UploadService.file_type_counts res = Some counts /\
         counted_files counts = UploadService.processed_files res) /\
     length (ChromaStore.documents kb w')
     = length (ChromaStore.documents kb w) + UploadService.total_chunks res).
Proof.
  intros kb.
  destruct (upload_documents_run env self directory file_types w)
    as (res & w' & Hrun & Hcases).
  exists res, w'. split; [exact Hrun|]. cbv zeta in Hcases. fold kb in Hcases.
  destruct (DocumentProcessor.get_files_by_type _ _ _) as [|f files].
  { destruct Hcases as [-> ->]. by split. }
  destruct (batch env _ (f :: files)) as [|d ds] eqn:Hbatch.
  { destruct Hcases as [-> Hp]. split; [|done]. intros _.
    repeat (split; [done|]). intros c. unfold ChromaStore.documents.
    by destruct (printed_stores _ _ Hp) as (-> & _). }
  destruct (accepts env kb (d :: ds)).
  - destruct Hcases as ((counts & per_type & -> & Hcount) & Hkb & _).
    split; [done|]. intros _.
    cbn [UploadService.processed_files UploadService.total_chunks
         UploadService.file_type_counts].
    split; [|split; [simpl; lia|split]].
    + apply batch_processed. by rewrite Hbatch.
    + by exists counts.
    + rewrite Hkb, length_app. done.
  - destruct Hcases as (-> & Hsame & _). by split.
Qed.





(** X12.  The listing of the uploads directory shows the files an upload
    visits.  For an existing directory the names [list_available_files]
    gives, PDF names then TXT names, are the names of the files
    [get_files_by_type] returns for the default types, in the same order,
    and the total is their number.  For a missing directory both are
    empty, the listing says the directory does not exist, and
    [upload_documents] fails with the message that no files were found,
    touching nothing. *)
Theorem listing_shows_the_files_uploaded (env : Env) (self : UploadService.t)
    (directory : string) (w : World) :
  let listing := UploadListing.list_available_files env directory in
  let files := DocumentProcessor.get_files_by_type env directory None in
  map path_name files
  = (UploadListing.pdf_files listing ++ UploadListing.txt_files listing)%list /\
  UploadListing.dir_found listing = dir_exists env directory /\
  (dir_exists env directory = true ->
   UploadListing.total_files listing = Some (length files)) /\
  (dir_exists env directory = false ->
   files = [] /\
   UploadListing.message listing
   = Some (directory +:+ " directory does not exist") /\
   UploadService.upload_documents env self directory None w
   = (Return (UploadService.failure
                (UploadService.NoFilesWithExtensions [".pdf"; ".txt"]
                   directory)), w)).
Proof.
  intros listing files. subst listing files.
  unfold UploadListing.list_available_files, UploadService.upload_documents,
    DocumentProcessor.get_files_by_type.
  destruct (dir_exists env directory); cbn [negb default foldl].
  - change ("*" +:+ ".pdf") with "*.pdf". change ("*" +:+ ".txt") with "*.txt".
    rewrite app_nil_l. cbn [UploadListing.pdf_files UploadListing.txt_files
      UploadListing.dir_found UploadListing.total_files].
    rewrite map_app, length_app. by repeat split.
  - by repeat split.
Qed.

(** ** Further properties of the Streamlit application *)


(** X13.  The Streamlit application always has an answer to show.  For
    every submitted chat input (the handler runs for a non-empty input),
    whatever the stores and the LLM do, the answer computed is returned,
    never raised, and is not blank: it has a character that is not white
    space. *)
Theorem textdoc_answer_is_never_blank (env : Env) (p : TextdocApp.profile)
    (self : TextdocApp.t) (user_input : string) (w : World) :
  PyStr.truthy user_input = true ->
  exists answer w',
    TextdocApp.respond env p self user_input w = (Return answer, w') /\
    PyStr.truthy (PyStr.strip answer) = true.
Proof.
  intros _.
  unfold TextdocApp.respond. rewrite try_except_any. unfold bind at 1.
  match goal with |- context [match ?b w with _ => _ end] =>
    destruct (b w) as [[response|e] w1] end.
  - destruct (negb (PyStr.truthy response)
              || negb (PyStr.truthy (PyStr.strip response))) eqn:Hblank;
      unfold ret; eexists _, _; (split; [reflexivity|]).
    + by vm_compute.
    + apply orb_false_elim in Hblank as [_ Hstrip].
      by apply negb_false_iff in Hstrip.
  - unfold bind, print, show, ret.
    destruct (TextdocApp.show_debug p); eexists _, _;
      (split; [reflexivity|by vm_compute]).
Qed.

Lemma textdoc_answer_is_never_blank_witness :
  exists answer w',
    TextdocApp.respond embedding_down_env
      (TextdocApp.mkProfile "Teacher" "Senior" true)
      (TextdocApp.mk (mkChroma "./chroma_storage" "long_term_memory")
                     (mkChroma "./kb_storage" "knowledge_base"))
      "What is a cell?" empty_world = (Return answer, w') /\
    PyStr.truthy (PyStr.strip answer) = true.
Proof.
  apply (textdoc_answer_is_never_blank embedding_down_env
           (TextdocApp.mkProfile "Teacher" "Senior" true)
           (TextdocApp.mk (mkChroma "./chroma_storage" "long_term_memory")
                          (mkChroma "./kb_storage" "knowledge_base"))
           "What is a cell?" empty_world).
  reflexivity.
Defined.

(** X14.  A blank chat input never reaches the pipeline.  For a
    submitted input that consists of white space only, the answer is the
    request for a valid question, and nothing else happens: no retrieval,
    no LLM call, no memory record, nothing printed. *)
Theorem textdoc_blank_input_is_not_processed (env : Env)
    (p : TextdocApp.profile) (self : TextdocApp.t) (user_input : string)
    (w : World) :
  PyStr.truthy user_input = true ->
  PyStr.truthy (PyStr.strip user_input) = false ->
  TextdocApp.respond env p self user_input w
  = (Return "Please provide a valid question or input.", w).
Proof.
  intros _ Hblank. unfold TextdocApp.respond. rewrite try_except_any.
  unfold bind at 1. rewrite Hblank. reflexivity.
Qed.

Lemma textdoc_blank_input_is_not_processed_witness :
  TextdocApp.respond quiet_env (TextdocApp.mkProfile "Teacher" "Senior" false)
    (TextdocApp.mk (mkChroma "./chroma_storage" "long_term_memory")
                   (mkChroma "./kb_storage" "knowledge_base"))
    "   " empty_world
  = (Return "Please provide a valid question or input.", empty_world).
Proof.
  apply (textdoc_blank_input_is_not_processed quiet_env
           (TextdocApp.mkProfile "Teacher" "Senior" false)
           (TextdocApp.mk (mkChroma "./chroma_storage" "long_term_memory")
                          (mkChroma "./kb_storage" "knowledge_base"))
           "   " empty_world).
  - reflexivity.
  - reflexivity.
Defined.









(** ** Accounts (aitutor/app1.py) *)

Lemma register_user_fresh host self file username email password prefs :
  AuthSystem.users self !! username = None ->
  let user_data :=
    match prefs with
    | Some p => p ∪ AuthSystem.account host username email password
    | None => AuthSystem.account host username email password
    end in
  let self' := AuthSystem.mk (<[username := user_data]> (AuthSystem.users self)) in
  AuthSystem.register_user host self file username email password prefs
  = if AuthSystem.can_write host
    then (Return true, self', AuthSystem.Stored (AuthSystem.users self'))
    else (Raise (ServiceError "cannot open users.json for writing"),
          self', file).
Proof.
  intros Hfresh. unfold AuthSystem.register_user, AuthSystem.save_users.
  rewrite Hfresh. by destruct (AuthSystem.can_write host).
Qed.

Lemma account_password_hash host username email password prefs :
  (forall p, prefs = Some p -> p !! "password_hash" = None) ->
  match prefs with
  | Some p => p ∪ AuthSystem.account host username email password
  | None => AuthSystem.account host username email password
  end !! "password_hash"
  = Some (Json.Str (AuthSystem.hash_password host password)).
Proof.
  intros Hprefs. destruct prefs as [p|].
  - rewrite lookup_union_r by by apply Hprefs.
    unfold AuthSystem.account. by simplify_map_eq.
  - unfold AuthSystem.account. by simplify_map_eq.
Qed.

Lemma authenticate_registered host users username user_data password' h :
  users !! username = Some user_data ->
  user_data !! "password_hash" = Some (Json.Str h) ->
  AuthSystem.authenticate_user host (AuthSystem.mk users) username password'
  = Return (String.eqb h (AuthSystem.hash_password host password')).
Proof.
  intros Hu Hh. unfold AuthSystem.authenticate_user. simpl.
  by rewrite Hu, Hh.
Qed.

(** X17.  A registered user can log in, in this session and after a
    restart.  Registering a username that is not taken, with [users.json]
    writable and preferences that do not set password_hash, returns
    [True] and writes the users to the file.  After it, the password
    authenticates against the object and against a fresh [AuthSystem()]
    loaded from the file, a password with another digest does not, and
    the records of all other users are as before. *)
Theorem registered_user_can_log_in (host : AuthSystem.Host)
    (self : AuthSystem.t) (file : AuthSystem.users_json)
    (username email password : string)
    (prefs : option (gmap string Json.value)) :
  AuthSystem.users self !! username = None ->
  AuthSystem.can_write host = true ->
  (forall p, prefs = Some p -> p !! "password_hash" = None) ->
  exists self',
    AuthSystem.register_user host self file username email password prefs
    = (Return true, self', AuthSystem.Stored (AuthSystem.users self')) /\
    AuthSystem.authenticate_user host self' username password = Return true /\
    AuthSystem.authenticate_user host
      (AuthSystem.init (AuthSystem.Stored (AuthSystem.users self')))
      username password = Return true /\
    (forall password',
        AuthSystem.hash_password host password'
        <> AuthSystem.hash_password host password ->
        AuthSystem.authenticate_user host self' username password'
        = Return false) /\
    (forall other, other <> username ->
                   AuthSystem.users self' !! other
                   = AuthSystem.users self !! other).
Proof.
  intros Hfresh Hwrite Hprefs.
  rewrite register_user_fresh by done. cbv zeta. rewrite Hwrite.
  eexists. split; [reflexivity|].
  pose proof (account_password_hash host username email password prefs Hprefs)
    as Hhash.
  split; [|split; [|split]].
  - erewrite authenticate_registered;
      [|by apply lookup_insert_eq|exact Hhash].
    by rewrite String.eqb_refl.
  - unfold AuthSystem.init, AuthSystem.load_users.
    erewrite authenticate_registered;
      [|by apply lookup_insert_eq|exact Hhash].
    by rewrite String.eqb_refl.
  - intros password' Hne.
    erewrite authenticate_registered;
      [|by apply lookup_insert_eq|exact Hhash].
    f_equal. apply String.eqb_neq. congruence.
  - intros other Hne. simpl. by rewrite lookup_insert_ne.
Qed.

Lemma registered_user_can_log_in_witness :
  exists self',
    AuthSystem.register_user example_host (AuthSystem.init AuthSystem.Missing)
      AuthSystem.Missing "asha" "asha@example.org" "s3cret!" (Some signup_prefs)
    = (Return true, self', AuthSystem.Stored (AuthSystem.users self')) /\
    AuthSystem.authenticate_user example_host self' "asha" "s3cret!"
    = Return true /\
    AuthSystem.authenticate_user example_host
      (AuthSystem.init (AuthSystem.Stored (AuthSystem.users self')))
      "asha" "s3cret!" = Return true /\
    (forall password',
        AuthSystem.hash_password example_host password'
        <> AuthSystem.hash_password example_host "s3cret!" ->
        AuthSystem.authenticate_user example_host self' "asha" password'
        = Return false) /\
    (forall other, other <> "asha" ->
                   AuthSystem.users self' !! other
                   = AuthSystem.users (AuthSystem.init AuthSystem.Missing)
                       !! other).
Proof.
  apply (registered_user_can_log_in example_host
           (AuthSystem.init AuthSystem.Missing) AuthSystem.Missing
           "asha" "asha@example.org" "s3cret!" (Some signup_prefs)).
  - reflexivity.
  - reflexivity.
  - intros p [= <-]. vm_compute. reflexivity.
Defined.

(** X18.  The first registration of a username wins.  Once a username is
    registered, registering it again, with any e-mail, password and
    preferences, returns [False] and changes neither the users nor the
    file, so the first password still authenticates and the second one
    does not unless it has the same digest. *)
Theorem taken_username_is_kept (host : AuthSystem.Host) (self : AuthSystem.t)
    (file : AuthSystem.users_json) (username email1 password1 : string)
    (prefs1 : option (gmap string Json.value)) (email2 password2 : string)
    (prefs2 : option (gmap string Json.value)) :
  AuthSystem.users self !! username = None ->
  AuthSystem.can_write host = true ->
  (forall p, prefs1 = Some p -> p !! "password_hash" = None) ->
  exists self1 file1,
    AuthSystem.register_user host self file username email1 password1 prefs1
    = (Return true, self1, file1) /\
    AuthSystem.register_user host self1 file1 username email2 password2 prefs2
    = (Return false, self1, file1) /\
    AuthSystem.authenticate_user host self1 username password1 = Return true /\
    (AuthSystem.hash_password host password2
     <> AuthSystem.hash_password host password1 ->
     AuthSystem.authenticate_user host self1 username password2
     = Return false).
Proof.
  intros Hfresh Hwrite Hprefs.
  rewrite register_user_fresh by done. cbv zeta. rewrite Hwrite.
  eexists _, _. split; [reflexivity|].
  pose proof (account_password_hash host username email1 password1 prefs1
                Hprefs) as Hhash.
  split; [|split].
  - unfold AuthSystem.register_user. simpl AuthSystem.users.
    by rewrite lookup_insert_eq.
  - erewrite authenticate_registered;
      [|by apply lookup_insert_eq|exact Hhash].
    by rewrite String.eqb_refl.
  - intros Hne.
    erewrite authenticate_registered;
      [|by apply lookup_insert_eq|exact Hhash].
    f_equal. apply String.eqb_neq. congruence.
Qed.

Lemma taken_username_is_kept_witness :
  exists self1 file1,
    AuthSystem.register_user example_host (AuthSystem.init AuthSystem.Missing)
      AuthSystem.Missing "asha" "asha@example.org" "s3cret!" (Some signup_prefs)
    = (Return true, self1, file1) /\
    AuthSystem.register_user example_host self1 file1 "asha"
      "other@example.org" "hunter2" None
    = (Return false, self1, file1) /\
    AuthSystem.authenticate_user example_host self1 "asha" "s3cret!"
    = Return true /\
    (AuthSystem.hash_password example_host "hunter2"
     <> AuthSystem.hash_password example_host "s3cret!" ->
     AuthSystem.authenticate_user example_host self1 "asha" "hunter2"
     = Return false).
Proof.
  apply (taken_username_is_kept example_host
           (AuthSystem.init AuthSystem.Missing) AuthSystem.Missing
           "asha" "asha@example.org" "s3cret!" (Some signup_prefs)
           "other@example.org" "hunter2" None).
  - reflexivity.
  - reflexivity.
  - intros p [= <-]. vm_compute. reflexivity.
Defined.

(** X19.  A registration that cannot be saved is half done.  When
    [users.json] cannot be opened for writing, registering a new username
    raises, after the user was added to the object: the file is as
    before, the password authenticates against the object, and a fresh
    [AuthSystem()] loaded from the file does not know the user. *)
Theorem unsaved_registration_is_half_done (host : AuthSystem.Host)
    (file : AuthSystem.users_json) (username email password : string)
    (prefs : option (gmap string Json.value)) :
  let self := AuthSystem.init file in
  AuthSystem.users self !! username = None ->
  AuthSystem.can_write host = false ->
  (forall p, prefs = Some p -> p !! "password_hash" = None) ->
  exists e self',
    AuthSystem.register_user host self file username email password prefs
    = (Raise e, self', file) /\
    AuthSystem.authenticate_user host self' username password = Return true /\
    AuthSystem.authenticate_user host (AuthSystem.init file) username password
    = Return false.
Proof.
  intros self Hfresh Hwrite Hprefs.
  rewrite register_user_fresh by done. cbv zeta. rewrite Hwrite.
  eexists _, _. split; [reflexivity|].
  pose proof (account_password_hash host username email password prefs Hprefs)
    as Hhash.
  split.
  - erewrite authenticate_registered;
      [|by apply lookup_insert_eq|exact Hhash].
    by rewrite String.eqb_refl.
  - fold self. unfold AuthSystem.authenticate_user. by rewrite Hfresh.
Qed.

Lemma unsaved_registration_is_half_done_witness :
  exists e self',
    AuthSystem.register_user read_only_host (AuthSystem.init AuthSystem.Missing)
      AuthSystem.Missing "asha" "asha@example.org" "s3cret!" (Some signup_prefs)
    = (Raise e, self', AuthSystem.Missing) /\
    AuthSystem.authenticate_user read_only_host self' "asha" "s3cret!"
    = Return true /\
    AuthSystem.authenticate_user read_only_host
      (AuthSystem.init AuthSystem.Missing) "asha" "s3cret!"
    = Return false.
Proof.
  apply (unsaved_registration_is_half_done read_only_host AuthSystem.Missing
           "asha" "asha@example.org" "s3cret!" (Some signup_prefs)).
  - reflexivity.
  - reflexivity.
  - intros p [= <-]. vm_compute. reflexivity.
Defined.

(** ** The quiz (aitutor/app1.py and aitutor/main.py) *)






(** ** The draft-then-refine pipeline (RAG_implementation/main.py) *)

Lemma contains_middle pre needle post :
  PyStr.contains needle (pre +:+ needle +:+ post).
Proof. by exists pre, post. Qed.

(** X22.  [generate] calls the LLM twice, the second time on its own
    draft.  When the first completion returns a draft, the log of LLM
    calls grows by the draft prompt followed by the refine prompt for
    that draft, whatever happens later; both prompts contain the same
    combined context, and the refine prompt contains the draft.  When
    [generate] returns, the state keeps input, docs and memory, its draft
    is the first completion and its answer the second. *)
Theorem generate_refines_its_own_draft (env : Env) (self : TwoStage.t)
    (st : TwoStage.state) (d : string) (w : World) :
  llm_complete env (llm_log w) (TwoStage.draft_prompt st) = Return d ->
  llm_log (snd (TwoStage.generate env self st w))
  = (llm_log w ++ [TwoStage.draft_prompt st; TwoStage.refine_prompt st d])%list /\
  PyStr.contains (TwoStage.combined_context st) (TwoStage.draft_prompt st) /\
  PyStr.contains (TwoStage.combined_context st) (TwoStage.refine_prompt st d) /\
  PyStr.contains d (TwoStage.refine_prompt st d) /\
  (forall st' w',
      TwoStage.generate env self st w = (Return st', w') ->
      exists final,
        llm_complete env (llm_log w ++ [TwoStage.draft_prompt st])
          (TwoStage.refine_prompt st d) = Return final /\
        st' = TwoStage.mkState (TwoStage.input st) (TwoStage.docs st)
                (TwoStage.memory st) (Some d) (Some final)).
Proof.
  intros Hd.
  assert (Hgen : TwoStage.generate env self st w
            = let w1 := with_llm_log (llm_log w ++ [TwoStage.draft_prompt st]) w in
              let w2 := with_llm_log
                          (llm_log w1 ++ [TwoStage.refine_prompt st d]) w1 in
              match llm_complete env (llm_log w1) (TwoStage.refine_prompt st d) with
              | Return final =>
                  match ChromaStore.add_documents env
                          (TwoStage.memory_vectorstore self)
                          [TwoStage.memory_doc (TwoStage.input st) final] w2 with
                  | (Return _, w3) =>
                      (Return (TwoStage.mkState (TwoStage.input st)
                                 (TwoStage.docs st) (TwoStage.memory st)
                                 (Some d) (Some final)), w3)
                  | (Raise e, w3) => (Raise e, w3)
                  end
              | Raise e => (Raise e, w2)
              end).
  { unfold TwoStage.generate. unfold bind at 1. unfold llm_invoke at 1.
    rewrite Hd. unfold bind at 1. unfold llm_invoke at 1. cbv zeta.
    simpl llm_log.
    destruct (llm_complete env _ (TwoStage.refine_prompt st d)); [|done].
    unfold bind, ret.
    by destruct (ChromaStore.add_documents _ _ _ _) as [[[]|e] w3]. }
  split; [|split; [|split; [|split]]].
  - rewrite Hgen. cbv zeta. simpl llm_log.
    destruct (llm_complete env _ (TwoStage.refine_prompt st d)) as [final|e].
    + rewrite add_documents_eq. cbv zeta.
      destruct (store_up env _); [destruct (forallb _ _)|]; simpl;
        by rewrite <- (assoc_L (++)).
    + simpl. by rewrite <- (assoc_L (++)).
  - unfold TwoStage.draft_prompt.
    rewrite <- append_assoc, <- append_assoc. apply contains_middle.
  - unfold TwoStage.refine_prompt.
    do 6 rewrite <- append_assoc. rewrite (append_assoc _ PyStr.nl).
    rewrite !append_assoc.
    exists ("Refine the following draft answer using only the given context and memory."
            +:+ PyStr.nl
            +:+ "Ensure it is well-written, clear, and grounded in source content."
            +:+ PyStr.nl +:+ PyStr.nl +:+ "Context:" +:+ PyStr.nl),
           (PyStr.nl +:+ PyStr.nl +:+ "Draft Answer:" +:+ PyStr.nl +:+ d
            +:+ PyStr.nl +:+ PyStr.nl +:+ "Refined Answer:").
    by rewrite !append_assoc.
  - unfold TwoStage.refine_prompt.
    exists ("Refine the following draft answer using only the given context and memory."
            +:+ PyStr.nl
            +:+ "Ensure it is well-written, clear, and grounded in source content."
            +:+ PyStr.nl +:+ PyStr.nl +:+ "Context:" +:+ PyStr.nl
            +:+ TwoStage.combined_context st
            +:+ PyStr.nl +:+ PyStr.nl +:+ "Draft Answer:" +:+ PyStr.nl),
           (PyStr.nl +:+ PyStr.nl +:+ "Refined Answer:").
    by rewrite !append_assoc.
  - intros st' w'. rewrite Hgen. cbv zeta. simpl llm_log.
    destruct (llm_complete env _ (TwoStage.refine_prompt st d)) as [final|e];
      [|done].
    destruct (ChromaStore.add_documents _ _ _ _) as [[[]|e] w3]; [|done].
    intros [= <- <-]. by exists final.
Qed.

Lemma generate_refines_its_own_draft_witness :
  let st := TwoStage.mkState "What is a cell?" [] [] None None in
  llm_log (snd (TwoStage.generate quiet_env two_stage_stores st empty_world))
  = (llm_log empty_world
     ++ [TwoStage.draft_prompt st; TwoStage.refine_prompt st "An answer."])%list /\
  PyStr.contains (TwoStage.combined_context st) (TwoStage.draft_prompt st) /\
  PyStr.contains (TwoStage.combined_context st)
    (TwoStage.refine_prompt st "An answer.") /\
  PyStr.contains "An answer." (TwoStage.refine_prompt st "An answer.") /\
  (forall st' w',
      TwoStage.generate quiet_env two_stage_stores st empty_world
      = (Return st', w') ->
      exists final,
        llm_complete quiet_env (llm_log empty_world ++ [TwoStage.draft_prompt st])
          (TwoStage.refine_prompt st "An answer.") = Return final /\
        st' = TwoStage.mkState (TwoStage.input st) (TwoStage.docs st)
                (TwoStage.memory st) (Some "An answer.") (Some final)).
Proof.
  intros st.
  apply (generate_refines_its_own_draft quiet_env two_stage_stores st
           "An answer." empty_world).
  reflexivity.
Defined.

(** X23.  A failed generation stores nothing.  When [generate] raises,
    whether in the draft call, in the refine call or while the record is
    written, every collection is as it was before the call, so no memory
    record exists for an answer that was not returned. *)
Theorem failed_generation_stores_nothing (env : Env) (self : TwoStage.t)
    (st : TwoStage.state) (w w' : World) (e : exn) :
  TwoStage.generate env self st w = (Raise e, w') ->
  forall c, ChromaStore.documents c w' = ChromaStore.documents c w.
Proof.
  unfold TwoStage.generate. unfold bind at 1. unfold llm_invoke at 1.
  destruct (llm_complete env (llm_log w) _) as [draft|e1].
  - unfold bind at 1. unfold llm_invoke at 1.
    destruct (llm_complete env _ _) as [final|e2].
    + unfold bind at 1. rewrite add_documents_eq. cbv zeta.
      destruct (store_up env _); [destruct (forallb _ _)|];
        [done|by intros [= <- <-]|by intros [= <- <-]].
    + by intros [= <- <-].
  - by intros [= <- <-].
Qed.

Lemma failed_generation_stores_nothing_witness :
  ChromaStore.documents (TwoStage.memory_vectorstore two_stage_stores)
    (with_llm_log
       [TwoStage.draft_prompt
          (TwoStage.mkState "What is a cell?" [] [] None None)]
       stocked_world)
  = ChromaStore.documents (TwoStage.memory_vectorstore two_stage_stores)
      stocked_world.
Proof.
  apply (failed_generation_stores_nothing llm_down_env two_stage_stores
           (TwoStage.mkState "What is a cell?" [] [] None None)
           stocked_world
           (with_llm_log
              [TwoStage.draft_prompt
                 (TwoStage.mkState "What is a cell?" [] [] None None)]
              stocked_world)
           (ServiceError "LLM request failed")).
  reflexivity.
Defined.

(** X24.  A query of the draft-then-refine pipeline works on what was
    stored before it.  When [app.invoke] returns, the state holds the
    query as input, at most 4 document chunks and at most 2 memories,
    all of them taken from the two collections as they were before the
    call, so the record written by this call is not among the memories
    it used; the memory collection then holds one record more. *)
Theorem query_uses_earlier_memories (env : Env) (self : TwoStage.t)
    (q : string) (w w' : World) (st' : TwoStage.state) :
  TwoStage.invoke env self q w = (Return st', w') ->
  TwoStage.input st' = q /\
  length (TwoStage.docs st') <= 4 /\
  length (TwoStage.memory st') <= 2 /\
  TwoStage.docs st' ⊆ ChromaStore.documents (TwoStage.doc_vectorstore self) w /\
  TwoStage.memory st'
    ⊆ ChromaStore.documents (TwoStage.memory_vectorstore self) w /\
  length (ChromaStore.documents (TwoStage.memory_vectorstore self) w')
  = S (length (ChromaStore.documents (TwoStage.memory_vectorstore self) w)).
Proof.
  unfold TwoStage.invoke, TwoStage.retrieve. unfold bind at 1. unfold bind at 1.
  destruct (ChromaStore.retrieve env (TwoStage.doc_vectorstore self) 4 q w)
    as [[docs|e] w1] eqn:Hdocs; [|done].
  apply retrieve_returns in Hdocs as (-> & Hlen1 & Hsub1).
  unfold bind at 1.
  destruct (ChromaStore.retrieve env (TwoStage.memory_vectorstore self) 2 q w)
    as [[mem|e] w2] eqn:Hmem; [|done].
  apply retrieve_returns in Hmem as (-> & Hlen2 & Hsub2).
  unfold ret at 1. unfold TwoStage.generate.
  unfold bind at 1. unfold llm_invoke at 1.
  destruct (llm_complete env (llm_log w) _) as [draft|e1]; [|done].
  unfold bind at 1. unfold llm_invoke at 1.
  destruct (llm_complete env _ _) as [final|e2]; [|done].
  unfold bind at 1.
  destruct (ChromaStore.add_documents env _ _ _) as [[[]|e3] w3] eqn:Hadd;
    [|done].
  unfold ret. intros [= <- <-]. simpl.
  apply add_documents_appends in Hadd as [Hadd _].
  repeat (split; [done|]).
  rewrite Hadd, length_app. simpl.
  unfold ChromaStore.documents. simpl. lia.
Qed.

Lemma query_uses_earlier_memories_witness :
  let r := TwoStage.invoke quiet_env two_stage_stores "What is a cell?"
             empty_world in
  let st' := TwoStage.mkState "What is a cell?" [] [] (Some "An answer.")
               (Some "An answer.") in
  TwoStage.input st' = "What is a cell?" /\
  length (TwoStage.docs st') <= 4 /\
  length (TwoStage.memory st') <= 2 /\
  TwoStage.docs st'
    ⊆ ChromaStore.documents (TwoStage.doc_vectorstore two_stage_stores)
        empty_world /\
  TwoStage.memory st'
    ⊆ ChromaStore.documents (TwoStage.memory_vectorstore two_stage_stores)
        empty_world /\
  length (ChromaStore.documents (TwoStage.memory_vectorstore two_stage_stores)
            (snd r))
  = S (length (ChromaStore.documents
                 (TwoStage.memory_vectorstore two_stage_stores) empty_world)).
Proof.
  intros r st'.
  apply (query_uses_earlier_memories quiet_env two_stage_stores
           "What is a cell?" empty_world (snd r) st').
  vm_compute. reflexivity.
Defined.

(** ** The Streamlit application when a store fails *)







(** ** Upload and status together *)

Lemma count_file_types_lookup docs file_type :
  VectorStoreManager.count_file_types docs !! file_type
  = if decide (chunks_of_type file_type docs = 0) then None
    else Some (chunks_of_type file_type docs).
Proof.
  unfold VectorStoreManager.count_file_types.
  rewrite count_file_types_from, lookup_empty.
  by destruct (chunks_of_type file_type docs).
Qed.

Lemma batch_typed env proc files : typed (batch env proc files).
Proof.
  unfold typed. induction files as [|file_path rest IH]; [by constructor|].
  simpl. destruct (chunks_of env proc file_path) as [documents ok] eqn:Hc.
  apply Forall_app. split; [|done].
  destruct ok; [|by constructor].
  unfold chunks_of, extracted in Hc.
  destruct (String.eqb _ ".pdf").
  - destruct (PyStr.truthy _); injection Hc as <-.
    + unfold DocumentProcessor.create_documents. apply Forall_fmap.
      apply Forall_true. intros chunk. left.
      unfold DocumentProcessor.file_metadata. by simplify_map_eq.
    + by constructor.
  - destruct (String.eqb _ ".txt"); [|by injection Hc as <-; constructor].
    destruct (PyStr.truthy _); injection Hc as <-.
    + unfold DocumentProcessor.create_documents. apply Forall_fmap.
      apply Forall_true. intros chunk. right.
      unfold DocumentProcessor.file_metadata. by simplify_map_eq.
    + by constructor.
Qed.

Lemma typed_partition docs :
  typed docs ->
  chunks_of_type "pdf" docs + chunks_of_type "txt" docs = length docs /\
  forall file_type, file_type <> "pdf" -> file_type <> "txt" ->
                    chunks_of_type file_type docs = 0.
Proof.
  unfold typed, chunks_of_type. induction 1 as [|d docs Hd _ [IH1 IH2]].
  - done.
  - rewrite !filter_cons. split.
    + destruct Hd as [Hd|Hd]; rewrite Hd.
      * rewrite decide_True by done. rewrite decide_False by done.
        simpl. lia.
      * rewrite decide_False by done. rewrite decide_True by done.
        simpl. lia.
    + intros file_type Hpdf Htxt. rewrite filter_cons.
      rewrite decide_False by (destruct Hd as [-> | ->]; congruence).
      by apply IH2.
Qed.

(** X26.  Uploads keep the status complete.  Every chunk [upload_documents]
    stores names pdf or txt as its file type.  So when the knowledge
    collection holds only such chunks, it still does after an upload,
    whatever the result, and the status then reports per-type counts for
    pdf and txt that add up to the total number of chunks, with no other
    type listed. *)
Theorem uploads_keep_status_complete (env : Env) (self : UploadService.t)
    (directory : string) (file_types : option (list string)) (w : World) :
  let vm := UploadService.vector_manager self in
  let kb := VectorStoreManager.knowledge_vectorstore vm in
  typed (ChromaStore.documents kb w) ->
  exists res w' st,
    UploadService.upload_documents env self directory file_types w
      = (Return res, w') /\
    typed (ChromaStore.documents kb w') /\
    VectorStoreManager.get_knowledge_base_status env vm w' = (Return st, w') /\
    (VectorStoreManager.success st = true ->
     default 0 (VectorStoreManager.file_types st !! "pdf")
     + default 0 (VectorStoreManager.file_types st !! "txt")
     = VectorStoreManager.total_chunks st /\
     forall file_type, file_type <> "pdf" -> file_type <> "txt" ->
                       VectorStoreManager.file_types st !! file_type = None).
Proof.
  intros vm kb Htyped.
  destruct (upload_documents_run env self directory file_types w)
    as (res & w' & Hrun & Hcases).
  cbv zeta in Hcases. fold vm in Hcases. fold kb in Hcases.
  assert (Htyped' : typed (ChromaStore.documents kb w')).
  { pose proof (batch_typed env (UploadService.processor self)
                  (DocumentProcessor.get_files_by_type env directory
                     (Some (default [".pdf"; ".txt"] file_types)))) as Hb.
    destruct (DocumentProcessor.get_files_by_type _ _ _) as [|f files].
    { by destruct Hcases as [_ ->]. }
    destruct (batch env _ (f :: files)) as [|d ds].
    { destruct Hcases as [_ Hp]. unfold ChromaStore.documents.
      by destruct (printed_stores _ _ Hp) as (-> & _). }
    destruct (accepts env kb (d :: ds)).
    - destruct Hcases as (_ & -> & _). by apply Forall_app.
    - destruct Hcases as (_ & -> & _). done. }
  destruct (typed_partition _ Htyped') as [Hsum Hother].
  exists res, w'. eexists. split; [exact Hrun|]. split; [exact Htyped'|].
  rewrite get_knowledge_base_status_eq. fold kb.
  split; [reflexivity|].
  destruct (store_up env kb); [|done]. intros _. simpl.
  destruct (ChromaStore.documents kb w') as [|d docs] eqn:Hdocs; [done|].
  change (Nat.ltb 0 (length (d :: docs))) with true. cbv iota.
  rewrite <- Hsum. split.
  - rewrite !count_file_types_lookup.
    destruct (chunks_of_type "pdf" (d :: docs)),
             (chunks_of_type "txt" (d :: docs)); done.
  - intros file_type Hpdf Htxt. rewrite count_file_types_lookup.
    by rewrite (Hother file_type Hpdf Htxt).
Qed.

Lemma uploads_keep_status_complete_witness :
  let vm := UploadService.vector_manager
              (RAGAssistant.upload_service the_assistant) in
  let kb := VectorStoreManager.knowledge_vectorstore vm in
  exists res w' st,
    UploadService.upload_documents mixed_files_env
      (RAGAssistant.upload_service the_assistant) Config.uploads_directory
      None empty_world = (Return res, w') /\
    typed (ChromaStore.documents kb w') /\
    VectorStoreManager.get_knowledge_base_status mixed_files_env vm w'
    = (Return st, w') /\
    (VectorStoreManager.success st = true ->
     default 0 (VectorStoreManager.file_types st !! "pdf")
     + default 0 (VectorStoreManager.file_types st !! "txt")
     = VectorStoreManager.total_chunks st /\
     forall file_type, file_type <> "pdf" -> file_type <> "txt" ->
                       VectorStoreManager.file_types st !! file_type = None).
Proof.
  apply (uploads_keep_status_complete mixed_files_env
           (RAGAssistant.upload_service the_assistant)
           Config.uploads_directory None empty_world).
  by constructor.
Defined.
